(** * Adaptive file encryptor: the dashboard script [ui/script.js]

    A shallow embedding of the browser script that drives the three
    workflows (encrypt, compare, decrypt) of the dashboard, and the
    properties of its specification proved or refuted on it.

    Conventions of the embedding.
    - A JavaScript string is the [string] of the bytes of its UTF-8
      encoding (well-formed strings; a lone surrogate has no image).
    - A JavaScript number is a binary64 [float]; its exact value is read
      through [Prim2SF] and decimal literals are rounded to nearest-even.
    - The DOM the script touches is a record of the properties it reads
      and writes; an exception is a value of the error monad [M]. *)

From Stdlib Require Import Bool Arith ZArith Lia List String Ascii.
From Stdlib Require Import DecimalString Floats.
Import ListNotations.

Set Warnings "-register-all".

Open Scope list_scope.
Open Scope string_scope.

(** ** Strings *)

Module JsString.

(** The double quote, by its code (a literal cannot hold it). *)
Definition dquote : ascii := ascii_of_nat 34.

Definition bytes (codes : list nat) : string :=
  string_of_list_ascii (map ascii_of_nat codes).

Definition code (c : ascii) : nat := nat_of_ascii c.

Fixpoint rev_string (s : string) : string :=
  match s with
  | EmptyString => EmptyString
  | String c s' => rev_string s' ++ String c EmptyString
  end.

(** [strip_prefix p s] is what follows [p] in [s], when [s] starts with [p]. *)
Fixpoint strip_prefix (p s : string) : option string :=
  match p, s with
  | EmptyString, _ => Some s
  | String a p', String b s' => if Ascii.eqb a b then strip_prefix p' s' else None
  | String _ _, EmptyString => None
  end.

Definition startsWith (s p : string) : bool :=
  match strip_prefix p s with Some _ => true | None => false end.

(** [String.prototype.includes]. *)
Fixpoint includes (s sub : string) : bool :=
  startsWith s sub ||
  match s with
  | EmptyString => false
  | String _ s' => includes s' sub
  end.

Fixpoint strip_any (toks : list string) (s : string) : option string :=
  match toks with
  | [] => None
  | t :: toks' =>
      match strip_prefix t s with
      | Some r => Some r
      | None => strip_any toks' s
      end
  end.

(** Strips leading tokens of [toks] for as long as one is in front. *)
Fixpoint drop_tokens (toks : list string) (fuel : nat) (s : string) : string :=
  match fuel with
  | O => s
  | S fuel' =>
      match strip_any toks s with
      | Some r => drop_tokens toks fuel' r
      | None => s
      end
  end.

(** ECMAScript's WhiteSpace and LineTerminator code points, each as its
    UTF-8 bytes: TAB LF VT FF CR SP, U+00A0, U+1680, U+2000..U+200A,
    U+2028, U+2029, U+202F, U+205F, U+3000 and U+FEFF. *)
Definition WhiteSpace : list string :=
  map bytes
    [ [9]; [10]; [11]; [12]; [13]; [32];
      [194; 160]; [225; 154; 128];
      [226; 128; 128]; [226; 128; 129]; [226; 128; 130]; [226; 128; 131];
      [226; 128; 132]; [226; 128; 133]; [226; 128; 134]; [226; 128; 135];
      [226; 128; 136]; [226; 128; 137]; [226; 128; 138];
      [226; 128; 168]; [226; 128; 169]; [226; 128; 175];
      [226; 129; 159]; [227; 128; 128]; [239; 187; 191] ].

Definition WhiteSpace_rev : list string := map rev_string WhiteSpace.

(** A string made of tokens of [toks], one after the other. *)
Inductive Tokens (toks : list string) : string -> Prop :=
| Tokens_nil : Tokens toks ""
| Tokens_cons t s : In t toks -> Tokens toks s -> Tokens toks (t ++ s).

(** No token is empty, and none starts another. *)
Definition prefix_free (toks : list string) : bool :=
  forallb (fun t1 =>
    negb (String.eqb t1 "") &&
    forallb (fun t2 => negb (startsWith t2 t1) || String.eqb t1 t2) toks) toks.




(** White space: a string of white-space characters only. *)
Definition Blank (s : string) : Prop := Tokens WhiteSpace s.

(** [String.prototype.trimStart], [trimEnd] and [trim]. *)
Definition trimStart (s : string) : string :=
  drop_tokens WhiteSpace (length s) s.

Definition trimEnd (s : string) : string :=
  rev_string (drop_tokens WhiteSpace_rev (length s) (rev_string s)).

Definition trim (s : string) : string := trimEnd (trimStart s).

(** [String.prototype.split] with a non-empty separator (the script
    splits on ["filename="] and on ["/"] only). *)
Fixpoint split_go (fuel : nat) (sep s : string) : list string :=
  match fuel with
  | O => [s]
  | S fuel' =>
      match strip_prefix sep s with
      | Some rest => EmptyString :: split_go fuel' sep rest
      | None =>
          match s with
          | EmptyString => [EmptyString]
          | String c s' =>
              match split_go fuel' sep s' with
              | h :: t => String c h :: t
              | [] => [String c EmptyString]
              end
          end
      end
  end.

Definition split (s sep : string) : list string :=
  split_go (S (length s)) sep s.

(** No occurrence of [sep] in [a ++ rest] starts inside [a]. *)
Definition clear_before (sep a rest : string) : Prop :=
  forall a1 a2, a = a1 ++ a2 -> a2 <> "" -> strip_prefix sep (a2 ++ rest) = None.

(** [Array.prototype.pop] on the array a split returns: its last element. *)
Definition pop (l : list string) : string := last l EmptyString.

(** [s.replace(/c/g, '')]: every occurrence of the character removed. *)
Fixpoint remove_char (c : ascii) (s : string) : string :=
  match s with
  | EmptyString => EmptyString
  | String a s' =>
      if Ascii.eqb a c then remove_char c s' else String a (remove_char c s')
  end.

Fixpoint join (sep : string) (l : list string) : string :=
  match l with
  | [] => EmptyString
  | [x] => x
  | x :: l' => x ++ sep ++ join sep l'
  end.

Definition lower_char (c : ascii) : ascii :=
  let n := code c in
  if (65 <=? n)%nat && (n <=? 90)%nat then ascii_of_nat (n + 32) else c.

Fixpoint toLowerCase_ascii (s : string) : string :=
  match s with
  | EmptyString => EmptyString
  | String c s' => String (lower_char c) (toLowerCase_ascii s')
  end.

Definition is_digit (c : ascii) : bool :=
  let n := code c in (48 <=? n)%nat && (n <=? 57)%nat.

(** The characters [encodeURIComponent] leaves as they are. *)
Definition uri_unreserved (c : ascii) : bool :=
  let n := code c in
  ((65 <=? n)%nat && (n <=? 90)%nat) || ((97 <=? n)%nat && (n <=? 122)%nat)
  || is_digit c
  || existsb (Ascii.eqb c) (list_ascii_of_string "-_.!~*'()").

Definition hex_digit (n : nat) : ascii :=
  match get n "0123456789ABCDEF" with Some c => c | None => "0"%char end.

Definition percent_encode (c : ascii) : string :=
  let n := code c in
  String "%" (String (hex_digit (n / 16)) (String (hex_digit (n mod 16)) EmptyString)).

(** [encodeURIComponent]: every byte of the UTF-8 encoding that is not
    unreserved becomes [%XX]. *)
Fixpoint encodeURIComponent (s : string) : string :=
  match s with
  | EmptyString => EmptyString
  | String c s' =>
      (if uri_unreserved c then String c EmptyString else percent_encode c)
      ++ encodeURIComponent s'
  end.

(** The [length] of the JavaScript string: its UTF-16 code units, one per
    character and two per character outside the basic plane. *)
Fixpoint utf16_length (s : string) : nat :=
  match s with
  | EmptyString => 0
  | String c s' =>
      let n := code c in
      (if (128 <=? n)%nat && (n <=? 191)%nat then 0
       else if (240 <=? n)%nat then 2 else 1) + utf16_length s'
  end.

(** Decimal digits of an integer, as a template literal prints it. *)
Definition decimal (z : Z) : string :=
  NilZero.string_of_int (Z.to_int z).

Definition quoted (s : string) : string :=
  String dquote (s ++ String dquote EmptyString).

End JsString.

(** ** Numbers *)

Module JsNumber.
Import JsString.

(** The double nearest to the rational [num / den] (ties to even), with
    the sign given apart so that a negative zero can be told. *)
Definition round_ratio (neg : bool) (num den : positive) : float :=
  SF2Prim (SFdiv prec emax (S754_finite neg num 0) (S754_finite false den 0)).

Definition digit_count (p : positive) : Z :=
  Z.of_nat (length (decimal (Zpos p))).

(** The double nearest to [m * 10 ^ k]. Far outside the binary64 range the
    result is known from the number of digits alone. *)
Definition round_decimal (neg : bool) (m : Z) (k : Z) : float :=
  match m with
  | Zpos p =>
      if (310 <? digit_count p + k)%Z then (if neg then neg_infinity else infinity)
      else if (digit_count p + k <? -330)%Z then (if neg then neg_zero else zero)
      else if (0 <=? k)%Z then round_ratio neg (p * Z.to_pos (10 ^ k)) 1
      else round_ratio neg p (Z.to_pos (10 ^ (- k)))
  | _ => if neg then neg_zero else zero
  end.

Fixpoint take_digits (s : string) : string * string :=
  match s with
  | String c s' =>
      if is_digit c then let (d, r) := take_digits s' in (String c d, r)
      else (EmptyString, s)
  | EmptyString => (EmptyString, EmptyString)
  end.

Fixpoint digits_value_from (acc : Z) (ds : string) : Z :=
  match ds with
  | EmptyString => acc
  | String c ds' => digits_value_from (10 * acc + Z.of_nat (code c - 48)) ds'
  end.

Definition digits_value (ds : string) : Z := digits_value_from 0 ds.

(** An optional sign in front: whether it is a minus, and what follows. *)
Definition take_sign (s : string) : bool * string :=
  match s with
  | String "-" s' => (true, s')
  | String "+" s' => (false, s')
  | _ => (false, s)
  end.

(** ExponentPart, when one is there in full: its value and what follows. *)
Definition take_exponent (s : string) : Z * string :=
  match s with
  | String c s' =>
      if Ascii.eqb c "e" || Ascii.eqb c "E" then
        let (neg, s'') := take_sign s' in
        let (ds, rest) := take_digits s'' in
        match ds with
        | EmptyString => (0%Z, s)
        | _ => ((if neg then - digits_value ds else digits_value ds)%Z, rest)
        end
      else (0%Z, s)
  | EmptyString => (0%Z, s)
  end.

(** The longest prefix of [s] that is a StrDecimalLiteral: its Number value
    and the rest of [s]; [None] when no prefix is one. *)
Definition parse_decimal (s : string) : option (float * string) :=
  let (neg, s1) := take_sign s in
  match strip_prefix "Infinity" s1 with
  | Some rest => Some (if neg then neg_infinity else infinity, rest)
  | None =>
      let (ip, s2) := take_digits s1 in
      match s2 with
      | String "." s3 =>
          let (fp, s4) := take_digits s3 in
          match ip, fp with
          | EmptyString, EmptyString => None
          | _, _ =>
              let (ex, rest) := take_exponent s4 in
              Some (round_decimal neg (digits_value (ip ++ fp))
                      (ex - Z.of_nat (length fp)), rest)
          end
      | _ =>
          match ip with
          | EmptyString => None
          | _ =>
              let (ex, rest) := take_exponent s2 in
              Some (round_decimal neg (digits_value ip) ex, rest)
          end
      end
  end.

(** The global [parseFloat]. *)
Definition parseFloat (s : string) : float :=
  match parse_decimal (trimStart s) with
  | Some (x, _) => x
  | None => nan
  end.

(** The exact value of a finite non-zero double, as a fraction. *)
Definition ratio_of (m : positive) (e : Z) : positive * positive :=
  match e with
  | Zneg k => (m, Pos.pow 2 k)
  | _ => ((m * Z.to_pos (2 ^ e))%positive, 1%positive)
  end.

Fixpoint zeros (n : nat) : string :=
  match n with
  | O => EmptyString
  | S n' => String "0" (zeros n')
  end.

(** [Number.prototype.toFixed] on the non-negative fraction [num / den]
    below [10 ^ 21]: the integer [n] with [n / 10 ^ f] nearest to it, the
    larger one on a tie. *)
Definition fixed_integer (num : Z) (den : positive) (f : nat) : Z :=
  ((2 * num * 10 ^ Z.of_nat f + Zpos den) / (2 * Zpos den))%Z.

(** The digits [m], padded to more than [f] of them, with the point [f]
    digits from the right. *)
Definition place_point (m : string) (f : nat) : string :=
  let m := zeros (S f - length m) ++ m in
  match f with
  | O => m
  | _ => substring 0 (length m - f) m ++ "." ++ substring (length m - f) f m
  end.

Definition fixed_digits (num : Z) (den : positive) (f : nat) : string :=
  place_point (decimal (fixed_integer num den f)) f.

Fixpoint strip_zeros_rev (s : string) : string :=
  match s with
  | String "0" s' => strip_zeros_rev s'
  | _ => s
  end.

Definition strip_trailing_zeros (s : string) : string :=
  rev_string (strip_zeros_rev (rev_string s)).

Fixpoint first_scale (fuel : nat) (j : positive) (p q : positive) : Z :=
  match fuel with
  | O => Zpos j
  | S fuel' =>
      if (q <=? p * Z.to_pos (10 ^ Zpos j))%positive then Zpos j
      else first_scale fuel' (Pos.succ j) p q
  end.

(** The [n] with [10 ^ (n - 1) <= p / q < 10 ^ n]. *)
Definition decimal_exponent (p q : positive) : Z :=
  if (q <=? p)%positive then digit_count (Z.to_pos (Zpos p / Zpos q))
  else (1 - first_scale 400 1 p q)%Z.

(** One step of the search of Number::toString: the [k]-digit integers
    [s] around [x / 10 ^ (n - k)], and the one of them whose product with
    [10 ^ (n - k)] rounds to [x], the nearest to [x] and the even one on a
    tie. *)
Definition digits_at (x : float) (p q : positive) (n k : Z) : option Z :=
  let (P, Q) := if (0 <=? k - n)%Z
                then (Zpos p * 10 ^ (k - n), Zpos q)%Z
                else (Zpos p, Zpos q * 10 ^ (n - k))%Z in
  let lo := (P / Q)%Z in
  let hi := (lo + 1)%Z in
  let ok c := (0 <? c)%Z && PrimFloat.eqb (round_decimal false c (n - k)) x in
  let dlo := (P - lo * Q)%Z in
  let dhi := (hi * Q - P)%Z in
  if ok lo && (negb (ok hi) || (dlo <? dhi)%Z || ((dlo =? dhi)%Z && Z.even lo))
  then Some lo
  else if ok hi then Some hi else None.

Fixpoint shortest_from (fuel : nat) (x : float) (p q : positive) (n k : Z) : Z * Z :=
  match fuel with
  | O => ((Zpos p * 10 ^ (k - n) / Zpos q)%Z, k)
  | S fuel' =>
      match digits_at x p q n k with
      | Some s => (s, k)
      | None => shortest_from fuel' x p q n (k + 1)%Z
      end
  end.

Definition exponent_text (e : Z) : string :=
  "e" ++ (if (e <? 0)%Z then "-" else "+") ++ decimal (Z.abs e).

(** Number::toString of the positive finite double [x] = [p / q]. *)
Definition shortest_text (x : float) (p q : positive) : string :=
  let n0 := decimal_exponent p q in
  let (s, k0) := shortest_from 17 x p q n0 1 in
  let ds0 := decimal s in
  let n := (n0 + (Z.of_nat (length ds0) - k0))%Z in
  let ds := strip_trailing_zeros ds0 in
  let k := Z.of_nat (length ds) in
  if (k <=? n)%Z && (n <=? 21)%Z then ds ++ zeros (Z.to_nat (n - k))
  else if (0 <? n)%Z && (n <=? 21)%Z then
    substring 0 (Z.to_nat n) ds ++ "." ++ substring (Z.to_nat n) (length ds) ds
  else if (-6 <? n)%Z && (n <=? 0)%Z then "0." ++ zeros (Z.to_nat (- n)) ++ ds
  else if (k =? 1)%Z then ds ++ exponent_text (n - 1)
  else substring 0 1 ds ++ "." ++ substring 1 (length ds) ds ++ exponent_text (n - 1).

(** Number::toString (radix 10). *)
Definition Number_toString (x : float) : string :=
  match Prim2SF x with
  | S754_nan => "NaN"
  | S754_zero _ => "0"
  | S754_infinity neg => (if neg then "-" else "") ++ "Infinity"
  | S754_finite neg m e =>
      let (p, q) := ratio_of m e in
      (if neg then "-" else "") ++ shortest_text (abs x) p q
  end.

(** [Number.prototype.toFixed]. *)
Definition toFixed (x : float) (f : nat) : string :=
  match Prim2SF x with
  | S754_zero _ => fixed_digits 0 1 f
  | S754_finite neg m e =>
      let (p, q) := ratio_of m e in
      (if neg then "-" else "") ++
      (if (10 ^ 21 * Zpos q <=? Zpos p)%Z then shortest_text (abs x) p q
       else fixed_digits (Zpos p) q f)
  | _ => Number_toString x
  end.

(** ToBoolean of a number: false on zero (of either sign) and on NaN. *)
Definition truthy (x : float) : bool :=
  negb (is_zero x || is_nan x).

(** The noise threshold of the comparison, the double the literal
    [0.0001] denotes. *)
Definition epsilon : float := 0x1.a36e2eb1c432dp-14%float.

End JsNumber.

(** ** Values of a parsed JSON body, and exceptions *)

Module JsValue.
Import JsString JsNumber.

Inductive Json : Type :=
| JNull
| JBool (b : bool)
| JNum (x : float)
| JStr (s : string)
| JArr (items : list Json)
| JObj (fields : list (string * Json)).

(** A thrown value: an [Error] object with its [name] and [message]. *)
Record Exn : Type := mkExn { exn_name : string; message : string }.

Definition Error (msg : string) : Exn := mkExn "Error" msg.
Definition TypeError (msg : string) : Exn := mkExn "TypeError" msg.

(** How a computation, or a promise, ends. *)
Inductive result (A : Type) : Type :=
| Ok (a : A)
| Throw (e : Exn).
Arguments Ok {A} a.
Arguments Throw {A} e.

Definition rbind {A B : Type} (r : result A) (k : A -> result B) : result B :=
  match r with
  | Ok a => k a
  | Throw e => Throw e
  end.

(** The member of a parsed object under a key: of two members with one
    key, [JSON.parse] keeps the later. *)
Fixpoint lookup (key : string) (fields : list (string * Json)) : option Json :=
  match fields with
  | [] => None
  | (k, v) :: rest =>
      match lookup key rest with
      | Some v' => Some v'
      | None => if String.eqb k key then Some v else None
      end
  end.

(** [v.key] for the property names [error], [files] and [session_id] the
    script reads; [None] is [undefined]. Reading a property of [null]
    throws (the message is V8's). *)
Definition get_prop (v : Json) (key : string) : result (option Json) :=
  match v with
  | JNull =>
      Throw (TypeError ("Cannot read properties of null (reading '" ++ key ++ "')"))
  | JObj fields => Ok (lookup key fields)
  | JArr _ | JStr _ | JBool _ | JNum _ => Ok None
  end.

(** [v.length]: the count of an array or of a string, or whatever member
    an object has under that name. *)
Inductive LengthValue : Type :=
| Count (n : nat)
| Member (v : option Json).

Definition get_length (v : Json) : result LengthValue :=
  match v with
  | JNull => Throw (TypeError "Cannot read properties of null (reading 'length')")
  | JArr items => Ok (Count (List.length items))
  | JStr s => Ok (Count (utf16_length s))
  | JObj fields => Ok (Member (lookup "length" fields))
  | JBool _ | JNum _ => Ok (Member None)
  end.

(** ToBoolean. *)
Definition truthy (v : option Json) : bool :=
  match v with
  | None | Some JNull => false
  | Some (JBool b) => b
  | Some (JNum x) => JsNumber.truthy x
  | Some (JStr s) => negb (String.eqb s "")
  | Some (JArr _) | Some (JObj _) => true
  end.

Definition no_primitive : Exn :=
  TypeError "Cannot convert object to primitive value".

(** ToString. An array joins its elements with commas, [null] as the
    empty string; an object is ["[object Object]"], unless a member of
    its own hides [toString], which leaves no way to a primitive. *)
Fixpoint ToString (v : Json) : result string :=
  match v with
  | JNull => Ok "null"
  | JBool b => Ok (if b then "true" else "false")
  | JNum x => Ok (Number_toString x)
  | JStr s => Ok s
  | JArr items =>
      rbind
        ((fix each (l : list Json) : result (list string) :=
            match l with
            | [] => Ok []
            | x :: l' =>
                rbind (match x with JNull => Ok "" | _ => ToString x end)
                  (fun s => rbind (each l') (fun t => Ok (s :: t)))
            end) items)
        (fun parts => Ok (join "," parts))
  | JObj fields =>
      match lookup "toString" fields with
      | Some _ => Throw no_primitive
      | None => Ok "[object Object]"
      end
  end.

(** ToString of a value that may be [undefined]. *)
Definition ToString_opt (v : option Json) : result string :=
  match v with
  | None => Ok "undefined"
  | Some j => ToString j
  end.

Definition digit_of (radix : Z) (c : ascii) : option Z :=
  let n := Z.of_nat (code (lower_char c)) in
  let d := if (48 <=? n)%Z && (n <=? 57)%Z then (n - 48)%Z
           else if (97 <=? n)%Z && (n <=? 102)%Z then (n - 87)%Z else 99%Z in
  if (d <? radix)%Z then Some d else None.

Fixpoint radix_value (radix : Z) (acc : Z) (s : string) : option Z :=
  match s with
  | EmptyString => Some acc
  | String c s' =>
      match digit_of radix c with
      | Some d => radix_value radix (radix * acc + d)%Z s'
      | None => None
      end
  end.

(** A NonDecimalIntegerLiteral: [0x], [0o] or [0b] and digits. *)
Definition radix_literal (s : string) : option Z :=
  match s with
  | String "0" (String c (String d rest)) =>
      let digits := String d rest in
      let r := lower_char c in
      if Ascii.eqb r "x" then radix_value 16 0 digits
      else if Ascii.eqb r "o" then radix_value 8 0 digits
      else if Ascii.eqb r "b" then radix_value 2 0 digits
      else None
  | _ => None
  end.

(** StringToNumber: the whole string, trimmed, as a numeric literal. *)
Definition StringToNumber (s : string) : float :=
  match trim s with
  | EmptyString => zero
  | t =>
      match radix_literal t with
      | Some z => round_decimal false z 0
      | None =>
          match parse_decimal t with
          | Some (x, EmptyString) => x
          | _ => nan
          end
      end
  end.

(** ToNumber. *)
Definition ToNumber (v : option Json) : result float :=
  match v with
  | None => Ok nan
  | Some JNull => Ok zero
  | Some (JBool b) => Ok (if b then one else zero)
  | Some (JNum x) => Ok x
  | Some (JStr s) => Ok (StringToNumber s)
  | Some (JArr items) => rbind (ToString (JArr items)) (fun s => Ok (StringToNumber s))
  | Some (JObj fields) => rbind (ToString (JObj fields)) (fun s => Ok (StringToNumber s))
  end.

(** [v.length > 0]: a count is compared as the integer it is. *)
Definition greater_than_zero (l : LengthValue) : result bool :=
  match l with
  | Count n => Ok (negb (Nat.eqb n 0))
  | Member v => rbind (ToNumber v) (fun x => Ok (PrimFloat.ltb zero x))
  end.

(** [v.length] in a template literal: a count prints its digits. *)
Definition length_text (l : LengthValue) : result string :=
  match l with
  | Count n => Ok (decimal (Z.of_nat n))
  | Member v => ToString_opt v
  end.

End JsValue.

(** ** The page: the DOM and browser state the script reads and writes *)

Module Dom.
Import JsString JsNumber JsValue.

Record File : Type := mkFile { file_name : string; file_size : Z }.

Record Blob : Type := mkBlob { blob_bytes : string }.

(** One entry of a [FormData]: a string, or a file with its name. *)
Inductive FormValue : Type :=
| FText (s : string)
| FFile (f : File) (filename : string).

Definition FormData : Type := list (string * FormValue).

Record Request : Type :=
  mkRequest { req_url : string; req_method : string; req_body : FormData }.

(** A [Response]: its status and headers, and what the promises of
    [response.json()] and [response.blob()] settle to. *)
Record Response : Type := mkResponse {
  status : Z;
  headers : list (string * string);
  json_body : result Json;
  blob_body : result Blob
}.

Definition ok (r : Response) : bool :=
  (200 <=? status r)%Z && (status r <=? 299)%Z.

(** [response.headers.get(name)]: names compare without case, and the
    values of one name are joined. *)
Definition headers_get (r : Response) (name : string) : option string :=
  match filter (fun kv => String.eqb (toLowerCase_ascii (fst kv)) (toLowerCase_ascii name))
               (headers r) with
  | [] => None
  | l => Some (join ", " (map snd l))
  end.

(** What an [href] holds: an object URL, by its number, or a location. *)
Inductive Url : Type :=
| ObjectUrl (id : nat)
| Location (path : string).

Record Anchor : Type := mkAnchor {
  href : Url;
  download : string;
  textContent : string;
  className : string
}.

Inductive Node : Type :=
| TextNode (s : string)
| AnchorNode (a : Anchor).

(** The callback the script hands to [setTimeout]: revoke the object URL
    of an anchor and take the anchor out of the document. *)
Inductive Task : Type :=
| RevokeAndRemove (url : nat).

(** What the script does to its surroundings, in order. *)
Inductive Event : Type :=
| SetDisabled (id : string) (b : bool)
| Logged (tab : string) (m : string)
| LoggedHTML (tab : string) (a : Anchor)
| Status (text : string)
| ChartUpdated (fifo ai : float)
| Fetched (r : Request)
| UrlCreated (id : nat)
| UrlRevoked (id : nat)
| TimerSet (delay : Z) (t : Task)
| Clicked (a : Anchor).

Record Page : Type := mkPage {
  chosenFilesEnc : list File;
  chosenFilesCmp : list File;
  comparisonChart : option (float * float);
  value : string -> string;
  files : string -> list File;
  disabled : string -> bool;
  childNodes : string -> list Node;
  objectURLs : list (nat * Blob);
  nextObjectURL : nat;
  clock : Z;
  timers : list (Z * Task);
  trace : list Event
}.

Definition upd {A : Type} (f : string -> A) (k : string) (v : A) : string -> A :=
  fun k' => if String.eqb k' k then v else f k'.

Definition with_chart (c : option (float * float)) (p : Page) : Page :=
  mkPage (chosenFilesEnc p) (chosenFilesCmp p) c (value p) (files p) (disabled p)
    (childNodes p) (objectURLs p) (nextObjectURL p) (clock p) (timers p) (trace p).

Definition with_disabled (d : string -> bool) (p : Page) : Page :=
  mkPage (chosenFilesEnc p) (chosenFilesCmp p) (comparisonChart p) (value p) (files p) d
    (childNodes p) (objectURLs p) (nextObjectURL p) (clock p) (timers p) (trace p).

Definition with_childNodes (c : string -> list Node) (p : Page) : Page :=
  mkPage (chosenFilesEnc p) (chosenFilesCmp p) (comparisonChart p) (value p) (files p)
    (disabled p) c (objectURLs p) (nextObjectURL p) (clock p) (timers p) (trace p).

Definition with_objectURLs (u : list (nat * Blob)) (n : nat) (p : Page) : Page :=
  mkPage (chosenFilesEnc p) (chosenFilesCmp p) (comparisonChart p) (value p) (files p)
    (disabled p) (childNodes p) u n (clock p) (timers p) (trace p).

Definition with_timers (c : Z) (t : list (Z * Task)) (p : Page) : Page :=
  mkPage (chosenFilesEnc p) (chosenFilesCmp p) (comparisonChart p) (value p) (files p)
    (disabled p) (childNodes p) (objectURLs p) (nextObjectURL p) c t (trace p).

Definition emit (e : Event) (p : Page) : Page :=
  mkPage (chosenFilesEnc p) (chosenFilesCmp p) (comparisonChart p) (value p) (files p)
    (disabled p) (childNodes p) (objectURLs p) (nextObjectURL p) (clock p) (timers p)
    (trace p ++ [e])%list.

(** The [textContent] of an element: the text of its children, in order. *)
Definition node_text (n : Node) : string :=
  match n with
  | TextNode s => s
  | AnchorNode a => textContent a
  end.

Fixpoint text_of (nodes : list Node) : string :=
  match nodes with
  | [] => EmptyString
  | n :: rest => node_text n ++ text_of rest
  end.

(** *** The monad of the script: state and exceptions *)

Definition M (A : Type) : Type := Page -> Page * result A.

Definition ret {A : Type} (a : A) : M A := fun p => (p, Ok a).

Definition throw {A : Type} (e : Exn) : M A := fun p => (p, Throw e).

Definition bind {A B : Type} (m : M A) (k : A -> M B) : M B :=
  fun p =>
    match m p with
    | (p', Ok a) => k a p'
    | (p', Throw e) => (p', Throw e)
    end.

(** A pure step that may throw; [await] of a settled promise is one. *)
Definition lift {A : Type} (r : result A) : M A := fun p => (p, r).

Definition await {A : Type} (r : result A) : M A := lift r.

(** [try { body } catch (e) { handler e } finally { fin }]. *)
Definition try_catch_finally (body : M unit) (handler : Exn -> M unit) (fin : M unit)
  : M unit :=
  fun p =>
    let (p1, r1) := match body p with
                    | (p', Ok a) => (p', Ok a)
                    | (p', Throw e) => handler e p'
                    end in
    match fin p1 with
    | (p2, Ok _) => (p2, r1)
    | (p2, Throw e) => (p2, Throw e)
    end.

(** [array.forEach(f)]. *)
Fixpoint forEach {A : Type} (l : list A) (f : A -> M unit) : M unit :=
  match l with
  | [] => ret tt
  | x :: l' => bind (f x) (fun _ => forEach l' f)
  end.

Definition run {A : Type} (m : M A) (p : Page) : Page := fst (m p).

Definition read {A : Type} (f : Page -> A) : M A := fun p => (p, Ok (f p)).

(** *** Primitives of the DOM and of the browser *)

Definition set_disabled (id : string) (b : bool) : M unit :=
  fun p => (emit (SetDisabled id b) (with_disabled (upd (disabled p) id b) p), Ok tt).

Definition appendChild (id : string) (n : Node) : M unit :=
  fun p => (with_childNodes (upd (childNodes p) id (childNodes p id ++ [n])%list) p, Ok tt).

(** [el.textContent = s]: the children give way to one text node. *)
Definition set_textContent (id : string) (s : string) : M unit :=
  fun p =>
    (with_childNodes
       (upd (childNodes p) id (match s with EmptyString => [] | _ => [TextNode s] end)) p,
     Ok tt).

(** [URL.createObjectURL]: a fresh URL that keeps the blob alive. *)
Definition createObjectURL (b : Blob) : M nat :=
  fun p =>
    let id := nextObjectURL p in
    (emit (UrlCreated id) (with_objectURLs ((id, b) :: objectURLs p) (S id) p), Ok id).

Definition revokeObjectURL (id : nat) : M unit :=
  fun p =>
    (emit (UrlRevoked id)
       (with_objectURLs (filter (fun u => negb (Nat.eqb (fst u) id)) (objectURLs p))
          (nextObjectURL p) p),
     Ok tt).

Definition live (p : Page) (id : nat) : bool :=
  existsb (fun u => Nat.eqb (fst u) id) (objectURLs p).

Definition setTimeout (t : Task) (delay : Z) : M unit :=
  fun p =>
    (emit (TimerSet delay t) (with_timers (clock p) (timers p ++ [((clock p + delay)%Z, t)])%list p),
     Ok tt).

Definition is_anchor_of (id : nat) (n : Node) : bool :=
  match n with
  | AnchorNode a => match href a with ObjectUrl u => Nat.eqb u id | Location _ => false end
  | TextNode _ => false
  end.

(** [a.remove()] for the anchor that holds object URL [id]. *)
Definition remove_anchor (id : nat) : M unit :=
  fun p =>
    (with_childNodes
       (upd (childNodes p) "body" (filter (fun n => negb (is_anchor_of id n)) (childNodes p "body")))
       p,
     Ok tt).

Definition run_task (t : Task) : M unit :=
  match t with
  | RevokeAndRemove id => bind (revokeObjectURL id) (fun _ => remove_anchor id)
  end.

(** A click on an anchor, by the script or by the user: the browser
    starts a download (or follows the link); no timer hears of it. *)
Definition click (a : Anchor) : M unit :=
  fun p => (emit (Clicked a) p, Ok tt).

(** The event loop lets [ms] milliseconds pass and runs the timers that
    have come due. *)
Definition tick (ms : Z) : M unit :=
  fun p =>
    let now := (clock p + ms)%Z in
    let due := filter (fun t => (fst t <=? now)%Z) (timers p) in
    let later := filter (fun t => negb (fst t <=? now)%Z) (timers p) in
    forEach due (fun t => run_task (snd t)) (with_timers now later p).

(** [fetch(url, { method: 'POST', body })] and the [await] on it: the
    request goes out, and the promise settles as the network decides. *)
Definition fetch (settled : result Response) (url : string) (body : FormData) : M Response :=
  fun p => (emit (Fetched (mkRequest url "POST" body)) p, settled).

End Dom.

(** ** The script *)

Module Script.
Import JsString JsNumber JsValue Dom.

Notation "x <- c1 ;; c2" := (bind c1 (fun x => c2))
  (at level 61, c1 at next level, right associativity).
Notation "c1 ;; c2" := (bind c1 (fun _ => c2))
  (at level 61, right associativity).

Definition LF : string := String (ascii_of_nat 10) EmptyString.

(** [fmtBytes] (lines 9-15), on a byte count. A count is an integer below
    [2 ^ 53]: its quotients by powers of 1024 are exact doubles, and
    [toFixed] rounds the exact value; [fmtBytes_double] below is the same
    function on doubles. *)
Definition fmtBytes (n : Z) : string :=
  if (n <? 1)%Z then "0 B"
  else if (n <? 1024)%Z then fixed_digits n 1 0 ++ " B"
  else if (n <? 1024 ^ 2)%Z then fixed_digits n 1024 1 ++ " KB"
  else if (n <? 1024 ^ 3)%Z then fixed_digits n (1024 ^ 2) 1 ++ " MB"
  else fixed_digits n (1024 ^ 3) 1 ++ " GB".

Definition fmtBytes_double (n : float) : string :=
  if (n <? 1)%float then "0 B"
  else if (n <? 1024)%float then toFixed n 0 ++ " B"
  else if (n <? 1048576)%float then toFixed (n / 1024)%float 1 ++ " KB"
  else if (n <? 1073741824)%float then toFixed (n / 1048576)%float 1 ++ " MB"
  else toFixed (n / 1073741824)%float 1 ++ " GB".

(** [downloadBlob] (lines 18-25). *)
Definition downloadBlob (blob : Blob) (filename : string) : M unit :=
  url <- createObjectURL blob ;;
  let a := mkAnchor (ObjectUrl url) filename EmptyString EmptyString in
  appendChild "body" (AnchorNode a) ;;
  click a ;;
  setTimeout (RevokeAndRemove url) 800.

(** [log] (lines 28-32): [textContent += m + LF] rewrites the pane as one
    text node. *)
Definition log (tab m : string) : M unit :=
  old <- read (fun p => text_of (childNodes p ("log-" ++ tab))) ;;
  set_textContent ("log-" ++ tab) (old ++ m ++ LF) ;;
  (fun p => (emit (Logged tab m) p, Ok tt)).

(** [logHTML] (lines 35-39). *)
Definition logHTML (tab : string) (a : Anchor) : M unit :=
  appendChild ("log-" ++ tab) (AnchorNode a) ;;
  (fun p => (emit (LoggedHTML tab a) p, Ok tt)).

(** [setStatus] (lines 42-44). *)
Definition setStatus (text : string) : M unit :=
  set_textContent "footer" ("Status: " ++ text) ;;
  (fun p => (emit (Status text) p, Ok tt)).

(** [updateChart] (lines 236-240); [initChart] makes the chart with both
    bars at zero. *)
Definition updateChart (fifoTime priorityTime : float) : M unit :=
  fun p => (emit (ChartUpdated fifoTime priorityTime)
              (with_chart (Some (fifoTime, priorityTime)) p), Ok tt).

(** [a && b] under [!]: a count counts when it is not zero, a string when
    it is not empty. *)
Definition nonzero (n : nat) : bool := negb (Nat.eqb n 0).
Definition nonempty (s : string) : bool := negb (String.eqb s EmptyString).

(** [enableEncrypt] (line 126), [enableCompare] (line 192) and
    [enableDecrypt] (line 304). *)
Definition enableEncrypt : M unit :=
  chosen <- read chosenFilesEnc ;;
  pw <- read (fun p => value p "pwEnc") ;;
  set_disabled "btnEncrypt" (negb (nonzero (List.length chosen) && nonempty (trim pw))).

Definition enableCompare : M unit :=
  chosen <- read chosenFilesCmp ;;
  pw <- read (fun p => value p "pwCmp") ;;
  set_disabled "btnCompare" (negb (nonzero (List.length chosen) && nonempty (trim pw))).

Definition enableDecrypt : M unit :=
  pkg <- read (fun p => files p "pkg") ;;
  pw <- read (fun p => value p "pwDec") ;;
  set_disabled "btnDecrypt" (negb (nonzero (List.length pkg) && nonempty (trim pw))).

(** [v || d] on a header value: [null] and the empty string give way. *)
Definition or_default (v : option string) (d : string) : string :=
  match v with
  | Some s => if String.eqb s EmptyString then d else s
  | None => d
  end.

(** [parseFloat(response.headers.get(name) || '0')] (lines 166, 263 and
    264). *)
Definition header_time (response : Response) (name : string) : float :=
  parseFloat (or_default (headers_get response name) "0").

(** The file name read from a content-disposition header (lines 170 and
    282): [h?.split('filename=')[1]], with every double quote replaced by
    nothing, [|| fallback]. *)
Definition disposition_filename (h : option string) (fallback : string) : string :=
  or_default
    (match h with
     | None => None
     | Some v =>
         match nth_error (split v "filename=") 1 with
         | None => None
         | Some seg => Some (remove_char dquote seg)
         end
     end)
    fallback.

(** [if (!response.ok) { const err = await response.json();
    throw new Error(err.error || `Server responded with ${response.status}`) }]
    (lines 160-163, 256-259, 324-327). *)
Definition check_ok (response : Response) : M unit :=
  if negb (ok response) then
    err <- await (json_body response) ;;
    e <- lift (get_prop err "error") ;;
    msg <- lift (if truthy e then ToString_opt e
                 else Ok ("Server responded with " ++ decimal (status response))) ;;
    throw (Error msg)
  else ret tt.

(** The [catch] block of the three handlers. *)
Definition report (tab : string) (e : Exn) : M unit :=
  log tab ("❌ ERROR: " ++ message e) ;;
  setStatus ("Error: " ++ message e).

Definition encrypt_formData (p : Page) : FormData :=
  ([ ("password", FText (trim (value p "pwEnc")));
     ("mode", FText (value p "aesModeEnc"));
     ("policy", FText (value p "policyEnc")) ]
   ++ map (fun f => ("files", FFile f (file_name f))) (chosenFilesEnc p))%list.

(** The [try] block of the encrypt handler from the response on (lines
    160-180). *)
Definition encrypt_response (response : Response) : M unit :=
  check_ok response ;;
  let time := header_time response "X-Time-Elapsed" in
  log "enc" ("✅ Success! Run complete in " ++ toFixed time 4 ++ "s.") ;;
  blob <- await (blob_body response) ;;
  let filename :=
    disposition_filename (headers_get response "content-disposition") "encrypted.zip" in
  log "enc" ("Package created: " ++ filename) ;;
  url <- createObjectURL blob ;;
  logHTML "enc"
    (mkAnchor (ObjectUrl url) filename ("⬇️ Download " ++ quoted filename) "download-link") ;;
  setStatus "Encryption complete.".

(** [$('btnEncrypt').onclick] (lines 147-188); [settled] is what the
    promise of [fetch] settles to. *)
Definition btnEncrypt_onclick (settled : result Response) : M unit :=
  set_disabled "btnEncrypt" true ;;
  log "enc" "🚀 Starting encryption... Uploading files to server." ;;
  setStatus "Encrypting..." ;;
  formData <- read encrypt_formData ;;
  try_catch_finally
    (response <- fetch settled "/api/encrypt" formData ;;
     encrypt_response response)
    (report "enc")
    (set_disabled "btnEncrypt" false).

Definition compare_formData (p : Page) : FormData :=
  ([ ("password", FText (trim (value p "pwCmp")));
     ("mode", FText (value p "aesModeCmp")) ]
   ++ map (fun f => ("files", FFile f (file_name f))) (chosenFilesCmp p))%list.

(** Lines 271-279: the time saved, its share of the FIFO time, and the
    line that reports them. *)
Definition saved_time (timeFIFO timeAI : float) : float := (timeFIFO - timeAI)%float.

Definition percent_saved (timeFIFO timeAI : float) : float :=
  if (0 <? timeFIFO)%float then (saved_time timeFIFO timeAI / timeFIFO * 100)%float
  else 0%float.

Definition verdict (timeFIFO timeAI : float) : string :=
  let saved := saved_time timeFIFO timeAI in
  let percent := percent_saved timeFIFO timeAI in
  if (epsilon <? saved)%float then
    "🏆 AI was " ++ toFixed saved 4 ++ "s (" ++ toFixed percent 1 ++ "%) faster!"
  else
    "🐌 AI was " ++ toFixed (abs saved) 4 ++ "s slower.".

(** The [try] block of the compare handler from the response on (lines
    256-292). *)
Definition compare_response (response : Response) : M unit :=
  check_ok response ;;
  log "cmp" "✅ Comparison complete on server." ;;
  let timeFIFO := header_time response "X-Time-FIFO" in
  let timeAI := header_time response "X-Time-AI" in
  log "cmp" "--- RESULTS ---" ;;
  log "cmp" ("FIFO (Naive):   " ++ toFixed timeFIFO 4 ++ " seconds") ;;
  log "cmp" ("AI (Priority):  " ++ toFixed timeAI 4 ++ " seconds") ;;
  updateChart timeFIFO timeAI ;;
  log "cmp" (verdict timeFIFO timeAI) ;;
  blob <- await (blob_body response) ;;
  let filename :=
    disposition_filename (headers_get response "content-disposition") "encrypted_ai.zip" in
  log "cmp" ("AI-Priority package created: " ++ filename) ;;
  url <- createObjectURL blob ;;
  logHTML "cmp"
    (mkAnchor (ObjectUrl url) filename "⬇️ Download AI-Priority Package" "download-link") ;;
  setStatus "Comparison complete.".

(** [$('btnCompare').onclick] (lines 243-300). *)
Definition btnCompare_onclick (settled : result Response) : M unit :=
  set_disabled "btnCompare" true ;;
  log "cmp" "🚀 Starting comparison... Uploading files to server." ;;
  setStatus "Running comparison..." ;;
  updateChart 0 0 ;;
  formData <- read compare_formData ;;
  try_catch_finally
    (response <- fetch settled "/api/compare" formData ;;
     compare_response response)
    (report "cmp")
    (set_disabled "btnCompare" false).

(** [formData.append('file', file)] with [file = $('pkg').files[0]]: with
    no file chosen the entry is the string of [undefined]. *)
Definition decrypt_formData (p : Page) : FormData :=
  [ ("file", match files p "pkg" with
             | f :: _ => FFile f (file_name f)
             | [] => FText "undefined"
             end);
    ("password", FText (trim (value p "pwDec"))) ].

(** The body of [data.files.forEach(file => ...)] (lines 336-345). *)
Definition decrypted_link (data file : Json) : M unit :=
  session_id <- lift (get_prop data "session_id") ;;
  sid <- lift (ToString_opt session_id) ;;
  name <- lift (ToString file) ;;
  let target := "/api/download_decrypted/" ++ sid ++ "/" ++ encodeURIComponent name in
  base <- (match file with
           | JStr s => ret (pop (split s "/"))
           | JNull => throw (TypeError "Cannot read properties of null (reading 'split')")
           | _ => throw (TypeError "file.split is not a function")
           end) ;;
  label <- lift (ToString file) ;;
  logHTML "dec" (mkAnchor (Location target) base ("⬇️ Download " ++ quoted label) "download-link").

(** [data.files && data.files.length > 0] (line 332). *)
Definition has_members (members : option Json) : M bool :=
  match members with
  | Some m =>
      if truthy members then
        n <- lift (get_length m) ;; lift (greater_than_zero n)
      else ret false
  | None => ret false
  end.

(** The [try] block of the decrypt handler from the response on (lines
    324-350). *)
Definition decrypt_response (response : Response) : M unit :=
  check_ok response ;;
  data <- await (json_body response) ;;
  members <- lift (get_prop data "files") ;;
  some <- has_members members ;;
  (if some : bool then
     n <- lift (match members with Some m => get_length m | None => Ok (Member None) end) ;;
     count <- lift (length_text n) ;;
     log "dec" ("✅ Success! Server decrypted " ++ count ++ " file(s):") ;;
     match members with
     | Some (JArr items) => forEach items (decrypted_link data)
     | _ => throw (TypeError "data.files.forEach is not a function")
     end
   else
     log "dec" "✅ Decryption complete, but no files were found in the package.") ;;
  setStatus "Decryption complete.".

(** [$('btnDecrypt').onclick] (lines 309-358). *)
Definition btnDecrypt_onclick (settled : result Response) : M unit :=
  set_disabled "btnDecrypt" true ;;
  log "dec" "🚀 Sending package to server for decryption..." ;;
  setStatus "Decrypting..." ;;
  formData <- read decrypt_formData ;;
  try_catch_finally
    (response <- fetch settled "/api/decrypt" formData ;;
     decrypt_response response)
    (report "dec")
    (set_disabled "btnDecrypt" false).

(** The link the decrypt handler makes for the member [file] of session
    [sid]. *)
Definition member_link (sid file : string) : Anchor :=
  mkAnchor (Location ("/api/download_decrypted/" ++ sid ++ "/" ++ encodeURIComponent file))
    (pop (split file "/")) ("⬇️ Download " ++ quoted file) "download-link".

(** *** The three workflows, side by side *)

Inductive Workflow : Type := Encrypt | Compare | Decrypt.

Definition tab_of (w : Workflow) : string :=
  match w with Encrypt => "enc" | Compare => "cmp" | Decrypt => "dec" end.

Definition button_of (w : Workflow) : string :=
  match w with Encrypt => "btnEncrypt" | Compare => "btnCompare" | Decrypt => "btnDecrypt" end.

Definition password_of (w : Workflow) : string :=
  match w with Encrypt => "pwEnc" | Compare => "pwCmp" | Decrypt => "pwDec" end.

Definition endpoint_of (w : Workflow) : string :=
  match w with
  | Encrypt => "/api/encrypt"
  | Compare => "/api/compare"
  | Decrypt => "/api/decrypt"
  end.

Definition formData_of (w : Workflow) : Page -> FormData :=
  match w with
  | Encrypt => encrypt_formData
  | Compare => compare_formData
  | Decrypt => decrypt_formData
  end.

(** The request a click on the trigger of [w] sends from page [p]. *)
Definition request_of (w : Workflow) (p : Page) : Request :=
  mkRequest (endpoint_of w) "POST" (formData_of w p).

Definition onclick (w : Workflow) : result Response -> M unit :=
  match w with
  | Encrypt => btnEncrypt_onclick
  | Compare => btnCompare_onclick
  | Decrypt => btnDecrypt_onclick
  end.

Definition response_of (w : Workflow) : Response -> M unit :=
  match w with
  | Encrypt => encrypt_response
  | Compare => compare_response
  | Decrypt => decrypt_response
  end.

(** The part of a handler that runs at once, before the request is out. *)
Definition prologue (w : Workflow) : M unit :=
  match w with
  | Encrypt =>
      set_disabled "btnEncrypt" true ;;
      log "enc" "🚀 Starting encryption... Uploading files to server." ;;
      setStatus "Encrypting..."
  | Compare =>
      set_disabled "btnCompare" true ;;
      log "cmp" "🚀 Starting comparison... Uploading files to server." ;;
      setStatus "Running comparison..." ;;
      updateChart 0 0
  | Decrypt =>
      set_disabled "btnDecrypt" true ;;
      log "dec" "🚀 Sending package to server for decryption..." ;;
      setStatus "Decrypting..."
  end.

(** What [check_ok] throws on a response that is not a success. *)
Definition rejection (response : Response) : Exn :=
  match json_body response with
  | Throw e => e
  | Ok err =>
      match get_prop err "error" with
      | Throw e => e
      | Ok e =>
          match (if truthy e then ToString_opt e
                 else Ok ("Server responded with " ++ decimal (status response))) with
          | Ok msg => Error msg
          | Throw e' => e'
          end
      end
  end.

(** What a run of [m] from [p] adds to the trace. *)
Definition events_of {A : Type} (m : M A) (p : Page) : list Event :=
  skipn (List.length (trace p)) (trace (run m p)).

(** The lines a run logs on a tab, in order. *)
Definition lines_of (tab : string) (evs : list Event) : list string :=
  flat_map (fun e => match e with
                     | Logged t m => if String.eqb t tab then [m] else []
                     | _ => []
                     end) evs.

Definition links_of (tab : string) (evs : list Event) : list Anchor :=
  flat_map (fun e => match e with
                     | LoggedHTML t a => if String.eqb t tab then [a] else []
                     | _ => []
                     end) evs.

Definition is_SetDisabled (e : Event) : bool :=
  match e with SetDisabled _ _ => true | _ => false end.

(** What happens to a page after a handler has returned: time passes,
    and the user clicks on links. *)
Inductive Step : Type :=
| Tick (ms : Z)
| UserClick (a : Anchor).

Definition step (s : Step) : M unit :=
  match s with
  | Tick ms => tick ms
  | UserClick a => click a
  end.

Definition elapsed (s : Step) : Z :=
  match s with Tick ms => ms | UserClick _ => 0%Z end.

(** The page as it is loaded: nothing chosen, typed, logged or pending. *)
Definition blank : Page :=
  mkPage [] [] None (fun _ => EmptyString) (fun _ => []) (fun _ => false) (fun _ => [])
    [] 0 0 [] [].

Definition set_value (id v : string) (p : Page) : Page :=
  mkPage (chosenFilesEnc p) (chosenFilesCmp p) (comparisonChart p) (upd (value p) id v)
    (files p) (disabled p) (childNodes p) (objectURLs p) (nextObjectURL p) (clock p)
    (timers p) (trace p).

Definition set_files (id : string) (fs : list File) (p : Page) : Page :=
  mkPage (chosenFilesEnc p) (chosenFilesCmp p) (comparisonChart p) (value p)
    (upd (files p) id fs) (disabled p) (childNodes p) (objectURLs p) (nextObjectURL p)
    (clock p) (timers p) (trace p).

(** *** Notions the properties are stated with *)

(** The fixed name a workflow falls back on. *)
Definition fallback_name (w : Workflow) : string :=
  match w with Compare => "encrypted_ai.zip" | _ => "encrypted.zip" end.

(** The lines a click on the trigger of [w] logs on its tab. *)
Definition logged (w : Workflow) (settled : result Response) (p : Page) : list string :=
  lines_of (tab_of w) (events_of (onclick w settled) p).

Definition calm (e : Event) : bool := negb (is_SetDisabled e).

(** [m] adds to the trace, and nothing it adds touches a trigger. *)
Definition quiet {A : Type} (m : M A) : Prop :=
  forall p, exists evs,
    trace (fst (m p)) = (trace p ++ evs)%list /\ forallb calm evs = true.

(** What the prologue adds to the trace: the trigger goes off, first. *)
Definition prologue_events (w : Workflow) : list Event :=
  match w with
  | Encrypt =>
      [ Logged "enc" "🚀 Starting encryption... Uploading files to server.";
        Status "Encrypting..." ]
  | Compare =>
      [ Logged "cmp" "🚀 Starting comparison... Uploading files to server.";
        Status "Running comparison..."; ChartUpdated 0 0 ]
  | Decrypt =>
      [ Logged "dec" "🚀 Sending package to server for decryption...";
        Status "Decrypting..." ]
  end.

(** The events of a run whose [try] block throws [e] before it logs. *)
Definition failure_events (w : Workflow) (p : Page) (e : Exn) : list Event :=
  (SetDisabled (button_of w) true :: prologue_events w
   ++ [ Fetched (request_of w p);
        Logged (tab_of w) ("❌ ERROR: " ++ message e);
        Status ("Error: " ++ message e);
        SetDisabled (button_of w) false ])%list.

(** The first line of every run: the handler says that it starts. *)
Definition start_line (w : Workflow) : string :=
  match w with
  | Encrypt => "🚀 Starting encryption... Uploading files to server."
  | Compare => "🚀 Starting comparison... Uploading files to server."
  | Decrypt => "🚀 Sending package to server for decryption..."
  end.

(** The file name the encrypt and the compare handler give the package. *)
Definition package_name (w : Workflow) (r : Response) : string :=
  disposition_filename (headers_get r "content-disposition") (fallback_name w).

(** The link to the package, on object URL [id]. *)
Definition package_link (w : Workflow) (r : Response) (id : nat) : Anchor :=
  match w with
  | Compare =>
      mkAnchor (ObjectUrl id) (package_name w r) "⬇️ Download AI-Priority Package"
        "download-link"
  | _ =>
      mkAnchor (ObjectUrl id) (package_name w r)
        ("⬇️ Download " ++ quoted (package_name w r)) "download-link"
  end.

(** What the [try] block of the encrypt or of the compare handler adds to
    the trace on a success, the package being on object URL [id]. *)
Definition success_events (w : Workflow) (r : Response) (id : nat) : list Event :=
  match w with
  | Encrypt =>
      [ Logged "enc" ("✅ Success! Run complete in "
                      ++ toFixed (header_time r "X-Time-Elapsed") 4 ++ "s.");
        Logged "enc" ("Package created: " ++ package_name Encrypt r);
        UrlCreated id;
        LoggedHTML "enc" (package_link Encrypt r id);
        Status "Encryption complete." ]
  | Compare =>
      [ Logged "cmp" "✅ Comparison complete on server.";
        Logged "cmp" "--- RESULTS ---";
        Logged "cmp" ("FIFO (Naive):   " ++ toFixed (header_time r "X-Time-FIFO") 4
                      ++ " seconds");
        Logged "cmp" ("AI (Priority):  " ++ toFixed (header_time r "X-Time-AI") 4
                      ++ " seconds");
        ChartUpdated (header_time r "X-Time-FIFO") (header_time r "X-Time-AI");
        Logged "cmp" (verdict (header_time r "X-Time-FIFO") (header_time r "X-Time-AI"));
        Logged "cmp" ("AI-Priority package created: " ++ package_name Compare r);
        UrlCreated id;
        LoggedHTML "cmp" (package_link Compare r id);
        Status "Comparison complete." ]
  | Decrypt => []
  end.

Definition packaging (w : Workflow) : Prop := w = Encrypt \/ w = Compare.

Definition steps (l : list Step) : M unit := forEach l step.

Definition target (t : Task) : nat :=
  match t with RevokeAndRemove id => id end.

(** No timer of the list revokes [u]. *)
Definition spares (u : nat) (ts : list (Z * Task)) : bool :=
  forallb (fun t => negb (Nat.eqb (target (snd t)) u)) ts.

(** The object URLs that pending timers will revoke were all handed out. *)
Definition fresh (p : Page) : bool :=
  forallb (fun t => Nat.ltb (target (snd t)) (nextObjectURL p)) (timers p).

Definition total_elapsed (l : list Step) : Z :=
  fold_right (fun s acc => (elapsed s + acc)%Z) 0%Z l.

(** The page keeps [u] alive, and no pending timer will revoke it. *)
Definition kept (u : nat) (p : Page) : Prop :=
  live p u = true /\ spares u (timers p) = true.

(** Timer [(due, RevokeAndRemove u)] is pending and not yet due, or [u]
    is revoked already. *)
Definition awaited (u : nat) (due : Z) (p : Page) : Prop :=
  (In (due, RevokeAndRemove u) (timers p) /\ (clock p < due)%Z) \/ live p u = false.

(** The units of [fmtBytes]. *)
Inductive Unit : Type := B | KB | MB | GB.

Definition unit_name (u : Unit) : string :=
  match u with B => "B" | KB => "KB" | MB => "MB" | GB => "GB" end.

Definition unit_size (u : Unit) : Z :=
  match u with B => 1 | KB => 1024 | MB => 1024 ^ 2 | GB => 1024 ^ 3 end%Z.

(** What [fmtBytes n] shows: a quantity, counted in tenths, of a unit. *)
Definition rendered (n : Z) : Z * Unit :=
  if (n <? 1)%Z then (0%Z, B)
  else if (n <? 1024)%Z then ((10 * fixed_integer n 1 0)%Z, B)
  else if (n <? 1024 ^ 2)%Z then (fixed_integer n 1024 1, KB)
  else if (n <? 1024 ^ 3)%Z then (fixed_integer n (1024 ^ 2) 1, MB)
  else (fixed_integer n (1024 ^ 3) 1, GB).

(** The text of a quantity of tenths: whole bytes, one decimal otherwise. *)
Definition quantity_text (q : Z) (u : Unit) : string :=
  (match u with
   | B => place_point (decimal (q / 10)) 0
   | _ => place_point (decimal q) 1
   end) ++ " " ++ unit_name u.

(** Ten times the bytes a rendered quantity stands for. *)
Definition rendered_bytes (n : Z) : Z :=
  fst (rendered n) * unit_size (snd (rendered n)).

(** The object URLs, the counter, the timers and the clock of a page. *)
Definition resources (p : Page) : list (nat * Blob) * nat * list (Z * Task) * Z :=
  (objectURLs p, nextObjectURL p, timers p, clock p).

(** A string of white space only: nothing is left of it once trimmed. *)
Definition all_whitespace (s : string) : bool := String.eqb (trimStart s) EmptyString.

(** *** Pages and responses of the examples *)

Definition refused : Response :=
  mkResponse 401 [] (Ok (JObj [("error", JStr "bad password")])) (Ok (mkBlob "")).

Definition broken : Response :=
  mkResponse 500 [("Content-Type", "text/html")]
    (Throw (mkExn "SyntaxError" "Unexpected token < in JSON at position 0"))
    (Ok (mkBlob "<html>")).

(** A success that carries a package. *)
Definition packaged : Response :=
  mkResponse 200
    [ ("X-Time-Elapsed", "1.25"); ("X-Time-FIFO", "2.0"); ("X-Time-AI", "1.5");
      ("Content-Disposition", "attachment; filename=" ++ quoted "result.zip") ]
    (Throw (mkExn "SyntaxError" "Unexpected token P in JSON at position 0"))
    (Ok (mkBlob "PK")).

(** Two packages chosen, and a password. *)
Definition two_packages : Page :=
  set_files "pkg" [mkFile "a.zip" 10; mkFile "b.zip" 20] (set_value "pwDec" "secret" blank).

(** A success whose elapsed-time header is no number. *)
Definition mistimed : Response :=
  mkResponse 200 [("X-Time-Elapsed", "abc")]
    (Throw (mkExn "SyntaxError" "Unexpected token P in JSON at position 0"))
    (Ok (mkBlob "PK")).

(** Successes whose content-disposition header is not of the plain form:
    a parameter behind the name, and a quote that is never closed. *)
Definition trailed : Response :=
  mkResponse 200
    [ ("Content-Disposition",
       "attachment; filename=" ++ quoted "result.zip" ++ "; size=12") ]
    (Throw (mkExn "SyntaxError" "Unexpected token P in JSON at position 0"))
    (Ok (mkBlob "PK")).

Definition unclosed : Response :=
  mkResponse 200
    [ ("Content-Disposition", "attachment; filename=" ++ String dquote "result.zip") ]
    (Throw (mkExn "SyntaxError" "Unexpected token P in JSON at position 0"))
    (Ok (mkBlob "PK")).

(** The success of the specification's example. *)
Definition decrypted : Response :=
  mkResponse 200 []
    (Ok (JObj [ ("session_id", JStr "abc123");
                ("files", JArr [JStr "a.txt"; JStr "sub/b.txt"]) ]))
    (Ok (mkBlob "")).




End Script.

(** ** The rest of the page: class names, markup and the console *)

Module Layout.
Import JsString JsNumber JsValue Dom.

(** What the script tells the browser beside the page: to leave out the
    default action of an event, and a line for the console. *)
Inductive Note : Type :=
| DefaultPrevented (type : string)
| ConsoleError (text : string) (e : Exn).

(** The page, and with it the class names of its elements (a
    [DOMTokenList]: no name twice, in the order they were added), the
    markup last assigned to the [innerHTML] of an element, and the notes.
    Every element the script asks for by its id is in the document. *)
Record Screen : Type := mkScreen {
  page : Page;
  classList : string -> list string;
  innerHTML : string -> string;
  notes : list Note
}.

Definition with_page (p : Page) (s : Screen) : Screen :=
  mkScreen p (classList s) (innerHTML s) (notes s).

Definition with_classList (c : string -> list string) (s : Screen) : Screen :=
  mkScreen (page s) c (innerHTML s) (notes s).

Definition with_innerHTML (h : string -> string) (s : Screen) : Screen :=
  mkScreen (page s) (classList s) h (notes s).

Definition note (n : Note) (s : Screen) : Screen :=
  mkScreen (page s) (classList s) (innerHTML s) (notes s ++ [n])%list.

(** *** The monad of the script, on the screen *)

Definition W (A : Type) : Type := Screen -> Screen * result A.

Definition wret {A : Type} (a : A) : W A := fun s => (s, Ok a).

Definition wthrow {A : Type} (e : Exn) : W A := fun s => (s, Throw e).

Definition wbind {A B : Type} (m : W A) (k : A -> W B) : W B :=
  fun s =>
    match m s with
    | (s', Ok a) => k a s'
    | (s', Throw e) => (s', Throw e)
    end.

Definition wlift {A : Type} (r : result A) : W A := fun s => (s, r).

(** A step of the script that works on the page alone. *)
Definition on_page {A : Type} (m : M A) : W A :=
  fun s => let (p, r) := m (page s) in (with_page p s, r).

(** [try { body } catch (e) { handler e }]. *)
Definition try_catch (body : W unit) (handler : Exn -> W unit) : W unit :=
  fun s =>
    match body s with
    | (s', Ok a) => (s', Ok a)
    | (s', Throw e) => handler e s'
    end.

Fixpoint wforEach {A : Type} (l : list A) (f : A -> W unit) : W unit :=
  match l with
  | [] => wret tt
  | x :: l' => wbind (f x) (fun _ => wforEach l' f)
  end.

Definition show {A : Type} (m : W A) (s : Screen) : Screen := fst (m s).

(** *** Primitives *)

Definition contains (s : Screen) (id c : string) : bool :=
  existsb (String.eqb c) (classList s id).

(** [el.classList.add(c)] and [el.classList.remove(c)]. *)
Definition classList_add (id c : string) : W unit :=
  fun s =>
    (if contains s id c then s
     else with_classList (upd (classList s) id (classList s id ++ [c])%list) s,
     Ok tt).

Definition classList_remove (id c : string) : W unit :=
  fun s =>
    (with_classList
       (upd (classList s) id (filter (fun x => negb (String.eqb c x)) (classList s id))) s,
     Ok tt).

(** [el.innerHTML = markup]. *)
Definition set_innerHTML (id markup : string) : W unit :=
  fun s => (with_innerHTML (upd (innerHTML s) id markup) s, Ok tt).

(** [e.preventDefault()] and [console.error(text, e)]. *)
Definition preventDefault (type : string) : W unit :=
  fun s => (note (DefaultPrevented type) s, Ok tt).

Definition console_error (text : string) (e : Exn) : W unit :=
  fun s => (note (ConsoleError text e) s, Ok tt).

(** A value of a parsed body as a nullable string: [null] and
    [undefined] stand for no text, and any other value is converted. *)
Definition nullable_text (v : option Json) : result string :=
  match v with
  | None | Some JNull => Ok EmptyString
  | Some j => ToString j
  end.

(** [el.textContent = v] with a value of a parsed body: the attribute is
    a nullable string. *)
Definition assign_textContent (id : string) (v : option Json) : W unit :=
  wbind (wlift (nullable_text v)) (fun text => on_page (set_textContent id text)).

(** [fetch(url)] and the [await] on it: a GET without a body. *)
Definition fetch_get (settled : result Response) (url : string) : M Response :=
  fun p => (emit (Fetched (mkRequest url "GET" [])) p, settled).

Definition with_chosenFilesEnc (fs : list File) (p : Page) : Page :=
  mkPage fs (chosenFilesCmp p) (comparisonChart p) (value p) (files p) (disabled p)
    (childNodes p) (objectURLs p) (nextObjectURL p) (clock p) (timers p) (trace p).

Definition with_chosenFilesCmp (fs : list File) (p : Page) : Page :=
  mkPage (chosenFilesEnc p) fs (comparisonChart p) (value p) (files p) (disabled p)
    (childNodes p) (objectURLs p) (nextObjectURL p) (clock p) (timers p) (trace p).

(** A drag event, by the one property the script reads:
    [e.dataTransfer.files], which may be missing. *)
Record DragEvent : Type := mkDragEvent { dataTransfer_files : option (list File) }.

(** [Array.from(files || [])]. *)
Definition Array_from (fl : option (list File)) : list File :=
  match fl with
  | Some l => l
  | None => []
  end.

Declare Scope screen_scope.
Delimit Scope screen_scope with W.

Notation "x <- c1 ;; c2" := (wbind c1 (fun x => c2))
  (at level 61, c1 at next level, right associativity) : screen_scope.
Notation "c1 ;; c2" := (wbind c1 (fun _ => c2))
  (at level 61, right associativity) : screen_scope.

End Layout.

(** ** The script, continued: settings, tabs, file lists and the load *)

Module Panels.
Import JsString JsNumber JsValue Dom Script Layout.

(** [fetchAutoSettings] (lines 48-70); [settled] is what the promise of
    [fetch] settles to. *)
Definition fetchAutoSettings (settled : result Response) : W unit :=
  (try_catch
     (response <- on_page (fetch_get settled "/api/settings") ;;
      (if negb (ok response) then wthrow (Error "Failed to fetch settings") else wret tt) ;;
      settings <- wlift (json_body response) ;;
      workers <- wlift (get_prop settings "workers") ;;
      assign_textContent "auto-workers-enc" workers ;;
      chunk_mb <- wlift (get_prop settings "chunk_mb") ;;
      assign_textContent "auto-chunk-enc" chunk_mb ;;
      workers <- wlift (get_prop settings "workers") ;;
      assign_textContent "auto-workers-cmp" workers ;;
      chunk_mb <- wlift (get_prop settings "chunk_mb") ;;
      assign_textContent "auto-chunk-cmp" chunk_mb)
     (fun e =>
        console_error "Failed to load auto-settings" e ;;
        on_page (set_textContent "auto-workers-enc" "4 (Default)") ;;
        on_page (set_textContent "auto-chunk-enc" "8 (Default)") ;;
        on_page (set_textContent "auto-workers-cmp" "4 (Default)") ;;
        on_page (set_textContent "auto-chunk-cmp" "8 (Default)")))%W.

(** The elements of the three tabs (lines 74-76). *)
Definition tabs : list string := ["btnTabEncrypt"; "btnTabDecrypt"; "btnTabCompare"].
Definition pages : list string := ["encrypt-page"; "decrypt-page"; "compare-page"].
Definition settingsPanels : list string :=
  ["settings-encrypt"; "settings-decrypt"; "settings-compare"].

(** [switchTab] (lines 79-97). *)
Definition switchTab (tabId : string) : W unit :=
  (wforEach tabs (fun t => classList_remove t "active") ;;
   wforEach pages (fun p => classList_remove p "active") ;;
   wforEach settingsPanels (fun s => classList_add s "hidden") ;;
   if String.eqb tabId "encrypt" then
     classList_add "btnTabEncrypt" "active" ;;
     classList_add "encrypt-page" "active" ;;
     classList_remove "settings-encrypt" "hidden"
   else if String.eqb tabId "decrypt" then
     classList_add "btnTabDecrypt" "active" ;;
     classList_add "decrypt-page" "active" ;;
     classList_remove "settings-decrypt" "hidden"
   else
     classList_add "btnTabCompare" "active" ;;
     classList_add "compare-page" "active" ;;
     classList_remove "settings-compare" "hidden")%W.

(** The click handlers of the tab buttons (lines 99-101). *)
Definition btnTabEncrypt_onclick : W unit := switchTab "encrypt".
Definition btnTabDecrypt_onclick : W unit := switchTab "decrypt".
Definition btnTabCompare_onclick : W unit := switchTab "compare".

(** The markup of one file of the list (line 119). *)
Definition file_item (f : File) : string :=
  "<div class=" ++ quoted "file-item" ++ "><div class=" ++ quoted "file-details"
  ++ "><h4>" ++ file_name f ++ "</h4><p>" ++ fmtBytes (file_size f)
  ++ "</p></div></div>".

(** The callback of [fileArray.map] (lines 117-120): it adds the size of
    the file to [totalSize] and returns the markup of the file. The sizes
    are byte counts, and so is their sum (below [2 ^ 53]). *)
Definition map_sizes (fileArray : list File) (totalSize : Z) : list string * Z :=
  fold_left (fun acc f => ((fst acc ++ [file_item f])%list, (snd acc + file_size f)%Z))
    fileArray ([], totalSize).

(** [renderFileList] (lines 106-122). *)
Definition renderFileList (fileArray : list File) (listElId summaryElId : string)
    (enableFn : M unit) : W unit :=
  (on_page enableFn ;;
   let totalSize := 0%Z in
   if negb (nonzero (List.length fileArray)) then
     set_innerHTML listElId "" ;;
     classList_add summaryElId "hidden"
   else
     classList_remove summaryElId "hidden" ;;
     let (items, totalSize) := map_sizes fileArray totalSize in
     set_innerHTML listElId (join "" items) ;;
     on_page (set_textContent summaryElId
                (decimal (Z.of_nat (List.length fileArray)) ++ " file(s) — Total size: "
                 ++ fmtBytes totalSize)))%W.

(** The drop zone and the file input of the encrypt tab (lines 130-144). *)
Definition dzEnc_ondragover : W unit :=
  (preventDefault "dragover" ;; classList_add "drop-enc" "drag-over")%W.

Definition dzEnc_ondragleave : W unit := classList_remove "drop-enc" "drag-over".

Definition dzEnc_ondrop (e : DragEvent) : W unit :=
  (preventDefault "drop" ;;
   classList_remove "drop-enc" "drag-over" ;;
   on_page (fun p => (with_chosenFilesEnc (Array_from (dataTransfer_files e)) p, Ok tt)) ;;
   chosen <- on_page (read chosenFilesEnc) ;;
   renderFileList chosen "fileList-enc" "summary-enc" enableEncrypt)%W.

(** [e.target] is the input; its [files] are a list, never missing. *)
Definition filesEnc_onchange : W unit :=
  (picked <- on_page (read (fun p => files p "files-enc")) ;;
   on_page (fun p => (with_chosenFilesEnc (Array_from (Some picked)) p, Ok tt)) ;;
   chosen <- on_page (read chosenFilesEnc) ;;
   renderFileList chosen "fileList-enc" "summary-enc" enableEncrypt)%W.

(** The drop zone and the file input of the compare tab (lines 196-209). *)
Definition dzCmp_ondragover : W unit :=
  (preventDefault "dragover" ;; classList_add "drop-cmp" "drag-over")%W.

Definition dzCmp_ondragleave : W unit := classList_remove "drop-cmp" "drag-over".

Definition dzCmp_ondrop (e : DragEvent) : W unit :=
  (preventDefault "drop" ;;
   classList_remove "drop-cmp" "drag-over" ;;
   on_page (fun p => (with_chosenFilesCmp (Array_from (dataTransfer_files e)) p, Ok tt)) ;;
   chosen <- on_page (read chosenFilesCmp) ;;
   renderFileList chosen "fileList-cmp" "summary-cmp" enableCompare)%W.

Definition filesCmp_onchange : W unit :=
  (picked <- on_page (read (fun p => files p "files-cmp")) ;;
   on_page (fun p => (with_chosenFilesCmp (Array_from (Some picked)) p, Ok tt)) ;;
   chosen <- on_page (read chosenFilesCmp) ;;
   renderFileList chosen "fileList-cmp" "summary-cmp" enableCompare)%W.

(** [initChart] (lines 212-233): a chart with both bars at zero. *)
Definition initChart : M unit :=
  fun p => (with_chart (Some (zero, zero)) p, Ok tt).

(** [window.onload] (lines 362-367). *)
Definition window_onload (settled : result Response) : W unit :=
  (on_page initChart ;;
   switchTab "encrypt" ;;
   on_page (setStatus "Ready") ;;
   fetchAutoSettings settled)%W.

(** *** Notions the further properties are stated with *)

(** The function that enables or disables the trigger of a workflow, and
    the files the workflow would send. *)
Definition enable_of (w : Workflow) : M unit :=
  match w with
  | Encrypt => enableEncrypt
  | Compare => enableCompare
  | Decrypt => enableDecrypt
  end.

Definition selection_of (w : Workflow) (p : Page) : list File :=
  match w with
  | Encrypt => chosenFilesEnc p
  | Compare => chosenFilesCmp p
  | Decrypt => files p "pkg"
  end.

(** The exception a settled request makes the [try] block throw before
    it has logged anything, when there is one. *)
Definition failure_of (settled : result Response) : option Exn :=
  match settled with
  | Throw e => Some e
  | Ok r => if ok r then None else Some (rejection r)
  end.

(** The text an element shows. *)
Definition shown (p : Page) (id : string) : string := text_of (childNodes p id).

(** The log pane of a workflow. *)
Definition pane_of (w : Workflow) : string := "log-" ++ tab_of w.

(** Every run of [m] leaves the page in relation [R] with the page it
    started from. *)
Definition keeps (R : Page -> Page -> Prop) {A : Type} (m : M A) : Prop :=
  forall p, R p (fst (m p)).

(** What a handler of [w] has no business with: the other triggers, the
    other elements, the files chosen and the values typed, and, compare
    apart, the chart. *)
Definition apart (w : Workflow) (p q : Page) : Prop :=
  (forall id, id <> button_of w -> disabled q id = disabled p id)
  /\ (forall id, id <> pane_of w -> id <> "footer" -> childNodes q id = childNodes p id)
  /\ chosenFilesEnc q = chosenFilesEnc p
  /\ chosenFilesCmp q = chosenFilesCmp p
  /\ value q = value p
  /\ files q = files p
  /\ (w <> Compare -> comparisonChart q = comparisonChart p).

(** Object URLs are made and never given back: [q] has those of [p] and
    some more, and the timers and the clock of [p]. *)
Definition hoards (p q : Page) : Prop :=
  timers q = timers p
  /\ clock q = clock p
  /\ exists born,
       objectURLs q = (born ++ objectURLs p)%list
       /\ nextObjectURL q = List.length born + nextObjectURL p.

(** What the events of a run add to the text of the log pane of [tab]:
    a line and its line feed, or the text of a link. *)
Definition rendering (tab : string) (evs : list Event) : string :=
  fold_right
    (fun e rest =>
       match e with
       | Logged t m => if String.eqb t tab then m ++ LF ++ rest else rest
       | LoggedHTML t a => if String.eqb t tab then textContent a ++ rest else rest
       | _ => rest
       end) EmptyString evs.

(** From [p] to [q] the pane of [tab] has grown by the rendering of the
    events in between, and the links in it are links it had or links
    logged in between. *)
Definition transcribed (tab : string) (p q : Page) : Prop :=
  exists evs,
    trace q = (trace p ++ evs)%list
    /\ shown q ("log-" ++ tab) = shown p ("log-" ++ tab) ++ rendering tab evs
    /\ forall a, In (AnchorNode a) (childNodes q ("log-" ++ tab)) ->
                 In (AnchorNode a) (childNodes p ("log-" ++ tab))
                 \/ In a (links_of tab evs).

(** The lines a success of the encrypt or of the compare handler logs
    before it reads the body of the response. *)
Definition announced (w : Workflow) (r : Response) : list string :=
  match w with
  | Encrypt =>
      [ "✅ Success! Run complete in " ++ toFixed (header_time r "X-Time-Elapsed") 4 ++ "s." ]
  | Compare =>
      [ "✅ Comparison complete on server.";
        "--- RESULTS ---";
        "FIFO (Naive):   " ++ toFixed (header_time r "X-Time-FIFO") 4 ++ " seconds";
        "AI (Priority):  " ++ toFixed (header_time r "X-Time-AI") 4 ++ " seconds";
        verdict (header_time r "X-Time-FIFO") (header_time r "X-Time-AI") ]
  | Decrypt => []
  end.

(** The files a request uploads, in the order of its entries. *)
Definition uploads (rq : Request) : list File :=
  flat_map (fun e => match snd e with FFile f _ => [f] | FText _ => [] end) (req_body rq).

(** The texts a request carries under a name. *)
Definition texts (name : string) (rq : Request) : list string :=
  flat_map (fun e => match snd e with
                     | FText s => if String.eqb (fst e) name then [s] else []
                     | FFile _ _ => []
                     end) (req_body rq).

(** A page on which the next object URL is not in use: no object URL
    and no anchor of the document body has its number. *)
Definition unused_next (p : Page) : bool :=
  forallb (fun u => negb (Nat.eqb (fst u) (nextObjectURL p))) (objectURLs p)
  && forallb (fun n => negb (is_anchor_of (nextObjectURL p) n)) (childNodes p "body").

(** The characters of a string. *)
Definition chars (s : string) : list ascii := list_ascii_of_string s.

(** Which of the three tabs [switchTab] shows for an argument: the
    encrypt tab, the decrypt tab, or else the compare tab. *)
Definition selected (tabId : string) : list bool :=
  [ String.eqb tabId "encrypt";
    negb (String.eqb tabId "encrypt") && String.eqb tabId "decrypt";
    negb (String.eqb tabId "encrypt") && negb (String.eqb tabId "decrypt") ].

(** Where an id stands in a list of ids. *)
Fixpoint index_of (id : string) (l : list string) : option nat :=
  match l with
  | [] => None
  | x :: l' =>
      if String.eqb id x then Some 0
      else match index_of id l' with Some i => Some (S i) | None => None end
  end.

(** Whether element [id] has class [c] once [switchTab tabId] has run,
    when [before] says whether it had it: the tab buttons and the pages
    are [active] when they are those of the tab selected, the settings
    panels are [hidden] when they are not, and nothing else changes. *)
Definition switched (tabId id c : string) (before : bool) : bool :=
  if String.eqb c "active" then
    match index_of id tabs, index_of id pages with
    | Some i, _ | None, Some i => nth i (selected tabId) false
    | None, None => before
    end
  else if String.eqb c "hidden" then
    match index_of id settingsPanels with
    | Some i => negb (nth i (selected tabId) false)
    | None => before
    end
  else before.

(** The drop zone of a workflow that takes files by drag and drop, the
    element that lists them and the one that sums them up. *)
Definition zone_of (w : Workflow) : string :=
  match w with Compare => "drop-cmp" | _ => "drop-enc" end.

Definition list_of (w : Workflow) : string :=
  match w with Compare => "fileList-cmp" | _ => "fileList-enc" end.

Definition summary_of (w : Workflow) : string :=
  match w with Compare => "summary-cmp" | _ => "summary-enc" end.

Definition input_of (w : Workflow) : string :=
  match w with Compare => "files-cmp" | _ => "files-enc" end.

(** The handlers of a drop on the zone and of a change of the file input
    (the decrypt tab has no zone, and its input only enables the
    trigger, line 305). *)
Definition ondrop_of (w : Workflow) (e : DragEvent) : W unit :=
  match w with
  | Encrypt => dzEnc_ondrop e
  | Compare => dzCmp_ondrop e
  | Decrypt => wret tt
  end.

Definition onchange_of (w : Workflow) : W unit :=
  match w with
  | Encrypt => filesEnc_onchange
  | Compare => filesCmp_onchange
  | Decrypt => on_page enableDecrypt
  end.

(** The handlers of a drag over the zone and of a drag that leaves it. *)
Definition ondragover_of (w : Workflow) : W unit :=
  match w with
  | Encrypt => dzEnc_ondragover
  | Compare => dzCmp_ondragover
  | Decrypt => wret tt
  end.

Definition ondragleave_of (w : Workflow) : W unit :=
  match w with
  | Encrypt => dzEnc_ondragleave
  | Compare => dzCmp_ondragleave
  | Decrypt => wret tt
  end.

(** The three handlers of a click on a tab button, in the order of [tabs]. *)
Definition tab_onclicks : list (W unit) :=
  [btnTabEncrypt_onclick; btnTabDecrypt_onclick; btnTabCompare_onclick].

(** The sum of the sizes of some files. *)
Definition total_size (fs : list File) : Z :=
  fold_right (fun f acc => (file_size f + acc)%Z) 0%Z fs.

(** The texts of the two settings, when the request for them succeeds
    and they can be shown: what [workers] and [chunk_mb] hold. *)
Definition settings_texts (settled : result Response) : result (string * string) :=
  rbind settled (fun r =>
    if ok r then
      rbind (json_body r) (fun settings =>
      rbind (get_prop settings "workers") (fun workers =>
      rbind (nullable_text workers) (fun wt =>
      rbind (get_prop settings "chunk_mb") (fun chunk_mb =>
      rbind (nullable_text chunk_mb) (fun ct => Ok (wt, ct))))))
    else Throw (Error "Failed to fetch settings")).

(** The four labels of the settings, in the order the script fills them. *)
Definition labels (p : Page) : list string :=
  map (shown p) ["auto-workers-enc"; "auto-chunk-enc"; "auto-workers-cmp"; "auto-chunk-cmp"].

(** Clicks on triggers, one after the other, each with what its request
    settles to. *)
Definition session (clicks : list (Workflow * result Response)) : M unit :=
  forEach clicks (fun c => onclick (fst c) (snd c)).

(** *** Responses of the examples *)

(** The settings of a machine with eight workers. *)
Definition tuned : Response :=
  mkResponse 200 [] (Ok (JObj [("workers", JNum 8); ("chunk_mb", JNum 16)])) (Ok (mkBlob "")).

(** A success whose body cannot be read to its end. *)
Definition truncated : Response :=
  mkResponse 200 [("X-Time-Elapsed", "1.25")]
    (Throw (mkExn "SyntaxError" "Unexpected end of JSON input"))
    (Throw (TypeError "Failed to fetch")).

(** A comparison whose FIFO time is no number. *)
Definition garbled : Response :=
  mkResponse 200 [("X-Time-FIFO", "n/a"); ("X-Time-AI", "1.5")]
    (Throw (mkExn "SyntaxError" "Unexpected token P in JSON at position 0"))
    (Ok (mkBlob "PK")).

(** A success of the decrypt endpoint with a body that is no JSON. *)
Definition garbage : Response :=
  mkResponse 200 [("Content-Type", "text/html")]
    (Throw (mkExn "SyntaxError" "Unexpected token < in JSON at position 0"))
    (Ok (mkBlob "<html>")).

(** A screen with nothing on it, and two files to drop on it. *)
Definition bare : Screen := mkScreen blank (fun _ => []) (fun _ => EmptyString) [].

Definition two_files : list File := [mkFile "a.txt" 1536; mkFile "b.bin" 512].

(** A decryption that found nothing, and one that names no session. *)
Definition emptied : Response :=
  mkResponse 200 [] (Ok (JObj [("session_id", JStr "abc123"); ("files", JArr [])]))
    (Ok (mkBlob "")).

Definition unnamed : Response :=
  mkResponse 200 [] (Ok (JObj [("files", JArr [JStr "a.txt"])])) (Ok (mkBlob "")).

End Panels.

(** * Properties *)

(** ** Strings *)

Module JsStringFacts.
Import JsString.

Lemma append_nil_r (s : string) : s ++ "" = s.
Proof. induction s as [|c s IH]; simpl; [reflexivity | now rewrite IH]. Qed.

Lemma append_assoc (a b c : string) : (a ++ b) ++ c = a ++ (b ++ c).
Proof. induction a as [|x a IH]; simpl; [reflexivity | now rewrite IH]. Qed.

Lemma length_append (a b : string) : length (a ++ b) = length a + length b.
Proof. induction a as [|x a IH]; simpl; [reflexivity | now rewrite IH]. Qed.

Lemma append_cancel_l (a b c : string) : a ++ b = a ++ c -> b = c.
Proof. induction a as [|x a IH]; simpl; intros H; [assumption | injection H; auto]. Qed.

Lemma append_eq_nil (a b : string) : a ++ b = "" -> a = "" /\ b = "".
Proof. destruct a; simpl; intros H; [auto | discriminate]. Qed.

(** Two ways of cutting one string: one cut is inside the other's first part. *)
Lemma append_eq_append (a b c d : string) :
  a ++ b = c ++ d ->
  (exists e, a = c ++ e /\ d = e ++ b) \/ (exists e, c = a ++ e /\ b = e ++ d).
Proof.
  revert c; induction a as [|x a IH]; intros c H; simpl in H.
  - right. exists c. auto.
  - destruct c as [|y c]; simpl in H.
    + left. exists (String x a). subst d. auto.
    + injection H as -> H. destruct (IH _ H) as [[e [-> ->]] | [e [-> ->]]].
      * left. exists e. auto.
      * right. exists e. auto.
Qed.

Lemma rev_string_append (a b : string) :
  rev_string (a ++ b) = rev_string b ++ rev_string a.
Proof.
  induction a as [|x a IH]; simpl.
  - now rewrite append_nil_r.
  - now rewrite IH, append_assoc.
Qed.

Lemma rev_string_involutive (s : string) : rev_string (rev_string s) = s.
Proof.
  induction s as [|x s IH]; simpl; [reflexivity|].
  now rewrite rev_string_append, IH.
Qed.


Lemma rev_string_nil (s : string) : rev_string s = "" -> s = "".
Proof.
  intros H. rewrite <- (rev_string_involutive s), H. reflexivity.
Qed.

(** *** Prefixes *)

Lemma strip_prefix_append (p r : string) : strip_prefix p (p ++ r) = Some r.
Proof.
  induction p as [|x p IH]; simpl; [reflexivity|].
  now rewrite Ascii.eqb_refl.
Qed.

Lemma strip_prefix_Some (p s r : string) : strip_prefix p s = Some r -> s = p ++ r.
Proof.
  revert s; induction p as [|x p IH]; intros s H; simpl in H.
  - now injection H.
  - destruct s as [|y s]; [discriminate|].
    destruct (Ascii.eqb x y) eqn:E; [|discriminate].
    apply Ascii.eqb_eq in E. subst y. simpl. f_equal. auto.
Qed.

Lemma startsWith_append (p r : string) : startsWith (p ++ r) p = true.
Proof. unfold startsWith. now rewrite strip_prefix_append. Qed.

Lemma startsWith_true (s p : string) :
  startsWith s p = true -> exists r, s = p ++ r.
Proof.
  unfold startsWith. destruct (strip_prefix p s) eqn:E; [|discriminate].
  intros _. exists s0. now apply strip_prefix_Some.
Qed.

(** [includes] finds a part that is there, wherever it is. *)
Lemma includes_startsWith (s sub : string) :
  startsWith s sub = true -> includes s sub = true.
Proof. intros H. destruct s; simpl; rewrite H; reflexivity. Qed.

Lemma includes_append (a sub b : string) : includes (a ++ sub ++ b) sub = true.
Proof.
  induction a as [|x a IH]; simpl.
  - apply includes_startsWith, startsWith_append.
  - rewrite IH. apply orb_true_r.
Qed.

Lemma includes_true (s sub : string) :
  includes s sub = true -> exists a b, s = a ++ sub ++ b.
Proof.
  induction s as [|x s IH]; simpl; intros H.
  - rewrite orb_false_r in H. apply startsWith_true in H as [r Hr].
    exists "", r. assumption.
  - apply orb_true_iff in H as [H | H].
    + apply startsWith_true in H as [r Hr]. exists "", r. assumption.
    + destruct (IH H) as [a [b ->]]. exists (String x a), b. reflexivity.
Qed.

Lemma includes_self s : includes s s = true.
Proof. rewrite <- (append_nil_r s) at 1. apply (includes_append "" s ""). Qed.

Lemma includes_suffix a s : includes (a ++ s) s = true.
Proof. rewrite <- (append_nil_r s) at 1. apply includes_append. Qed.

Lemma includes_nil s : includes s "" = true.
Proof. apply includes_startsWith. reflexivity. Qed.

End JsStringFacts.

(** ** Trimming *)

Module TrimFacts.
Import JsString JsStringFacts.

Section Tokens.
Variable toks : list string.
Hypothesis Hfree : prefix_free toks = true.

Lemma token_nonempty t : In t toks -> t <> "".
Proof.
  intros Hin ->. unfold prefix_free in Hfree.
  rewrite forallb_forall in Hfree. specialize (Hfree _ Hin).
  simpl in Hfree. discriminate.
Qed.

Lemma token_prefix t1 t2 e : In t1 toks -> In t2 toks -> t2 = t1 ++ e -> t1 = t2.
Proof.
  intros H1 H2 ->. unfold prefix_free in Hfree.
  rewrite forallb_forall in Hfree. specialize (Hfree _ H1).
  apply andb_true_iff in Hfree as [_ Hall].
  rewrite forallb_forall in Hall. specialize (Hall _ H2).
  rewrite startsWith_append in Hall. simpl in Hall.
  now apply String.eqb_eq in Hall.
Qed.

Lemma strip_any_Some s r :
  strip_any toks s = Some r -> exists t, In t toks /\ s = t ++ r.
Proof.
  clear Hfree. induction toks as [|t l IH]; simpl; [discriminate|].
  destruct (strip_prefix t s) eqn:E.
  - intros [= ->]. exists t. split; [now left | now apply strip_prefix_Some].
  - intros H. destruct (IH H) as [t' [Hin Hs]]. exists t'. auto.
Qed.

Lemma strip_any_None s t r :
  strip_any toks s = None -> In t toks -> s <> t ++ r.
Proof.
  clear Hfree. induction toks as [|t0 l IH]; simpl; [contradiction|].
  destruct (strip_prefix t0 s) eqn:E; [discriminate|].
  intros H [-> | Hin] ->.
  - rewrite strip_prefix_append in E. discriminate.
  - now apply (IH H Hin).
Qed.

Lemma strip_any_token t r : In t toks -> strip_any toks (t ++ r) = Some r.
Proof.
  intros Hin. destruct (strip_any toks (t ++ r)) as [r'|] eqn:E.
  - destruct (strip_any_Some _ _ E) as [t' [Hin' Heq]].
    destruct (append_eq_append _ _ _ _ Heq) as [[e [He _]] | [e [He _]]].
    + pose proof (token_prefix _ _ _ Hin' Hin He) as Ht. clear He.
      rewrite Ht in Heq. apply append_cancel_l in Heq. now subst.
    + pose proof (token_prefix _ _ _ Hin Hin' He) as Ht. clear He.
      rewrite <- Ht in Heq. apply append_cancel_l in Heq. now subst.
  - exfalso. now apply (strip_any_None _ t r E Hin).
Qed.

Lemma strip_any_shorter s r : strip_any toks s = Some r -> length r < length s.
Proof.
  intros H. destruct (strip_any_Some _ _ H) as [t [Hin ->]].
  rewrite length_append. pose proof (token_nonempty _ Hin).
  destruct t; [contradiction | simpl; lia].
Qed.

Lemma drop_tokens_fuel f1 f2 s :
  length s <= f1 -> length s <= f2 -> drop_tokens toks f1 s = drop_tokens toks f2 s.
Proof.
  revert f2 s; induction f1 as [|f1 IH]; intros f2 s H1 H2.
  - destruct s; [|simpl in H1; lia].
    destruct f2; simpl; [reflexivity|].
    destruct (strip_any toks "") eqn:E; [|reflexivity].
    apply strip_any_shorter in E. simpl in E. lia.
  - destruct f2 as [|f2]; simpl.
    + destruct s; [|simpl in H2; lia].
      destruct (strip_any toks "") eqn:E; [|reflexivity].
      apply strip_any_shorter in E. simpl in E. lia.
    + destruct (strip_any toks s) eqn:E; [|reflexivity].
      pose proof (strip_any_shorter _ _ E). apply IH; lia.
Qed.

Lemma drop_tokens_token t r f :
  In t toks -> length (t ++ r) <= f ->
  drop_tokens toks f (t ++ r) = drop_tokens toks (length r) r.
Proof.
  intros Hin Hf. pose proof (token_nonempty _ Hin) as Hne.
  destruct f as [|f].
  - destruct t; [contradiction | simpl in Hf; lia].
  - simpl. rewrite (strip_any_token _ _ Hin).
    apply drop_tokens_fuel; [|lia].
    rewrite length_append in Hf. destruct t; [contradiction | simpl in Hf; lia].
Qed.

Lemma drop_tokens_Tokens l r f :
  Tokens toks l -> length (l ++ r) <= f ->
  drop_tokens toks f (l ++ r) = drop_tokens toks (length r) r.
Proof.
  intros Hl. revert f. induction Hl as [|t s Hin Hs IH]; intros f Hf.
  - simpl in *. now apply drop_tokens_fuel.
  - rewrite append_assoc in *. rewrite (drop_tokens_token _ _ _ Hin Hf).
    apply IH. lia.
Qed.

Lemma drop_tokens_fixed f s : strip_any toks s = None -> drop_tokens toks f s = s.
Proof. intros H. destruct f; simpl; [reflexivity | now rewrite H]. Qed.

Lemma drop_tokens_done f s :
  length s <= f -> strip_any toks (drop_tokens toks f s) = None.
Proof.
  revert s; induction f as [|f IH]; intros s Hf; simpl.
  - destruct s; [|simpl in Hf; lia].
    destruct (strip_any toks "") eqn:E; [|reflexivity].
    apply strip_any_shorter in E. simpl in E. lia.
  - destruct (strip_any toks s) eqn:E; [|assumption].
    apply IH. pose proof (strip_any_shorter _ _ E). lia.
Qed.

Lemma drop_tokens_split f s :
  exists l, Tokens toks l /\ s = l ++ drop_tokens toks f s.
Proof.
  clear Hfree. revert s; induction f as [|f IH]; intros s; simpl.
  - exists "". split; [constructor | reflexivity].
  - destruct (strip_any toks s) eqn:E.
    + destruct (strip_any_Some _ _ E) as [t [Hin ->]].
      destruct (IH s0) as [l [Hl Hs]].
      exists (t ++ l). split; [now constructor|].
      rewrite append_assoc. now rewrite <- Hs.
    + exists "". split; [constructor | reflexivity].
Qed.

Lemma Tokens_append a b : Tokens toks a -> Tokens toks b -> Tokens toks (a ++ b).
Proof.
  clear Hfree. intros Ha Hb. induction Ha as [|t s Hin Hs IH]; [assumption|].
  rewrite append_assoc. now constructor.
Qed.

Lemma Tokens_drop l : Tokens toks l -> drop_tokens toks (length l) l = "".
Proof.
  intros Hl. rewrite <- (append_nil_r l) at 2.
  rewrite (drop_tokens_Tokens l "" _ Hl).
  - reflexivity.
  - rewrite append_nil_r. lia.
Qed.


End Tokens.

Lemma Tokens_rev toks r :
  Tokens toks r -> Tokens (map rev_string toks) (rev_string r).
Proof.
  intros Hr. induction Hr as [|t s Hin Hs IH]; simpl; [constructor|].
  rewrite rev_string_append. apply Tokens_append; [assumption|].
  rewrite <- (append_nil_r (rev_string t)). constructor; [|constructor].
  now apply in_map.
Qed.

Lemma WhiteSpace_free : prefix_free WhiteSpace = true.
Proof. vm_compute. reflexivity. Qed.






Lemma trimEnd_split s : exists r, Blank r /\ s = trimEnd s ++ r.
Proof.
  destruct (drop_tokens_split WhiteSpace_rev (length s) (rev_string s)) as [l [Hl Hs]].
  exists (rev_string l). split.
  - apply Tokens_rev in Hl. unfold Blank.
    replace WhiteSpace with (map rev_string WhiteSpace_rev); [assumption|].
    vm_compute. reflexivity.
  - unfold trimEnd. rewrite <- rev_string_append, <- Hs.
    now rewrite rev_string_involutive.
Qed.

Lemma trimStart_done s : strip_any WhiteSpace (trimStart s) = None.
Proof. apply (drop_tokens_done _ WhiteSpace_free). lia. Qed.

Lemma trimStart_Blank_nil l : Blank l -> trimStart l = "".
Proof. apply (Tokens_drop _ WhiteSpace_free). Qed.






End TrimFacts.

(** ** Splitting *)

Module SplitFacts.
Import JsString JsStringFacts.

Lemma strip_prefix_shorter p s r :
  p <> "" -> strip_prefix p s = Some r -> length r < length s.
Proof.
  intros Hp H. apply strip_prefix_Some in H. subst s.
  rewrite length_append. destruct p; [contradiction | simpl; lia].
Qed.

(** A prefix of [s ++ t] is a prefix of [s], or it reaches into [t]. *)
Lemma strip_prefix_of_append p s t r :
  strip_prefix p (s ++ t) = Some r ->
  (exists r', strip_prefix p s = Some r') \/
  (exists p2, p = s ++ p2 /\ p2 <> "" /\ strip_prefix p2 t = Some r).
Proof.
  revert s; induction p as [|x p IH]; intros s H.
  - left. exists s. reflexivity.
  - destruct s as [|y s]; simpl in H.
    + right. exists (String x p). repeat split; [discriminate | assumption].
    + simpl. destruct (Ascii.eqb x y) eqn:E; [|discriminate].
      apply Ascii.eqb_eq in E. subst y.
      destruct (IH _ H) as [[r' Hr'] | [p2 [-> [Hne Hp2]]]].
      * left. eauto.
      * right. exists p2. auto.
Qed.

Lemma split_go_S f sep s :
  split_go (S f) sep s =
  match strip_prefix sep s with
  | Some rest => EmptyString :: split_go f sep rest
  | None =>
      match s with
      | EmptyString => [EmptyString]
      | String c s' =>
          match split_go f sep s' with
          | h :: t => String c h :: t
          | [] => [String c EmptyString]
          end
      end
  end.
Proof. reflexivity. Qed.

#[local] Arguments split_go : simpl never.

Lemma split_go_fuel sep f1 f2 s :
  sep <> "" -> length s < f1 -> length s < f2 ->
  split_go f1 sep s = split_go f2 sep s.
Proof.
  intros Hsep. revert f2 s; induction f1 as [|f1 IH]; intros f2 s H1 H2; [lia|].
  destruct f2 as [|f2]; [lia|]. rewrite !split_go_S.
  destruct (strip_prefix sep s) as [rest|] eqn:E.
  - pose proof (strip_prefix_shorter _ _ _ Hsep E). f_equal. apply IH; lia.
  - destruct s as [|c s]; [reflexivity|]. simpl in H1, H2.
    rewrite (IH f2 s); [reflexivity | lia | lia].
Qed.

Lemma split_go_nonempty f sep s : split_go f sep s <> [].
Proof.
  destruct f; [discriminate|]. rewrite split_go_S.
  destruct (strip_prefix sep s); [discriminate|].
  destruct s; [discriminate|].
  destruct (split_go f sep s); discriminate.
Qed.

Lemma split_nonempty s sep : split s sep <> [].
Proof. apply split_go_nonempty. Qed.

(** Where the separator does not occur, nothing is cut. *)
Lemma split_go_whole f sep s :
  length s < f -> includes s sep = false -> split_go f sep s = [s].
Proof.
  revert s; induction f as [|f IH]; intros s Hf H; [lia|]. rewrite split_go_S.
  destruct s as [|c s].
  - simpl in H. rewrite orb_false_r in H. unfold startsWith in H.
    destruct (strip_prefix sep ""); [discriminate | reflexivity].
  - simpl in H. apply orb_false_iff in H as [H1 H2]. unfold startsWith in H1.
    destruct (strip_prefix sep (String c s)); [discriminate|].
    simpl in Hf. rewrite (IH s); [reflexivity | lia | assumption].
Qed.

Lemma split_whole s sep : includes s sep = false -> split s sep = [s].
Proof. apply split_go_whole. lia. Qed.

Lemma split_go_cut f sep a b :
  sep <> "" -> length (a ++ sep ++ b) < f -> clear_before sep a (sep ++ b) ->
  split_go f sep (a ++ sep ++ b) = a :: split_go f sep b.
Proof.
  intros Hsep.
  assert (Hl : 0 < length sep) by (destruct sep; [contradiction | simpl; lia]).
  revert f; induction a as [|c a IH]; intros f Hf Hclear.
  - destruct f; [lia|]. simpl append. rewrite split_go_S.
    rewrite strip_prefix_append. f_equal.
    simpl in Hf. rewrite length_append in Hf.
    apply split_go_fuel; [assumption | lia | lia].
  - destruct f; [simpl in Hf; lia|]. simpl append. rewrite split_go_S.
    assert (Hnone : strip_prefix sep (String c (a ++ sep ++ b)) = None).
    { apply (Hclear "" (String c a)); [reflexivity | discriminate]. }
    rewrite Hnone. rewrite IH.
    + f_equal. simpl in Hf. rewrite !length_append in Hf.
      apply split_go_fuel; [assumption | lia | lia].
    + simpl in Hf. lia.
    + intros a1 a2 -> Ha2. apply (Hclear (String c a1) a2); [reflexivity | assumption].
Qed.

Lemma split_cut s sep a b :
  sep <> "" -> s = a ++ sep ++ b -> clear_before sep a (sep ++ b) ->
  split s sep = a :: split b sep.
Proof.
  intros Hsep -> Hclear. unfold split. rewrite split_go_cut; auto.
  f_equal. rewrite !length_append. apply split_go_fuel; [assumption | lia | lia].
Qed.

(** *** One character as the separator *)

Lemma includes_char_false c x s :
  includes (String x s) (String c "") = false -> x <> c /\ includes s (String c "") = false.
Proof.
  simpl. intros H. apply orb_false_iff in H as [H1 H2]. split; [|assumption].
  intros ->. unfold startsWith in H1. simpl in H1. rewrite Ascii.eqb_refl in H1. discriminate.
Qed.

Lemma split_go_char_nil f c : split_go (S f) (String c "") "" = [""].
Proof. reflexivity. Qed.

Lemma split_go_char_hit f c s :
  split_go (S f) (String c "") (String c s) = "" :: split_go f (String c "") s.
Proof. rewrite split_go_S. simpl strip_prefix. now rewrite Ascii.eqb_refl. Qed.

Lemma split_go_char_miss f c x s :
  Ascii.eqb c x = false ->
  split_go (S f) (String c "") (String x s) =
  match split_go f (String c "") s with
  | h :: t => String x h :: t
  | [] => [String x ""]
  end.
Proof. intros E. rewrite split_go_S. simpl strip_prefix. now rewrite E. Qed.

Lemma split_go_char_append f c a b :
  length (a ++ String c b) < f ->
  split_go f (String c "") (a ++ String c b) =
  (split_go f (String c "") a ++ split_go f (String c "") b)%list.
Proof.
  revert f; induction a as [|x a IH]; intros f Hf.
  - destruct f; [lia|]. simpl append.
    rewrite split_go_char_hit, split_go_char_nil.
    change ([""] ++ split_go (S f) (String c "") b)%list
      with ("" :: split_go (S f) (String c "") b).
    f_equal. simpl in Hf. apply split_go_fuel; [discriminate | lia | lia].
  - destruct f; [simpl in Hf; lia|]. simpl in Hf.
    change (String x a ++ String c b) with (String x (a ++ String c b)).
    rewrite length_append in Hf. simpl in Hf.
    rewrite (split_go_fuel (String c "") (S f) f b) by (try discriminate; lia).
    destruct (Ascii.eqb c x) eqn:E.
    + apply Ascii.eqb_eq in E. subst x. rewrite !split_go_char_hit.
      rewrite IH by (rewrite length_append; simpl; lia). reflexivity.
    + rewrite !(split_go_char_miss _ _ _ _ E).
      rewrite IH by (rewrite length_append; simpl; lia).
      destruct (split_go f (String c "") a) as [|h t] eqn:Ea.
      * now apply split_go_nonempty in Ea.
      * reflexivity.
Qed.

Lemma split_char_append c a b :
  split (a ++ String c b) (String c "") =
  (split a (String c "") ++ split b (String c ""))%list.
Proof.
  unfold split. rewrite split_go_char_append by lia.
  rewrite length_append. simpl.
  f_equal; apply split_go_fuel; try discriminate; lia.
Qed.

(** The last segment: what follows the last separator. *)
Lemma pop_split_last c dir name :
  includes name (String c "") = false ->
  pop (split (dir ++ String c name) (String c "")) = name.
Proof.
  intros H. rewrite split_char_append, (split_whole _ _ H).
  unfold pop. apply last_last.
Qed.

Lemma pop_split_whole sep name :
  includes name sep = false -> pop (split name sep) = name.
Proof. intros H. now rewrite (split_whole _ _ H). Qed.

Lemma includes_false_startsWith s sub :
  includes s sub = false -> startsWith s sub = false.
Proof.
  intros H. destruct (startsWith s sub) eqn:E; [|reflexivity].
  now rewrite (includes_startsWith _ _ E) in H.
Qed.

Lemma includes_false_tail x s sub :
  includes (String x s) sub = false -> includes s sub = false.
Proof. simpl. intros H. now apply orb_false_iff in H. Qed.

(** *** The separator of the content-disposition header *)

Lemma remove_char_append c a b :
  remove_char c (a ++ b) = remove_char c a ++ remove_char c b.
Proof.
  induction a as [|x a IH]; simpl; [reflexivity|].
  destruct (Ascii.eqb x c); simpl; now rewrite IH.
Qed.

Lemma remove_char_hit c s : remove_char c (String c s) = remove_char c s.
Proof. simpl. now rewrite Ascii.eqb_refl. Qed.

Lemma remove_char_quoted name :
  remove_char dquote name = name -> remove_char dquote (quoted name) = name.
Proof.
  intros H. unfold quoted.
  rewrite remove_char_hit, remove_char_append, H, remove_char_hit.
  apply append_nil_r.
Qed.

Tactic Notation "peel_prefix" hyp(H) ident(a) :=
  destruct a as [|? a]; simpl in H;
  [ try discriminate | injection H as <- H ].

(** ["filename="] does not overlap itself: an occurrence that starts
    before another one ends before it. *)
Lemma filename_clear_before a b :
  includes a "filename=" = false -> clear_before "filename=" a ("filename=" ++ b).
Proof.
  intros Ha a1 a2 -> Hne.
  assert (Hs : startsWith a2 "filename=" = false).
  { clear Hne. induction a1 as [|x a1 IH].
    - now apply includes_false_startsWith.
    - apply IH. now apply (includes_false_tail x). }
  destruct (strip_prefix "filename=" (a2 ++ "filename=" ++ b)) as [r|] eqn:E; [exfalso | reflexivity].
  apply strip_prefix_of_append in E as [[r' Hr'] | [p2 [Hp [Hp2 E]]]].
  - unfold startsWith in Hs. rewrite Hr' in Hs. discriminate.
  - destruct a2 as [|x a2]; [contradiction|].
    simpl in Hp. injection Hp as <- Hp.
    do 8 (peel_prefix Hp a2; [subst p2; simpl in E; discriminate |]).
    destruct a2; simpl in Hp; [|discriminate]. subst p2. contradiction.
Qed.

Lemma split_filename a b :
  includes a "filename=" = false ->
  split (a ++ "filename=" ++ b) "filename=" = a :: split b "filename=".
Proof.
  intros Ha. apply split_cut; [discriminate | reflexivity |].
  now apply filename_clear_before.
Qed.

(** A trailing character that is not in the separator hides no occurrence. *)
Lemma includes_snoc_false s sep c :
  sep <> "" -> (forall p, sep <> p ++ String c "") ->
  includes s sep = false -> includes (s ++ String c "") sep = false.
Proof.
  intros Hsep Hc. induction s as [|x s IH]; intros H.
  - change (startsWith (String c "") sep || includes "" sep = false).
    rewrite H, orb_false_r. unfold startsWith.
    destruct (strip_prefix sep (String c "")) as [r|] eqn:E; [exfalso | reflexivity].
    apply strip_prefix_Some in E.
    destruct sep as [|y sep]; [contradiction|]. simpl in E. injection E as <- E.
    symmetry in E. apply append_eq_nil in E as [-> _]. now apply (Hc "").
  - pose proof (includes_false_startsWith _ _ H) as H1.
    apply includes_false_tail in H.
    change (startsWith (String x s ++ String c "") sep
            || includes (s ++ String c "") sep = false).
    rewrite (IH H), orb_false_r.
    unfold startsWith in *.
    destruct (strip_prefix sep (String x s ++ String c "")) as [r|] eqn:E; [exfalso | reflexivity].
    apply strip_prefix_of_append in E as [[r' Hr'] | [p2 [Hp [Hp2 E]]]].
    + rewrite Hr' in H1. discriminate.
    + apply strip_prefix_Some in E.
      destruct p2 as [|y p2]; [contradiction|]. simpl in E. injection E as <- E.
      symmetry in E. apply append_eq_nil in E as [-> _]. now apply (Hc (String x s)).
Qed.

Lemma filename_no_quote p : "filename=" <> p ++ String dquote "".
Proof.
  intros H. do 9 (peel_prefix H p). destruct p; discriminate.
Qed.

Lemma includes_quoted_false name :
  includes name "filename=" = false -> includes (quoted name) "filename=" = false.
Proof.
  intros H. unfold quoted.
  change (includes (String dquote (name ++ String dquote "")) "filename=")
    with (startsWith (String dquote (name ++ String dquote "")) "filename="
          || includes (name ++ String dquote "") "filename=").
  rewrite includes_snoc_false; auto using filename_no_quote. discriminate.
Qed.

(** A string that holds [sub] can be cut at the first occurrence. *)
Lemma includes_first s sub :
  sub <> "" -> includes s sub = true ->
  exists a b, s = a ++ sub ++ b /\ includes a sub = false.
Proof.
  intros Hsub.
  assert (Hnil : includes "" sub = false).
  { destruct sub; [contradiction | reflexivity]. }
  induction s as [|x s IH]; intros H.
  - rewrite Hnil in H. discriminate.
  - destruct (startsWith (String x s) sub) eqn:E.
    + apply startsWith_true in E as [r E]. exists "", r. split; assumption.
    + simpl in H. rewrite E in H. simpl in H.
      destruct (IH H) as [a [b [-> Ha]]].
      exists (String x a), b. split; [reflexivity|].
      simpl. rewrite Ha, orb_false_r.
      destruct (startsWith (String x a) sub) eqn:E'; [exfalso | reflexivity].
      apply startsWith_true in E' as [r E'].
      change (String x (a ++ sub ++ b)) with (String x a ++ sub ++ b) in E.
      rewrite E', append_assoc, startsWith_append in E. discriminate.
Qed.

(** What the script makes of a header that holds ["filename="]: the
    segment behind the first occurrence, up to the next one. *)
Lemma split_filename_second pre seg rest :
  includes pre "filename=" = false -> includes seg "filename=" = false ->
  (rest = "" \/ exists more, rest = "filename=" ++ more) ->
  nth_error (split (pre ++ "filename=" ++ seg ++ rest) "filename=") 1 = Some seg.
Proof.
  intros Hpre Hseg Hrest. rewrite (split_filename _ _ Hpre).
  destruct Hrest as [-> | [more ->]].
  - rewrite append_nil_r, (split_whole _ _ Hseg). reflexivity.
  - rewrite (split_filename _ _ Hseg). reflexivity.
Qed.

End SplitFacts.

(** ** The handlers *)

Module ScriptFacts.
Import JsString JsNumber JsValue Dom Script JsStringFacts.

Lemma events_of_trace {A : Type} (m : M A) (p : Page) (evs : list Event) :
  trace (run m p) = (trace p ++ evs)%list -> events_of m p = evs.
Proof.
  intros H. unfold events_of. rewrite H.
  rewrite skipn_app, skipn_all, Nat.sub_diag. reflexivity.
Qed.

(** Every handler is its prologue, and then the [try] statement around the
    request and what is made of the response. *)
Lemma onclick_shape w settled p :
  onclick w settled p =
  try_catch_finally
    (bind (fetch settled (endpoint_of w) (formData_of w p)) (response_of w))
    (report (tab_of w)) (set_disabled (button_of w) false) (run (prologue w) p).
Proof. destruct w; reflexivity. Qed.

Lemma check_ok_eq response p :
  check_ok response p =
  (p, if ok response then Ok tt else Throw (rejection response)).
Proof.
  unfold check_ok, rejection. destruct (ok response); [reflexivity|].
  cbv beta iota delta [negb bind await lift throw].
  destruct (json_body response) as [err|e]; [|reflexivity].
  destruct (get_prop err "error") as [v|e]; [|reflexivity].
  destruct (if truthy v then ToString_opt v
            else Ok ("Server responded with " ++ decimal (status response)));
    reflexivity.
Qed.

(** What the [try] statement of a handler comes to. *)
Lemma try_report_eq body tab btn p :
  try_catch_finally body (report tab) (set_disabled btn false) p =
  match body p with
  | (p', Ok _) => (run (set_disabled btn false) p', Ok tt)
  | (p', Throw e) =>
      (run (set_disabled btn false) (run (report tab e) p'), Ok tt)
  end.
Proof.
  unfold try_catch_finally. destruct (body p) as [p' [[]|e]]; reflexivity.
Qed.

Lemma bind_fetch {A : Type} settled url fd (k : Response -> M A) p :
  bind (fetch settled url fd) k p =
  match settled with
  | Ok r => k r (emit (Fetched (mkRequest url "POST" fd)) p)
  | Throw e => (emit (Fetched (mkRequest url "POST" fd)) p, Throw e)
  end.
Proof. destruct settled; reflexivity. Qed.

(** *** Runs that leave the triggers alone *)

Lemma quiet_ret {A : Type} (a : A) : quiet (ret a).
Proof. intros p. exists []. now rewrite app_nil_r. Qed.

Lemma quiet_throw {A : Type} e : quiet (@throw A e).
Proof. intros p. exists []. now rewrite app_nil_r. Qed.

Lemma quiet_lift {A : Type} (r : result A) : quiet (lift r).
Proof. intros p. exists []. now rewrite app_nil_r. Qed.

Lemma quiet_read {A : Type} (f : Page -> A) : quiet (read f).
Proof. intros p. exists []. now rewrite app_nil_r. Qed.

Lemma quiet_bind {A B : Type} (m : M A) (k : A -> M B) :
  quiet m -> (forall a, quiet (k a)) -> quiet (bind m k).
Proof.
  intros Hm Hk p. unfold bind. destruct (Hm p) as [e1 [H1 C1]].
  destruct (m p) as [p' [a|e]]; simpl in *.
  - destruct (Hk a p') as [e2 [H2 C2]]. exists (e1 ++ e2)%list.
    rewrite H2, H1, app_assoc, forallb_app, C1, C2. auto.
  - exists e1. auto.
Qed.

Lemma quiet_forEach {A : Type} (l : list A) (f : A -> M unit) :
  (forall a, quiet (f a)) -> quiet (forEach l f).
Proof.
  intros Hf. induction l as [|x l IH]; simpl.
  - apply quiet_ret.
  - apply quiet_bind; auto.
Qed.

Lemma quiet_emit (e : Event) (f : Page -> Page) :
  calm e = true -> (forall p, trace (f p) = trace p) ->
  quiet (fun p => (emit e (f p), Ok tt)).
Proof.
  intros He Hf p. exists [e]. simpl. rewrite Hf, He. auto.
Qed.

Lemma quiet_log tab m : quiet (log tab m).
Proof. intros p. exists [Logged tab m]. auto. Qed.

Lemma quiet_logHTML tab a : quiet (logHTML tab a).
Proof. intros p. exists [LoggedHTML tab a]. auto. Qed.

Lemma quiet_setStatus text : quiet (setStatus text).
Proof. intros p. exists [Status text]. auto. Qed.

Lemma quiet_updateChart a b : quiet (updateChart a b).
Proof. intros p. exists [ChartUpdated a b]. auto. Qed.

Lemma quiet_createObjectURL b : quiet (createObjectURL b).
Proof. intros p. exists [UrlCreated (nextObjectURL p)]. auto. Qed.

Lemma quiet_check_ok r : quiet (check_ok r).
Proof. intros p. rewrite check_ok_eq. exists []. now rewrite app_nil_r. Qed.

Lemma quiet_report tab e : quiet (report tab e).
Proof. apply quiet_bind; [apply quiet_log | intros _; apply quiet_setStatus]. Qed.

Ltac quiet_step :=
  lazymatch goal with
  | |- quiet (let _ := _ in _) => cbv zeta
  | |- quiet (bind _ _) => apply quiet_bind; [|intro]
  | |- quiet (ret _) => apply quiet_ret
  | |- quiet (throw _) => apply quiet_throw
  | |- quiet (lift _) => apply quiet_lift
  | |- quiet (await _) => apply quiet_lift
  | |- quiet (read _) => apply quiet_read
  | |- quiet (log _ _) => apply quiet_log
  | |- quiet (logHTML _ _) => apply quiet_logHTML
  | |- quiet (setStatus _) => apply quiet_setStatus
  | |- quiet (updateChart _ _) => apply quiet_updateChart
  | |- quiet (createObjectURL _) => apply quiet_createObjectURL
  | |- quiet (check_ok _) => apply quiet_check_ok
  | |- quiet (forEach _ _) => apply quiet_forEach; intro
  | |- quiet (if ?b then _ else _) => destruct b
  | |- quiet (match ?x with _ => _ end) => destruct x
  end.

Lemma quiet_decrypted_link data file : quiet (decrypted_link data file).
Proof. unfold decrypted_link. repeat quiet_step. Qed.

Lemma quiet_has_members members : quiet (has_members members).
Proof. unfold has_members. repeat quiet_step. Qed.

Lemma quiet_response w r : quiet (response_of w r).
Proof.
  destruct w; unfold response_of, encrypt_response, compare_response, decrypt_response;
    repeat quiet_step;
    first [apply quiet_has_members | apply quiet_decrypted_link].
Qed.

Lemma prologue_trace w p :
  trace (run (prologue w) p) =
  (trace p ++ SetDisabled (button_of w) true :: prologue_events w)%list.
Proof.
  destruct w; cbv [run prologue bind set_disabled log setStatus updateChart read
                   set_textContent emit with_disabled with_childNodes with_chart
                   trace fst button_of prologue_events];
    rewrite <- !app_assoc; reflexivity.
Qed.

Lemma prologue_calm w : forallb calm (prologue_events w) = true.
Proof. destruct w; reflexivity. Qed.

Lemma set_disabled_trace id b p :
  trace (run (set_disabled id b) p) = (trace p ++ [SetDisabled id b])%list.
Proof. reflexivity. Qed.

Lemma set_disabled_disabled id b p :
  disabled (run (set_disabled id b) p) id = b.
Proof. cbv [run set_disabled fst emit with_disabled disabled upd]. now rewrite String.eqb_refl. Qed.

(** The run of a handler, whatever the network and the server answer:
    the page it leaves is the page [p3] the [try] and [catch] blocks
    leave, with the trigger enabled again. *)
Lemma onclick_outcome w settled p :
  exists p3 mid,
    onclick w settled p = (run (set_disabled (button_of w) false) p3, Ok tt)
    /\ trace p3 =
       (trace p ++ SetDisabled (button_of w) true :: prologue_events w
        ++ Fetched (request_of w p) :: mid)%list
    /\ forallb calm mid = true.
Proof.
  rewrite onclick_shape, try_report_eq, bind_fetch.
  set (p1 := run (prologue w) p).
  set (p2 := emit (Fetched (mkRequest (endpoint_of w) "POST" (formData_of w p))) p1).
  assert (H2 : trace p2 =
               (trace p ++ SetDisabled (button_of w) true :: prologue_events w
                ++ [Fetched (request_of w p)])%list).
  { unfold p2, p1. simpl trace. rewrite prologue_trace, <- app_assoc. reflexivity. }
  assert (Hmid : forall mid,
            ((trace p ++ SetDisabled (button_of w) true :: prologue_events w
              ++ [Fetched (request_of w p)]) ++ mid =
             trace p ++ SetDisabled (button_of w) true :: prologue_events w
              ++ Fetched (request_of w p) :: mid)%list).
  { intros mid. rewrite <- app_assoc. simpl. rewrite <- app_assoc. reflexivity. }
  destruct settled as [r|e].
  - destruct (quiet_response w r p2) as [mid [Ht Cmid]].
    destruct (response_of w r p2) as [p3 [[]|e]]; simpl fst in Ht.
    + exists p3, mid. split; [reflexivity|]. split; [|assumption].
      rewrite Ht, H2. apply Hmid.
    + destruct (quiet_report (tab_of w) e p3) as [mid2 [Ht2 Cmid2]].
      exists (run (report (tab_of w) e) p3), (mid ++ mid2)%list.
      split; [reflexivity|]. split.
      * unfold run. rewrite Ht2, Ht, H2, <- app_assoc. apply Hmid.
      * now rewrite forallb_app, Cmid, Cmid2.
  - destruct (quiet_report (tab_of w) e p2) as [mid2 [Ht2 Cmid2]].
    exists (run (report (tab_of w) e) p2), mid2.
    split; [reflexivity|]. split; [|assumption].
    unfold run. rewrite Ht2, H2. apply Hmid.
Qed.

Lemma onclick_run w settled p :
  exists post,
    events_of (onclick w settled) p =
      (SetDisabled (button_of w) true :: prologue_events w
       ++ Fetched (request_of w p) :: post ++ [SetDisabled (button_of w) false])%list
    /\ forallb calm post = true
    /\ disabled (run (onclick w settled) p) (button_of w) = false
    /\ snd (onclick w settled p) = Ok tt.
Proof.
  destruct (onclick_outcome w settled p) as [p3 [mid [Hrun [Ht Cmid]]]].
  exists mid.
  assert (Hp : run (onclick w settled) p = run (set_disabled (button_of w) false) p3).
  { unfold run at 1. now rewrite Hrun. }
  split; [|split; [assumption | split]].
  - apply events_of_trace. rewrite Hp, set_disabled_trace, Ht.
    rewrite <- !app_assoc. simpl. rewrite <- !app_assoc. reflexivity.
  - rewrite Hp. apply set_disabled_disabled.
  - now rewrite Hrun.
Qed.


(** *** A request that fails *)

Lemma response_of_rejected w r p :
  ok r = false -> response_of w r p = (p, Throw (rejection r)).
Proof.
  intros H. destruct w; unfold response_of, encrypt_response, compare_response,
    decrypt_response; unfold bind at 1; now rewrite check_ok_eq, H.
Qed.

Lemma report_trace tab e p :
  trace (run (report tab e) p) =
  (trace p ++ [Logged tab ("❌ ERROR: " ++ message e); Status ("Error: " ++ message e)])%list.
Proof.
  cbv [run report bind log setStatus read set_textContent emit with_childNodes trace fst].
  now rewrite <- app_assoc.
Qed.

Lemma failure_trace w p e :
  trace (run (set_disabled (button_of w) false)
           (run (report (tab_of w) e)
              (emit (Fetched (request_of w p)) (run (prologue w) p)))) =
  (trace p ++ failure_events w p e)%list.
Proof.
  rewrite set_disabled_trace, report_trace.
  change (trace (emit (Fetched (request_of w p)) (run (prologue w) p)))
    with (trace (run (prologue w) p) ++ [Fetched (request_of w p)])%list.
  rewrite prologue_trace. unfold failure_events.
  repeat (rewrite <- app_assoc; simpl). reflexivity.
Qed.

Lemma onclick_rejected w r p :
  ok r = false ->
  events_of (onclick w (Ok r)) p = failure_events w p (rejection r).
Proof.
  intros H. apply events_of_trace. unfold run at 1.
  rewrite onclick_shape, try_report_eq, bind_fetch, (response_of_rejected _ _ _ H).
  apply failure_trace.
Qed.

Lemma onclick_unreachable w e p :
  events_of (onclick w (Throw e)) p = failure_events w p e.
Proof.
  apply events_of_trace. unfold run at 1.
  rewrite onclick_shape, try_report_eq, bind_fetch. apply failure_trace.
Qed.

Lemma lines_of_app tab a b :
  lines_of tab (a ++ b) = (lines_of tab a ++ lines_of tab b)%list.
Proof. apply flat_map_app. Qed.

Lemma failure_lines w p e :
  lines_of (tab_of w) (failure_events w p e) = [start_line w; "❌ ERROR: " ++ message e].
Proof. destruct w; reflexivity. Qed.

(** *** A decryption that succeeds *)

Lemma decrypted_link_member data sid file p :
  get_prop data "session_id" = Ok (Some (JStr sid)) ->
  decrypted_link data (JStr file) p = logHTML "dec" (member_link sid file) p.
Proof.
  intros H. unfold decrypted_link. unfold bind at 1, lift at 1. rewrite H. reflexivity.
Qed.

Lemma forEach_members data sid names p :
  get_prop data "session_id" = Ok (Some (JStr sid)) ->
  exists p',
    forEach (map JStr names) (decrypted_link data) p = (p', Ok tt)
    /\ trace p' = (trace p ++ map (fun f => LoggedHTML "dec" (member_link sid f)) names)%list
    /\ childNodes p' "log-dec" =
       (childNodes p "log-dec" ++ map (fun f => AnchorNode (member_link sid f)) names)%list
    /\ disabled p' = disabled p.
Proof.
  intros H. revert p. induction names as [|f names IH]; intros p.
  - exists p. simpl. rewrite !app_nil_r. auto.
  - simpl forEach. unfold bind at 1. rewrite (decrypted_link_member _ _ _ _ H).
    set (p1 := fst (logHTML "dec" (member_link sid f) p)).
    change (logHTML "dec" (member_link sid f) p) with (p1, @Ok unit tt).
    destruct (IH p1) as [p' [Hrun [Ht [Hc Hd]]]]. exists p'.
    rewrite Hrun, Ht, Hc, Hd. unfold p1. simpl. unfold upd. simpl.
    rewrite <- !app_assoc. auto.
Qed.

Lemma links_of_app tab a b :
  links_of tab (a ++ b) = (links_of tab a ++ links_of tab b)%list.
Proof. apply flat_map_app. Qed.

Lemma links_of_members sid names :
  links_of "dec" (map (fun f => LoggedHTML "dec" (member_link sid f)) names) =
  map (member_link sid) names.
Proof. induction names as [|f names IH]; simpl; [reflexivity | now rewrite IH]. Qed.

(** What the [try] block of the decrypt handler does with a success that
    lists members. *)
Lemma decrypt_response_members r data sid names p :
  ok r = true ->
  json_body r = Ok data ->
  get_prop data "files" = Ok (Some (JArr (map JStr names))) ->
  get_prop data "session_id" = Ok (Some (JStr sid)) ->
  names <> [] ->
  exists p',
    decrypt_response r p = (p', Ok tt)
    /\ trace p' =
       (trace p
        ++ Logged "dec" ("✅ Success! Server decrypted "
                         ++ decimal (Z.of_nat (List.length names)) ++ " file(s):")
        :: map (fun f => LoggedHTML "dec" (member_link sid f)) names
        ++ [Status "Decryption complete."])%list
    /\ (exists t, childNodes p' "log-dec" =
                  TextNode t :: map (fun f => AnchorNode (member_link sid f)) names).
Proof.
  intros Hok Hjson Hfiles Hsid Hne.
  unfold decrypt_response.
  unfold bind at 1. rewrite check_ok_eq, Hok.
  unfold bind at 1, await, lift at 1. rewrite Hjson.
  unfold bind at 1, lift at 1. rewrite Hfiles.
  assert (Hm : forall q, has_members (Some (JArr (map JStr names))) q = (q, Ok true)).
  { intros q. destruct names; [contradiction | reflexivity]. }
  unfold bind at 1. rewrite Hm.
  unfold bind at 1. unfold bind at 1, lift at 1. simpl get_length.
  unfold bind at 1, lift at 1. simpl length_text. rewrite length_map.
  unfold bind at 1.
  set (line := "✅ Success! Server decrypted "
               ++ decimal (Z.of_nat (List.length names)) ++ " file(s):").
  set (p1 := fst (log "dec" line p)).
  change (log "dec" line p) with (p1, @Ok unit tt).
  destruct (forEach_members data sid names p1 Hsid) as [p2 [Hrun [Ht [Hc _]]]].
  rewrite Hrun.
  exists (fst (setStatus "Decryption complete." p2)). split; [reflexivity|]. split.
  - cbv [setStatus bind set_textContent emit with_childNodes trace fst].
    fold (trace p2). rewrite Ht. unfold p1.
    cbv [log bind read set_textContent emit with_childNodes trace fst].
    fold (trace p). rewrite <- !app_assoc. reflexivity.
  - exists (text_of (childNodes p "log-dec") ++ line ++ LF).
    cbv [setStatus bind set_textContent emit with_childNodes childNodes fst upd].
    simpl String.eqb. fold (childNodes p2). rewrite Hc. unfold p1.
    cbv [log bind read set_textContent emit with_childNodes childNodes fst upd].
    simpl String.eqb. cbv iota.
    destruct (text_of _ ++ line ++ LF) eqn:E; [|reflexivity].
    exfalso. apply append_eq_nil in E as [_ E]. apply append_eq_nil in E as [_ E].
    discriminate.
Qed.

(** *** A request that succeeds *)

Lemma onclick_handled w r p p3 mid :
  response_of w r (emit (Fetched (request_of w p)) (run (prologue w) p)) = (p3, Ok tt) ->
  trace p3 = (trace (run (prologue w) p) ++ Fetched (request_of w p) :: mid)%list ->
  run (onclick w (Ok r)) p = run (set_disabled (button_of w) false) p3
  /\ events_of (onclick w (Ok r)) p =
     (SetDisabled (button_of w) true :: prologue_events w
      ++ Fetched (request_of w p) :: mid ++ [SetDisabled (button_of w) false])%list.
Proof.
  intros Hrun Ht.
  assert (Hp : run (onclick w (Ok r)) p = run (set_disabled (button_of w) false) p3).
  { unfold run at 1. rewrite onclick_shape, try_report_eq, bind_fetch.
    unfold request_of in Hrun. now rewrite Hrun. }
  split; [assumption|].
  apply events_of_trace. rewrite Hp, set_disabled_trace, Ht, prologue_trace.
  repeat (rewrite <- app_assoc; simpl). reflexivity.
Qed.

Lemma prologue_keeps w p :
  objectURLs (run (prologue w) p) = objectURLs p
  /\ nextObjectURL (run (prologue w) p) = nextObjectURL p
  /\ timers (run (prologue w) p) = timers p
  /\ clock (run (prologue w) p) = clock p.
Proof. destruct w; repeat split; reflexivity. Qed.

(** The steps that only log, show a status or draw the chart: each
    returns, adds one event, and leaves object URLs and timers alone. *)
Lemma log_returns tab m p : log tab m p = (run (log tab m) p, Ok tt).
Proof. reflexivity. Qed.

Lemma logHTML_returns tab a p : logHTML tab a p = (run (logHTML tab a) p, Ok tt).
Proof. reflexivity. Qed.

Lemma setStatus_returns text p : setStatus text p = (run (setStatus text) p, Ok tt).
Proof. reflexivity. Qed.

Lemma updateChart_returns x y p : updateChart x y p = (run (updateChart x y) p, Ok tt).
Proof. reflexivity. Qed.

Lemma createObjectURL_returns b p :
  createObjectURL b p = (run (createObjectURL b) p, Ok (nextObjectURL p)).
Proof. reflexivity. Qed.

Lemma log_trace tab m p :
  trace (run (log tab m) p) = (trace p ++ [Logged tab m])%list.
Proof. reflexivity. Qed.

Lemma logHTML_trace tab a p :
  trace (run (logHTML tab a) p) = (trace p ++ [LoggedHTML tab a])%list.
Proof. reflexivity. Qed.

Lemma setStatus_trace text p :
  trace (run (setStatus text) p) = (trace p ++ [Status text])%list.
Proof. reflexivity. Qed.

Lemma updateChart_trace x y p :
  trace (run (updateChart x y) p) = (trace p ++ [ChartUpdated x y])%list.
Proof. reflexivity. Qed.

Lemma createObjectURL_trace b p :
  trace (run (createObjectURL b) p) = (trace p ++ [UrlCreated (nextObjectURL p)])%list.
Proof. reflexivity. Qed.

Lemma logHTML_resources tab a p : resources (run (logHTML tab a) p) = resources p.
Proof. reflexivity. Qed.

Lemma setStatus_resources text p : resources (run (setStatus text) p) = resources p.
Proof. reflexivity. Qed.

Lemma createObjectURL_resources b p :
  resources (run (createObjectURL b) p) =
  ((nextObjectURL p, b) :: objectURLs p, S (nextObjectURL p), timers p, clock p).
Proof. reflexivity. Qed.

Ltac step_page :=
  unfold bind at 1;
  first [ rewrite log_returns | rewrite logHTML_returns | rewrite setStatus_returns
        | rewrite updateChart_returns | rewrite createObjectURL_returns ].

Lemma package_response w r b p :
  packaging w -> ok r = true -> blob_body r = Ok b ->
  exists p',
    response_of w r p = (p', Ok tt)
    /\ trace p' = (trace p ++ success_events w r (nextObjectURL p))%list
    /\ resources p' =
       ((nextObjectURL p, b) :: objectURLs p, S (nextObjectURL p), timers p, clock p).
Proof.
  intros [-> | ->] Hok Hblob.
  - unfold response_of, encrypt_response. rewrite Hblob.
    unfold bind at 1. rewrite check_ok_eq, Hok.
    step_page. unfold bind at 1, await, lift. do 3 step_page.
    rewrite setStatus_returns. eexists. split; [reflexivity|].
    set (q := run (log "enc" _) (run (log "enc" _) p)).
    assert (E1 : objectURLs q = objectURLs p) by reflexivity.
    assert (E2 : nextObjectURL q = nextObjectURL p) by reflexivity.
    assert (E3 : timers q = timers p) by reflexivity.
    assert (E4 : clock q = clock p) by reflexivity.
    split.
    + rewrite setStatus_trace, logHTML_trace, createObjectURL_trace, E2. unfold q.
      rewrite !log_trace. rewrite <- !app_assoc. reflexivity.
    + rewrite setStatus_resources, logHTML_resources, createObjectURL_resources.
      now rewrite E1, E2, E3, E4.
  - unfold response_of, compare_response. rewrite Hblob.
    unfold bind at 1. rewrite check_ok_eq, Hok.
    do 6 step_page. unfold bind at 1, await, lift. do 3 step_page.
    rewrite setStatus_returns. eexists. split; [reflexivity|].
    set (q := run (log "cmp" _) (run (log "cmp" _) (run (updateChart _ _) _))).
    assert (E1 : objectURLs q = objectURLs p) by reflexivity.
    assert (E2 : nextObjectURL q = nextObjectURL p) by reflexivity.
    assert (E3 : timers q = timers p) by reflexivity.
    assert (E4 : clock q = clock p) by reflexivity.
    split.
    + rewrite setStatus_trace, logHTML_trace, createObjectURL_trace, E2. unfold q.
      rewrite !log_trace, updateChart_trace, !log_trace.
      rewrite <- !app_assoc. reflexivity.
    + rewrite setStatus_resources, logHTML_resources, createObjectURL_resources.
      now rewrite E1, E2, E3, E4.
Qed.

(** The run of the encrypt or of the compare handler on a success. *)
Lemma package_run w r b p :
  packaging w -> ok r = true -> blob_body r = Ok b ->
  events_of (onclick w (Ok r)) p =
    (SetDisabled (button_of w) true :: prologue_events w
     ++ Fetched (request_of w p) :: success_events w r (nextObjectURL p)
     ++ [SetDisabled (button_of w) false])%list
  /\ objectURLs (run (onclick w (Ok r)) p) = (nextObjectURL p, b) :: objectURLs p
  /\ timers (run (onclick w (Ok r)) p) = timers p.
Proof.
  intros Hw Hok Hblob.
  destruct (prologue_keeps w p) as [Hu [Hn [Ht Hc]]].
  set (p2 := emit (Fetched (request_of w p)) (run (prologue w) p)).
  destruct (package_response w r b p2 Hw Hok Hblob) as [p3 [Hrun [Htr Hres]]].
  assert (Hn2 : nextObjectURL p2 = nextObjectURL p) by exact Hn.
  assert (Hu2 : objectURLs p2 = objectURLs p) by exact Hu.
  assert (Ht2 : timers p2 = timers p) by exact Ht.
  assert (Htr2 : trace p2 = (trace (run (prologue w) p) ++ [Fetched (request_of w p)])%list)
    by reflexivity.
  rewrite Hn2, Hu2, Ht2 in Hres. rewrite Hn2, Htr2, <- app_assoc in Htr.
  injection Hres as Hu3 _ Ht3 _.
  destruct (onclick_handled w r p p3 _ Hrun Htr) as [Hp Hev].
  rewrite Hp. repeat split; assumption.
Qed.

End ScriptFacts.

(** ** Object URLs and timers *)

Module TimerFacts.
Import JsString JsNumber JsValue Dom Script.

Lemma existsb_filter {A : Type} (f g : A -> bool) (l : list A) :
  existsb f (filter g l) = existsb (fun x => f x && g x) l.
Proof.
  induction l as [|x l IH]; simpl; [reflexivity|].
  destruct (g x); simpl; rewrite IH.
  - now rewrite andb_true_r.
  - now rewrite andb_false_r.
Qed.

Lemma live_filter (urls : list (nat * Blob)) id u :
  existsb (fun x => Nat.eqb (fst x) u)
    (filter (fun x => negb (Nat.eqb (fst x) id)) urls) =
  existsb (fun x => Nat.eqb (fst x) u) urls && negb (Nat.eqb id u).
Proof.
  induction urls as [|[k bl] l IH]; simpl; [reflexivity|].
  destruct (Nat.eqb k id) eqn:E1; simpl; rewrite IH.
  - apply Nat.eqb_eq in E1. subst k.
    destruct (Nat.eqb id u); simpl; [now rewrite !andb_false_r | reflexivity].
  - destruct (Nat.eqb k u) eqn:E2; simpl; [|reflexivity].
    apply Nat.eqb_eq in E2. subst k. now rewrite Nat.eqb_sym, E1.
Qed.

Lemma run_task_spec t p u :
  snd (run_task t p) = Ok tt
  /\ clock (run (run_task t) p) = clock p
  /\ timers (run (run_task t) p) = timers p
  /\ live (run (run_task t) p) u = live p u && negb (Nat.eqb (target t) u).
Proof.
  destruct t as [id]. repeat split; try reflexivity.
  apply (live_filter (objectURLs p)).
Qed.

Lemma run_tasks_spec (due : list (Z * Task)) p u :
  snd (forEach due (fun t => run_task (snd t)) p) = Ok tt
  /\ clock (run (forEach due (fun t => run_task (snd t))) p) = clock p
  /\ timers (run (forEach due (fun t => run_task (snd t))) p) = timers p
  /\ live (run (forEach due (fun t => run_task (snd t))) p) u = live p u && spares u due.
Proof.
  revert p. induction due as [|t due IH]; intros p.
  - simpl. rewrite andb_true_r. auto.
  - destruct (run_task_spec (snd t) p u) as [H1 [H2 [H3 H4]]].
    unfold run in *. simpl forEach. unfold bind.
    destruct (run_task (snd t) p) as [p1 r1]. simpl in H1, H2, H3, H4. subst r1.
    destruct (IH p1) as [K1 [K2 [K3 K4]]].
    rewrite K2, K3, K4, H2, H3, H4. simpl. rewrite andb_assoc. auto.
Qed.

Lemma tick_spec ms p u :
  snd (tick ms p) = Ok tt
  /\ clock (run (tick ms) p) = (clock p + ms)%Z
  /\ timers (run (tick ms) p) =
     filter (fun t => negb (fst t <=? clock p + ms)%Z) (timers p)
  /\ live (run (tick ms) p) u =
     live p u && spares u (filter (fun t => (fst t <=? clock p + ms)%Z) (timers p)).
Proof.
  set (due := filter (fun t => (fst t <=? clock p + ms)%Z) (timers p)).
  set (later := filter (fun t => negb (fst t <=? clock p + ms)%Z) (timers p)).
  assert (E : tick ms p =
              forEach due (fun t => run_task (snd t)) (with_timers (clock p + ms) later p))
    by reflexivity.
  destruct (run_tasks_spec due (with_timers (clock p + ms) later p) u) as [H1 [H2 [H3 H4]]].
  unfold run in *. rewrite E, H1, H2, H3, H4. auto.
Qed.

Lemma spares_filter u f ts : spares u ts = true -> spares u (filter f ts) = true.
Proof.
  unfold spares. rewrite !forallb_forall. intros H x Hx.
  apply filter_In in Hx as [Hx _]. auto.
Qed.

Lemma step_kept u s p : kept u p -> kept u (run (step s) p) /\ snd (step s p) = Ok tt.
Proof.
  intros [Hl Hs]. destruct s as [ms|a].
  - destruct (tick_spec ms p u) as [H1 [_ [H3 H4]]]. simpl step.
    split; [split|assumption].
    + rewrite H4, Hl. now apply spares_filter.
    + rewrite H3. now apply spares_filter.
  - split; [split|]; auto.
Qed.

Lemma steps_kept u l p : kept u p -> kept u (run (steps l) p).
Proof.
  revert p. induction l as [|s l IH]; intros p H; [assumption|].
  destruct (step_kept u s p H) as [H1 H2].
  unfold steps, run in *. simpl forEach. unfold bind.
  destruct (step s p) as [p1 r1]. simpl in H2. subst r1. apply IH. assumption.
Qed.

Lemma fresh_spares p : fresh p = true -> spares (nextObjectURL p) (timers p) = true.
Proof.
  unfold fresh, spares. rewrite !forallb_forall. intros H t Ht.
  specialize (H t Ht). apply Nat.ltb_lt in H.
  apply negb_true_iff, Nat.eqb_neq. lia.
Qed.

Lemma step_awaited u due s p :
  (0 <= elapsed s)%Z -> awaited u due p ->
  awaited u due (run (step s) p)
  /\ clock (run (step s) p) = (clock p + elapsed s)%Z
  /\ snd (step s p) = Ok tt.
Proof.
  intros Hs Hp. destruct s as [ms|a]; simpl in Hs.
  - destruct (tick_spec ms p u) as [H1 [H2 [H3 H4]]]. simpl step. simpl elapsed.
    split; [|auto].
    destruct Hp as [[Hin Hc] | Hl].
    + destruct (Z.leb due (clock p + ms)) eqn:E.
      * right. rewrite H4.
        assert (Hsp : spares u (filter (fun t => (fst t <=? clock p + ms)%Z) (timers p)) = false).
        { apply not_true_is_false. unfold spares. rewrite forallb_forall. intros H.
          specialize (H (due, RevokeAndRemove u)).
          simpl in H. rewrite Nat.eqb_refl in H.
          assert (false = true); [|discriminate].
          apply H. apply filter_In. split; [assumption | exact E]. }
        rewrite Hsp. apply andb_false_r.
      * left. rewrite H2, H3. apply Z.leb_gt in E. split; [|assumption].
        apply filter_In. split; [assumption|]. simpl.
        apply negb_true_iff, Z.leb_gt. assumption.
    + right. rewrite H4, Hl. reflexivity.
  - simpl elapsed. rewrite Z.add_0_r. split; [|split]; auto.
Qed.

Lemma steps_awaited u due l p :
  Forall (fun s => (0 <= elapsed s)%Z) l -> awaited u due p ->
  awaited u due (run (steps l) p)
  /\ clock (run (steps l) p) = (clock p + total_elapsed l)%Z.
Proof.
  intros Hl. revert p. induction Hl as [|s l Hs Hl IH]; intros p Hp.
  - simpl. rewrite Z.add_0_r. auto.
  - destruct (step_awaited u due s p Hs Hp) as [H1 [H2 H3]].
    unfold steps, run in *. simpl forEach. unfold bind.
    destruct (step s p) as [p1 r1]. simpl in H1, H2, H3. subst r1.
    destruct (IH p1 H1) as [K1 K2]. split; [assumption|].
    rewrite K2, H2. simpl. lia.
Qed.

Lemma downloadBlob_spec b name p :
  let q := run (downloadBlob b name) p in
  timers q = (timers p ++ [((clock p + 800)%Z, RevokeAndRemove (nextObjectURL p))])%list
  /\ clock q = clock p
  /\ live q (nextObjectURL p) = true.
Proof.
  repeat split; try reflexivity.
  cbv [run downloadBlob bind createObjectURL appendChild click setTimeout emit
       with_objectURLs with_childNodes with_timers live objectURLs nextObjectURL fst].
  simpl. now rewrite Nat.eqb_refl.
Qed.

End TimerFacts.

(** ** Formatting *)

Module FormatFacts.
Import JsString JsNumber JsValue Dom Script.

Lemma fixed_integer_whole n : fixed_integer n 1 0 = n.
Proof.
  unfold fixed_integer. simpl Z.of_nat. change (10 ^ 0)%Z with 1%Z.
  Z.to_euclidean_division_equations. lia.
Qed.

Lemma fmtBytes_rendered n :
  fmtBytes n = quantity_text (fst (rendered n)) (snd (rendered n)).
Proof.
  unfold fmtBytes, rendered, quantity_text, fixed_digits.
  destruct (n <? 1)%Z; [reflexivity|].
  destruct (n <? 1024)%Z.
  { cbn [fst snd]. rewrite fixed_integer_whole.
    replace (10 * n / 10)%Z with n by (Z.to_euclidean_division_equations; lia). reflexivity. }
  destruct (n <? 1024 ^ 2)%Z; [reflexivity|].
  destruct (n <? 1024 ^ 3)%Z; reflexivity.
Qed.

(** On doubles, [fmtBytes] shows the same: some counts, up to the
    largest a double holds exactly. *)
Lemma fmtBytes_double_agrees :
  map fmtBytes_double
    [ 0; 1; 512; 1023; 1024; 1280; 1536; 1048575; 1048576; 1610612736;
      1073741823; 1073741824; 5492165909; 9007199254740991 ]%float
  = map fmtBytes
    [ 0; 1; 512; 1023; 1024; 1280; 1536; 1048575; 1048576; 1610612736;
      1073741823; 1073741824; 5492165909; 9007199254740991 ]%Z.
Proof. vm_compute. reflexivity. Qed.

Lemma rendered_bytes_mono m n : (m <= n)%Z -> (rendered_bytes m <= rendered_bytes n)%Z.
Proof.
  intros H. unfold rendered_bytes, rendered.
  rewrite !fixed_integer_whole. unfold fixed_integer.
  change (10 ^ Z.of_nat 1)%Z with 10%Z.
  change (1024 ^ 2)%Z with 1048576%Z. change (1024 ^ 3)%Z with 1073741824%Z.
  change (Z.pos (1024 ^ 2)) with 1048576%Z. change (Z.pos (1024 ^ 3)) with 1073741824%Z.
  destruct (Z.ltb_spec m 1); destruct (Z.ltb_spec n 1);
  destruct (Z.ltb_spec m 1024); destruct (Z.ltb_spec n 1024);
  destruct (Z.ltb_spec m 1048576); destruct (Z.ltb_spec n 1048576);
  destruct (Z.ltb_spec m 1073741824); destruct (Z.ltb_spec n 1073741824);
  cbn [fst snd unit_size]; Z.to_euclidean_division_equations; lia.
Qed.

End FormatFacts.

(** ** The request and its password *)

Module RequestFacts.
Import JsString JsNumber JsValue Dom Script JsStringFacts TrimFacts.



End RequestFacts.

(** * The claims of the specification *)

Import JsString JsNumber JsValue Dom Script.
Import JsStringFacts TrimFacts SplitFacts ScriptFacts TimerFacts FormatFacts RequestFacts.

(** C1, amended. On a response that is not a success, each of the three
    handlers logs one error line. When the body parses as JSON and has a
    string under ["error"], the message of that line contains the string;
    when it parses and what is under ["error"] is absent or falsy, the
    message contains the decimal status code; when the body does not
    parse, the message is the one of the parser's exception (and says
    nothing of the status). *)
Theorem C1_error_report (w : Workflow) (p : Page) (r : Response) :
  ok r = false ->
  (forall err s,
      json_body r = Ok err -> get_prop err "error" = Ok (Some (JStr s)) ->
      exists m, logged w (Ok r) p = [start_line w; "❌ ERROR: " ++ m]
                /\ includes m s = true)
  /\ (forall err v,
      json_body r = Ok err -> get_prop err "error" = Ok v -> truthy v = false ->
      exists m, logged w (Ok r) p = [start_line w; "❌ ERROR: " ++ m]
                /\ includes m (decimal (status r)) = true)
  /\ (forall e,
      json_body r = Throw e ->
      logged w (Ok r) p = [start_line w; "❌ ERROR: " ++ message e]).
Proof.
  intros Hok. unfold logged. rewrite (onclick_rejected _ _ _ Hok), failure_lines.
  unfold rejection. repeat split.
  - intros err s Hbody Herr. rewrite Hbody, Herr. simpl truthy.
    destruct (String.eqb_spec s "") as [-> | Hs]; simpl.
    + eexists. split; [reflexivity | apply includes_nil].
    + exists s. split; [reflexivity | apply includes_self].
  - intros err v Hbody Herr Hv. rewrite Hbody, Herr, Hv.
    eexists. split; [reflexivity | apply includes_suffix].
  - intros e Hbody. now rewrite Hbody.
Qed.

Lemma C1_error_report_witness :
  ok refused = false
  /\ exists m, logged Encrypt (Ok refused) blank = [start_line Encrypt; "❌ ERROR: " ++ m]
               /\ includes m "bad password" = true.
Proof.
  split; [reflexivity|].
  destruct (C1_error_report Encrypt blank refused eq_refl) as [H _].
  exact (H _ "bad password" eq_refl eq_refl).
Defined.

(** C1 as stated fails on a body that does not parse: status 500 with an
    HTML body is reported through the parser's message, and no logged line
    holds the status code. *)
Lemma C1_unparsable_body_counterexample :
  ok broken = false
  /\ json_body broken = Throw (mkExn "SyntaxError" "Unexpected token < in JSON at position 0")
  /\ logged Decrypt (Ok broken) blank =
     [ start_line Decrypt; "❌ ERROR: Unexpected token < in JSON at position 0" ]
  /\ forallb (fun m => negb (includes m (decimal (status broken))))
       (logged Decrypt (Ok broken) blank) = true.
Proof. vm_compute. repeat split. Qed.

(** C2, amended. The helper [downloadBlob] releases the object URL it
    creates once 800 ms have passed, whatever the user clicks meanwhile.
    The link that the encrypt or the compare handler puts in the log keeps
    its object URL: the handler sets no timer, and the URL stays alive
    however much time passes and whatever is clicked. *)
Theorem C2_object_url_release (p : Page) (l : list Step) :
  (forall b name,
      Forall (fun s => (0 <= elapsed s)%Z) l -> (800 <= total_elapsed l)%Z ->
      live (run (steps l) (run (downloadBlob b name) p)) (nextObjectURL p) = false)
  /\ (forall w r b,
      packaging w -> ok r = true -> blob_body r = Ok b -> fresh p = true ->
      In (LoggedHTML (tab_of w) (package_link w r (nextObjectURL p)))
         (events_of (onclick w (Ok r)) p)
      /\ timers (run (onclick w (Ok r)) p) = timers p
      /\ live (run (steps l) (run (onclick w (Ok r)) p)) (nextObjectURL p) = true).
Proof.
  split.
  - intros b name Hl Ht.
    destruct (downloadBlob_spec b name p) as [Htimers [Hclock Hlive]].
    set (q := run (downloadBlob b name) p) in *.
    assert (Hq : awaited (nextObjectURL p) (clock p + 800) q).
    { left. split; [|lia]. rewrite Htimers. apply in_or_app. right. now left. }
    destruct (steps_awaited _ _ l q Hl Hq) as [[[_ Hc] | Hdone] Hnow]; [lia | assumption].
  - intros w r b Hw Hok Hblob Hfresh.
    destruct (package_run w r b p Hw Hok Hblob) as [Hev [Hurls Htimers]].
    split; [|split; [assumption|]].
    + rewrite Hev. destruct Hw as [-> | ->]; simpl; intuition.
    + apply steps_kept. split.
      * unfold live. rewrite Hurls. simpl. now rewrite Nat.eqb_refl.
      * rewrite Htimers. now apply fresh_spares.
Qed.

Lemma C2_object_url_release_witness :
  (Forall (fun s => (0 <= elapsed s)%Z) [Tick 500; Tick 300]
   /\ (800 <= total_elapsed [Tick 500; Tick 300])%Z
   /\ live (run (steps [Tick 500; Tick 300]) (run (downloadBlob (mkBlob "PK") "a.zip") blank))
        (nextObjectURL blank) = false)
  /\ (packaging Encrypt /\ ok packaged = true /\ blob_body packaged = Ok (mkBlob "PK")
      /\ fresh blank = true
      /\ live (run (steps [Tick 500; Tick 300]) (run (onclick Encrypt (Ok packaged)) blank))
           (nextObjectURL blank) = true).
Proof.
  destruct (C2_object_url_release blank [Tick 500; Tick 300]) as [H1 H2].
  assert (Hl : Forall (fun s => (0 <= elapsed s)%Z) [Tick 500; Tick 300]).
  { repeat constructor; simpl; lia. }
  assert (Ht : (800 <= total_elapsed [Tick 500; Tick 300])%Z) by (simpl; lia).
  split.
  - split; [assumption | split; [assumption | exact (H1 _ _ Hl Ht)]].
  - split; [now left | split; [reflexivity | split; [reflexivity | split; [reflexivity|]]]].
    exact (proj2 (proj2 (H2 Encrypt packaged (mkBlob "PK") (or_introl eq_refl)
                           eq_refl eq_refl eq_refl))).
Defined.

(** C2 as stated fails: after an encryption the object URL of the link is
    alive, no timer is pending, and the URL is still alive after 800 ms,
    after a day, and after any time at all. *)
Lemma C2_link_url_never_released_counterexample :
  timers (run (onclick Encrypt (Ok packaged)) blank) = []
  /\ live (run (onclick Encrypt (Ok packaged)) blank) 0 = true
  /\ live (run (tick 800) (run (onclick Encrypt (Ok packaged)) blank)) 0 = true
  /\ live (run (tick 86400000) (run (onclick Encrypt (Ok packaged)) blank)) 0 = true
  /\ (forall ms, live (run (tick ms) (run (onclick Encrypt (Ok packaged)) blank)) 0 = true).
Proof.
  split; [reflexivity|]. split; [reflexivity|]. split; [reflexivity|].
  split; [reflexivity|]. intros ms. reflexivity.
Qed.

(** C3, amended. After [enableDecrypt] the decrypt trigger is enabled if
    and only if at least one package file is chosen and the password,
    trimmed, is not empty; where the input holds at most one file, that is
    exactly one file. *)
Theorem C3_decrypt_enabled (p : Page) :
  (disabled (run enableDecrypt p) "btnDecrypt" = false <->
   files p "pkg" <> [] /\ trim (value p "pwDec") <> "")
  /\ (List.length (files p "pkg") <= 1 ->
      (disabled (run enableDecrypt p) "btnDecrypt" = false <->
       List.length (files p "pkg") = 1 /\ trim (value p "pwDec") <> "")).
Proof.
  assert (H : disabled (run enableDecrypt p) "btnDecrypt" =
              negb (nonzero (List.length (files p "pkg"))
                    && nonempty (trim (value p "pwDec")))) by reflexivity.
  rewrite H. unfold nonzero, nonempty.
  destruct (files p "pkg") as [|f fs]; simpl;
    destruct (String.eqb_spec (trim (value p "pwDec")) "") as [E | E]; simpl.
  - split; [|intros _]; split; intros K; try discriminate; destruct K; congruence.
  - split; [|intros _]; split; intros K; try discriminate; destruct K; congruence.
  - split; [|intros _]; split; intros K; try discriminate; destruct K; congruence.
  - split; [|intros Hl]; split; intros K; try reflexivity.
    + split; [discriminate | assumption].
    + split; [lia | assumption].
Qed.

(** C3 as stated fails on an input that holds two files: the trigger is
    enabled, and the files chosen are not exactly one. *)
Lemma C3_two_files_counterexample :
  disabled (run enableDecrypt two_packages) "btnDecrypt" = false
  /\ trim (value two_packages "pwDec") = "secret"
  /\ List.length (files two_packages "pkg") = 2.
Proof. vm_compute. repeat split. Qed.

(** C4, amended. The elapsed times the encrypt and the compare handler
    read are [header_time] of X-Time-Elapsed, X-Time-FIFO and X-Time-AI;
    [header_time] is 0 when the header is absent or empty, and NaN when
    its value does not start, white space apart, with a decimal literal. *)
Theorem C4_header_time (r : Response) (name : string) :
  (headers_get r name = None -> header_time r name = zero)
  /\ (headers_get r name = Some "" -> header_time r name = zero)
  /\ (forall v, headers_get r name = Some v -> v <> "" ->
                parse_decimal (trimStart v) = None -> header_time r name = nan)
  /\ (forall b p, ok r = true -> blob_body r = Ok b ->
        In ("✅ Success! Run complete in "
            ++ toFixed (header_time r "X-Time-Elapsed") 4 ++ "s.")
           (logged Encrypt (Ok r) p)
        /\ In (ChartUpdated (header_time r "X-Time-FIFO") (header_time r "X-Time-AI"))
              (events_of (onclick Compare (Ok r)) p)).
Proof.
  unfold header_time. split; [|split; [|split]].
  - intros H. rewrite H. vm_compute. reflexivity.
  - intros H. rewrite H. vm_compute. reflexivity.
  - intros v H Hv Hp. rewrite H. unfold or_default.
    destruct (String.eqb_spec v "") as [E | _]; [contradiction|].
    unfold parseFloat. now rewrite Hp.
  - intros b p Hok Hblob. unfold logged. split.
    + destruct (package_run Encrypt r b p (or_introl eq_refl) Hok Hblob) as [Hev _].
      rewrite Hev. simpl. intuition.
    + destruct (package_run Compare r b p (or_intror eq_refl) Hok Hblob) as [Hev _].
      rewrite Hev. simpl. intuition.
Qed.

Lemma C4_header_time_witness :
  (headers_get packaged "X-Time-Missing" = None /\ header_time packaged "X-Time-Missing" = zero)
  /\ (headers_get mistimed "X-Time-Elapsed" = Some "abc" /\ "abc" <> ""
      /\ parse_decimal (trimStart "abc") = None
      /\ header_time mistimed "X-Time-Elapsed" = nan).
Proof.
  split.
  - split; [reflexivity|].
    exact (proj1 (C4_header_time packaged "X-Time-Missing") eq_refl).
  - split; [reflexivity | split; [discriminate | split; [reflexivity|]]].
    refine (proj1 (proj2 (proj2 (C4_header_time mistimed "X-Time-Elapsed"))) "abc" eq_refl _ eq_refl).
    discriminate.
Defined.

(** C4 as stated fails on a header that is there and is no number: the
    time read is NaN, not 0, and the log shows it. *)
Lemma C4_unparsable_header_counterexample :
  headers_get mistimed "X-Time-Elapsed" = Some "abc"
  /\ header_time mistimed "X-Time-Elapsed" = nan
  /\ PrimFloat.eqb (header_time mistimed "X-Time-Elapsed") zero = false
  /\ logged Encrypt (Ok mistimed) blank =
     [ start_line Encrypt; "✅ Success! Run complete in NaNs.";
       "Package created: encrypted.zip" ].
Proof. vm_compute. repeat split. Qed.

(** C5, amended. On a decrypt success that lists member file names, the
    handler puts one link per member in the log, in order: its target
    holds the session identifier and the URL-encoded member name, the
    name it downloads under (its [download] attribute) is the last path
    segment of the member name, and the text it shows is the word
    Download and the whole member name, between double quotes. *)
Theorem C5_decrypted_links (r : Response) (data : Json) (sid : string)
    (names : list string) (p : Page) :
  ok r = true ->
  json_body r = Ok data ->
  get_prop data "session_id" = Ok (Some (JStr sid)) ->
  get_prop data "files" = Ok (Some (JArr (map JStr names))) ->
  names <> [] ->
  links_of "dec" (events_of (btnDecrypt_onclick (Ok r)) p) = map (member_link sid) names
  /\ (exists t, childNodes (run (btnDecrypt_onclick (Ok r)) p) "log-dec" =
                TextNode t :: map (fun f => AnchorNode (member_link sid f)) names)
  /\ (forall f,
        href (member_link sid f) =
          Location ("/api/download_decrypted/" ++ sid ++ "/" ++ encodeURIComponent f)
        /\ download (member_link sid f) = pop (split f "/")
        /\ textContent (member_link sid f) = "⬇️ Download " ++ quoted f)
  /\ (forall dir name,
        includes name "/" = false ->
        download (member_link sid (dir ++ "/" ++ name)) = name
        /\ download (member_link sid name) = name).
Proof.
  intros Hok Hbody Hsid Hfiles Hne.
  set (p2 := emit (Fetched (request_of Decrypt p)) (run (prologue Decrypt) p)).
  destruct (decrypt_response_members r data sid names p2 Hok Hbody Hfiles Hsid Hne)
    as [p3 [Hrun [Ht [t Hc]]]].
  assert (Ht2 : trace p2 = (trace (run (prologue Decrypt) p)
                            ++ [Fetched (request_of Decrypt p)])%list) by reflexivity.
  rewrite Ht2, <- app_assoc in Ht.
  destruct (onclick_handled Decrypt r p p3 _ Hrun Ht) as [Hp Hev].
  change (onclick Decrypt) with btnDecrypt_onclick in *.
  split; [|split; [|split]].
  - rewrite Hev. simpl. rewrite links_of_app, links_of_app, links_of_members. simpl.
    now rewrite !app_nil_r.
  - exists t. rewrite Hp. exact Hc.
  - intros f. repeat split.
  - intros dir name Hname. split.
    + apply (pop_split_last "/"). assumption.
    + apply pop_split_whole. assumption.
Qed.

Lemma C5_decrypted_links_witness :
  links_of "dec" (events_of (btnDecrypt_onclick (Ok decrypted)) blank) =
    map (member_link "abc123") ["a.txt"; "sub/b.txt"]
  /\ map download (map (member_link "abc123") ["a.txt"; "sub/b.txt"]) = ["a.txt"; "b.txt"]
  /\ map href (map (member_link "abc123") ["a.txt"; "sub/b.txt"]) =
     [ Location "/api/download_decrypted/abc123/a.txt";
       Location "/api/download_decrypted/abc123/sub%2Fb.txt" ].
Proof.
  split; [|split; reflexivity].
  refine (proj1 (C5_decrypted_links decrypted _ "abc123" ["a.txt"; "sub/b.txt"] blank
                   eq_refl eq_refl eq_refl eq_refl _)).
  discriminate.
Defined.

(** C5 as stated fails on the example of the specification: what the two
    links show is not [a.txt] and [b.txt] but the word Download and the
    member name, directory and all; [b.txt] is the name the second link
    downloads under. *)
Lemma C5_visible_label_counterexample :
  map textContent (links_of "dec" (events_of (btnDecrypt_onclick (Ok decrypted)) blank)) =
    [ "⬇️ Download " ++ quoted "a.txt"; "⬇️ Download " ++ quoted "sub/b.txt" ]
  /\ map textContent (links_of "dec" (events_of (btnDecrypt_onclick (Ok decrypted)) blank))
     <> ["a.txt"; "b.txt"]
  /\ includes ("⬇️ Download " ++ quoted "sub/b.txt") "sub/" = true
  /\ map download (links_of "dec" (events_of (btnDecrypt_onclick (Ok decrypted)) blank)) =
     ["a.txt"; "b.txt"].
Proof.
  split; [vm_compute; reflexivity|].
  split; [vm_compute; discriminate|].
  split; vm_compute; reflexivity.
Qed.



(** C7, amended. The encrypt and the compare handler name the package
    after the content-disposition header: the name is what stands in the
    header between the first ["filename="] and the next one (or the end
    of the header), with every double quote removed, wherever it stands;
    [attachment; filename="result.zip"] gives [result.zip]. The fixed name
    of the workflow is used exactly when there is no header, when the
    header holds no ["filename="], or when nothing but double quotes
    stands in that place. The handler logs the name and gives it to the
    link as the name to download under. *)
Theorem C7_package_name (w : Workflow) (r : Response) (b : Blob) (p : Page) :
  packaging w -> ok r = true -> blob_body r = Ok b ->
  (exists id,
      links_of (tab_of w) (events_of (onclick w (Ok r)) p) = [package_link w r id]
      /\ download (package_link w r id) =
         disposition_filename (headers_get r "content-disposition") (fallback_name w))
  /\ (forall fb,
        disposition_filename (Some ("attachment; filename=" ++ quoted "result.zip")) fb
        = "result.zip")
  /\ (forall fb, disposition_filename None fb = fb)
  /\ (forall h fb, includes h "filename=" = false -> disposition_filename (Some h) fb = fb)
  /\ (forall pre fb,
        includes pre "filename=" = false ->
        disposition_filename (Some (pre ++ "filename=")) fb = fb
        /\ disposition_filename (Some (pre ++ "filename=" ++ quoted "")) fb = fb)
  /\ (forall pre name fb,
        includes pre "filename=" = false -> includes name "filename=" = false ->
        remove_char dquote name = name -> name <> "" ->
        disposition_filename (Some (pre ++ "filename=" ++ quoted name)) fb = name
        /\ disposition_filename (Some (pre ++ "filename=" ++ name)) fb = name)
  /\ (forall pre seg rest fb,
        includes pre "filename=" = false -> includes seg "filename=" = false ->
        rest = "" \/ (exists more, rest = "filename=" ++ more) ->
        disposition_filename (Some (pre ++ "filename=" ++ seg ++ rest)) fb
        = (if String.eqb (remove_char dquote seg) "" then fb else remove_char dquote seg))
  /\ (forall h,
        includes h "filename=" = true ->
        exists pre seg rest,
          h = pre ++ "filename=" ++ seg ++ rest
          /\ includes pre "filename=" = false /\ includes seg "filename=" = false
          /\ (rest = "" \/ exists more, rest = "filename=" ++ more))
  /\ In ((match w with Compare => "AI-Priority package created: " | _ => "Package created: " end)
         ++ disposition_filename (headers_get r "content-disposition") (fallback_name w))
        (logged w (Ok r) p).
Proof.
  intros Hw Hok Hblob.
  destruct (package_run w r b p Hw Hok Hblob) as [Hev _].
  split; [|split; [|split; [|split; [|split; [|split; [|split; [|split]]]]]]].
  - exists (nextObjectURL p). rewrite Hev.
    destruct Hw as [-> | ->]; split; reflexivity.
  - intros fb. vm_compute. reflexivity.
  - reflexivity.
  - intros h fb H. unfold disposition_filename. now rewrite (split_whole _ _ H).
  - intros pre fb Hpre. unfold disposition_filename. split.
    + pose proof (split_filename pre "" Hpre) as E.
      change ("filename=" ++ "") with "filename=" in E. rewrite E. reflexivity.
    + rewrite (split_filename _ _ Hpre). reflexivity.
  - intros pre name fb Hpre Hname Hq Hne.
    assert (Hd : or_default (Some name) fb = name).
    { unfold or_default. destruct (String.eqb_spec name ""); [contradiction | reflexivity]. }
    unfold disposition_filename. rewrite !(split_filename _ _ Hpre). split.
    + rewrite (split_whole _ _ (includes_quoted_false _ Hname)). cbn [nth_error].
      now rewrite (remove_char_quoted _ Hq).
    + rewrite (split_whole _ _ Hname). cbn [nth_error]. now rewrite Hq.
  - intros pre seg rest fb Hpre Hseg Hrest. unfold disposition_filename.
    now rewrite (split_filename_second pre seg rest Hpre Hseg Hrest).
  - intros h H.
    destruct (includes_first h "filename=" ltac:(discriminate) H) as [pre [tl [-> Hpre]]].
    destruct (includes tl "filename=") eqn:Htl.
    + destruct (includes_first tl "filename=" ltac:(discriminate) Htl) as [seg [more [-> Hseg]]].
      exists pre, seg, ("filename=" ++ more). repeat split; try assumption.
      right. now exists more.
    + exists pre, tl, "". rewrite append_nil_r. repeat split; try assumption. now left.
  - unfold logged. rewrite Hev.
    destruct Hw as [-> | ->]; simpl; repeat first [left; reflexivity | right].
Qed.

Lemma C7_package_name_witness :
  packaging Compare /\ ok packaged = true /\ blob_body packaged = Ok (mkBlob "PK")
  /\ (exists id,
        links_of "cmp" (events_of (onclick Compare (Ok packaged)) blank)
        = [package_link Compare packaged id]
        /\ download (package_link Compare packaged id) =
           disposition_filename (headers_get packaged "content-disposition") "encrypted_ai.zip")
  /\ disposition_filename (headers_get packaged "content-disposition") "encrypted_ai.zip"
     = "result.zip"
  /\ disposition_filename (headers_get mistimed "content-disposition") "encrypted.zip"
     = "encrypted.zip".
Proof.
  split; [now right|]. split; [reflexivity|]. split; [reflexivity|].
  split; [|split; reflexivity].
  exact (proj1 (C7_package_name Compare packaged (mkBlob "PK") blank
                  (or_intror eq_refl) eq_refl eq_refl)).
Defined.

(** C7 as stated fails on a header that is malformed behind ["filename="]:
    a parameter behind the name stays in the name, a quote that is never
    closed gives no fallback, and a quote inside the name is removed with
    the surrounding ones. *)
Lemma C7_malformed_header_counterexample :
  (ok trailed = true
   /\ headers_get trailed "content-disposition" =
      Some ("attachment; filename=" ++ quoted "result.zip" ++ "; size=12")
   /\ logged Encrypt (Ok trailed) blank =
      [ start_line Encrypt; "✅ Success! Run complete in 0.0000s.";
        "Package created: result.zip; size=12" ]
   /\ map download (links_of "enc" (events_of (onclick Encrypt (Ok trailed)) blank))
      = ["result.zip; size=12"])
  /\ (ok unclosed = true
      /\ headers_get unclosed "content-disposition" =
         Some ("attachment; filename=" ++ String dquote "result.zip")
      /\ map download (links_of "cmp" (events_of (onclick Compare (Ok unclosed)) blank))
         = ["result.zip"]
      /\ "result.zip" <> fallback_name Compare)
  /\ disposition_filename
       (Some ("attachment; filename=" ++ quoted ("a" ++ String dquote "b.zip")))
       "encrypted.zip" = "ab.zip".
Proof. vm_compute. repeat split; discriminate. Qed.

(** C8. Whatever the request comes to (a success, an error of the server,
    a failure of the network or any exception on the way), a click on a
    trigger disables it before anything else, sends the request while it
    is disabled, and enables it again as the last thing it does; no
    exception leaves the handler. *)
Theorem C8_trigger_disabled_then_enabled (w : Workflow) (settled : result Response)
    (p : Page) :
  exists pre post,
    events_of (onclick w settled) p =
      (SetDisabled (button_of w) true :: pre
       ++ Fetched (request_of w p) :: post ++ [SetDisabled (button_of w) false])%list
    /\ forallb calm (pre ++ post) = true
    /\ disabled (run (onclick w settled) p) (button_of w) = false
    /\ snd (onclick w settled p) = Ok tt.
Proof.
  destruct (onclick_run w settled p) as [post [Hev [Hpost [Hd Hr]]]].
  exists (prologue_events w), post. repeat split; try assumption.
  now rewrite forallb_app, prologue_calm, Hpost.
Qed.

(** C9. [fmtBytes] shows 0 as ["0 B"], 1023 in bytes, 1024 as ["1.0 KB"],
    the square of 1024 as ["1.0 MB"] and its cube as ["1.0 GB"]; what it
    shows is a quantity of a unit, and a larger count never shows as
    fewer bytes. *)
Theorem C9_fmtBytes (m n : Z) :
  (m <= n)%Z ->
  (fmtBytes 0 = "0 B" /\ fmtBytes 1023 = "1023 B" /\ fmtBytes 1024 = "1.0 KB"
   /\ fmtBytes (1024 ^ 2) = "1.0 MB" /\ fmtBytes (1024 ^ 3) = "1.0 GB")
  /\ fmtBytes m = quantity_text (fst (rendered m)) (snd (rendered m))
  /\ fmtBytes n = quantity_text (fst (rendered n)) (snd (rendered n))
  /\ (fst (rendered m) * unit_size (snd (rendered m))
      <= fst (rendered n) * unit_size (snd (rendered n)))%Z.
Proof.
  intros H. split; [repeat split; vm_compute; reflexivity|].
  split; [apply fmtBytes_rendered|]. split; [apply fmtBytes_rendered|].
  exact (rendered_bytes_mono m n H).
Qed.

Lemma C9_fmtBytes_witness :
  (1048575 <= 1048576)%Z
  /\ fmtBytes 1048575 = "1024.0 KB" /\ fmtBytes 1048576 = "1.0 MB"
  /\ (fst (rendered 1048575) * unit_size (snd (rendered 1048575))
      <= fst (rendered 1048576) * unit_size (snd (rendered 1048576)))%Z.
Proof.
  assert (H : (1048575 <= 1048576)%Z) by lia.
  split; [assumption|]. split; [reflexivity|]. split; [reflexivity|].
  exact (proj2 (proj2 (proj2 (C9_fmtBytes 1048575 1048576 H)))).
Defined.



(** * Further properties of the script *)

Import Layout Panels.

Module EnableFacts.

Lemma trimEnd_nil : trimEnd "" = "".
Proof. reflexivity. Qed.

(** Nothing is left of a string once trimmed exactly when it is white
    space throughout. *)
Lemma trim_nil_iff s : trim s = "" <-> all_whitespace s = true.
Proof.
  unfold all_whitespace. rewrite String.eqb_eq. unfold trim. split.
  - intros H. destruct (trimEnd_split (trimStart s)) as [r [Hr Hs]].
    rewrite H in Hs. simpl in Hs.
    pose proof (trimStart_Blank_nil _ Hr) as E. rewrite <- Hs in E.
    unfold trimStart in E at 1.
    rewrite (drop_tokens_fixed _ _ _ (trimStart_done s)) in E. exact E.
  - intros ->. reflexivity.
Qed.

Lemma enable_of_disabled w p :
  disabled (run (enable_of w) p) (button_of w) =
  negb (nonzero (List.length (selection_of w p))
        && nonempty (trim (value p (password_of w)))).
Proof. destruct w; reflexivity. Qed.

End EnableFacts.
Import EnableFacts.

(** ** What every run of a handler keeps *)

Module KeepFacts.

Section Keeps.
Variable R : Page -> Page -> Prop.
Hypothesis R_refl : forall p, R p p.
Hypothesis R_trans : forall p q r, R p q -> R q r -> R p r.

Lemma keeps_ret {A : Type} (a : A) : keeps R (ret a).
Proof. intros p. apply R_refl. Qed.

Lemma keeps_throw {A : Type} e : keeps R (@throw A e).
Proof. intros p. apply R_refl. Qed.

Lemma keeps_lift {A : Type} (r : result A) : keeps R (lift r).
Proof. intros p. apply R_refl. Qed.

Lemma keeps_read {A : Type} (f : Page -> A) : keeps R (read f).
Proof. intros p. apply R_refl. Qed.

Lemma keeps_bind {A B : Type} (m : M A) (k : A -> M B) :
  keeps R m -> (forall a, keeps R (k a)) -> keeps R (bind m k).
Proof.
  intros Hm Hk p. unfold bind. specialize (Hm p).
  destruct (m p) as [p' [a|e]]; simpl in *; [|assumption].
  apply (R_trans _ p'); [assumption | apply Hk].
Qed.

Lemma keeps_forEach {A : Type} (l : list A) (f : A -> M unit) :
  (forall a, keeps R (f a)) -> keeps R (forEach l f).
Proof.
  intros Hf. induction l as [|x l IH]; simpl.
  - apply keeps_ret.
  - apply keeps_bind; auto.
Qed.

Lemma keeps_try_catch_finally body handler fin :
  keeps R body -> (forall e, keeps R (handler e)) -> keeps R fin ->
  keeps R (try_catch_finally body handler fin).
Proof.
  intros Hb Hh Hf p. unfold try_catch_finally. specialize (Hb p).
  destruct (body p) as [p1 [a|e]]; simpl in Hb.
  - specialize (Hf p1). destruct (fin p1) as [p2 [u|e2]]; simpl in *;
      apply (R_trans _ p1); assumption.
  - specialize (Hh e p1). destruct (handler e p1) as [p2 r2]; simpl in Hh.
    specialize (Hf p2). destruct (fin p2) as [p3 [u|e3]]; simpl in *;
      apply (R_trans _ p1); try assumption; apply (R_trans _ p2); assumption.
Qed.

Lemma keeps_check_ok r : keeps R (check_ok r).
Proof. intros p. rewrite check_ok_eq. apply R_refl. Qed.

(** The steps of the handlers of [w] that touch the page. *)
Variable w : Workflow.
Hypothesis R_set_disabled : forall b, keeps R (set_disabled (button_of w) b).
Hypothesis R_log : forall m, keeps R (log (tab_of w) m).
Hypothesis R_logHTML : forall a, keeps R (logHTML (tab_of w) a).
Hypothesis R_setStatus : forall t, keeps R (setStatus t).
Hypothesis R_updateChart : w = Compare -> forall x y, keeps R (updateChart x y).
Hypothesis R_createObjectURL : forall b, keeps R (createObjectURL b).
Hypothesis R_fetch : forall settled url fd, keeps R (fetch settled url fd).

Ltac keeps_step :=
  lazymatch goal with
  | |- keeps _ (let _ := _ in _) => cbv zeta
  | |- keeps _ (log _ _) => apply R_log
  | |- keeps _ (logHTML _ _) => apply R_logHTML
  | |- keeps _ (setStatus _) => apply R_setStatus
  | |- keeps _ (updateChart _ _) => apply R_updateChart; reflexivity
  | |- keeps _ (createObjectURL _) => apply R_createObjectURL
  | |- keeps _ (set_disabled _ _) => apply R_set_disabled
  | |- keeps _ (check_ok _) => apply keeps_check_ok
  | |- keeps _ (bind _ _) => apply keeps_bind; [|intro]
  | |- keeps _ (ret _) => apply keeps_ret
  | |- keeps _ (throw _) => apply keeps_throw
  | |- keeps _ (lift _) => apply keeps_lift
  | |- keeps _ (await _) => apply keeps_lift
  | |- keeps _ (read _) => apply keeps_read
  | |- keeps _ (forEach _ _) => apply keeps_forEach; intro
  | |- keeps _ (if ?b then _ else _) => destruct b
  | |- keeps _ (match ?x with _ => _ end) => destruct x
  end.

Lemma keeps_report e : keeps R (report (tab_of w) e).
Proof. unfold report. repeat keeps_step. Qed.

Lemma keeps_prologue : keeps R (prologue w).
Proof. destruct w; unfold prologue; repeat keeps_step. Qed.

Lemma keeps_decrypted_link data file : w = Decrypt -> keeps R (decrypted_link data file).
Proof. intros E. revert R_logHTML. rewrite E. intros H. unfold decrypted_link. repeat keeps_step. apply H. Qed.

Lemma keeps_has_members members : keeps R (has_members members).
Proof. unfold has_members. repeat keeps_step. Qed.

Lemma keeps_response r : keeps R (response_of w r).
Proof.
  pose proof keeps_decrypted_link as Hd.
  destruct w; unfold response_of, encrypt_response, compare_response, decrypt_response;
    repeat keeps_step;
    first [apply keeps_has_members | apply Hd; reflexivity].
Qed.

(** From the page the prologue leaves to the page the handler leaves. *)
Lemma keeps_after_prologue settled p :
  R (run (prologue w) p) (run (onclick w settled) p).
Proof.
  unfold run at 2. rewrite onclick_shape.
  apply keeps_try_catch_finally.
  - apply keeps_bind; [apply R_fetch | intros r; apply keeps_response].
  - apply keeps_report.
  - apply R_set_disabled.
Qed.

Lemma keeps_onclick settled : keeps R (onclick w settled).
Proof.
  intros p. apply (R_trans _ (run (prologue w) p)); [apply keeps_prologue|].
  apply keeps_after_prologue.
Qed.

End Keeps.

End KeepFacts.
Import KeepFacts.

Module ApartFacts.

Lemma apart_refl w p : apart w p p.
Proof. unfold apart. repeat split; auto. Qed.

Lemma apart_trans w p q r : apart w p q -> apart w q r -> apart w p r.
Proof.
  intros [H1 [H2 [H3 [H4 [H5 [H6 H7]]]]]] [K1 [K2 [K3 [K4 [K5 [K6 K7]]]]]].
  unfold apart. repeat split; try congruence.
  - intros id Hid. rewrite K1, H1; auto.
  - intros id Hid Hf. rewrite K2, H2; auto.
  - intros Hw. rewrite K7, H7; auto.
Qed.

Lemma upd_other {A : Type} (f : string -> A) k v id : id <> k -> upd f k v id = f id.
Proof. intros H. unfold upd. destruct (String.eqb_spec id k); [contradiction | reflexivity]. Qed.

Lemma apart_set_disabled w b : keeps (apart w) (set_disabled (button_of w) b).
Proof.
  intros p. unfold apart. repeat split; auto.
  intros id Hid. simpl. now apply upd_other.
Qed.

Lemma apart_log w m : keeps (apart w) (log (tab_of w) m).
Proof.
  intros p. unfold apart. repeat split; auto.
  intros id Hid _. simpl. now apply upd_other.
Qed.

Lemma apart_logHTML w a : keeps (apart w) (logHTML (tab_of w) a).
Proof.
  intros p. unfold apart. repeat split; auto.
  intros id Hid _. simpl. now apply upd_other.
Qed.

Lemma apart_setStatus w t : keeps (apart w) (setStatus t).
Proof.
  intros p. unfold apart. repeat split; auto.
  intros id _ Hid. simpl. now apply upd_other.
Qed.

Lemma apart_updateChart w : w = Compare -> forall x y, keeps (apart w) (updateChart x y).
Proof. intros -> x y p. unfold apart. repeat split; auto. intros H. contradiction. Qed.

Lemma apart_createObjectURL w b : keeps (apart w) (createObjectURL b).
Proof. intros p. unfold apart. repeat split; auto. Qed.

Lemma apart_fetch w settled url fd : keeps (apart w) (fetch settled url fd).
Proof. intros p. unfold apart. repeat split; auto. Qed.

Lemma apart_onclick w settled p : apart w p (run (onclick w settled) p).
Proof.
  apply (keeps_onclick (apart w) (apart_refl w) (apart_trans w) w);
    auto using apart_set_disabled, apart_log, apart_logHTML, apart_setStatus,
      apart_updateChart, apart_createObjectURL, apart_fetch.
Qed.

End ApartFacts.
Import ApartFacts.

Module HoardFacts.

Lemma hoards_refl p : hoards p p.
Proof. unfold hoards. repeat split. exists []. auto. Qed.

Lemma hoards_trans p q r : hoards p q -> hoards q r -> hoards p r.
Proof.
  intros [H1 [H2 [b1 [H3 H4]]]] [K1 [K2 [b2 [K3 K4]]]].
  unfold hoards. repeat split; try congruence.
  exists (b2 ++ b1)%list. rewrite K3, H3, K4, H4, app_assoc, length_app. split; [reflexivity | lia].
Qed.

Lemma hoards_same {A : Type} (m : M A) :
  (forall p, resources (fst (m p)) = resources p) -> keeps hoards m.
Proof.
  intros H p. specialize (H p). unfold resources in H. injection H as H1 H2 H3 H4.
  unfold hoards. repeat split; auto. exists []. auto.
Qed.

Lemma hoards_createObjectURL b : keeps hoards (createObjectURL b).
Proof.
  intros p. unfold hoards. repeat split.
  exists [(nextObjectURL p, b)]. auto.
Qed.

Lemma hoards_onclick w settled p : hoards p (run (onclick w settled) p).
Proof.
  apply (keeps_onclick hoards hoards_refl hoards_trans w);
    try (intros; apply hoards_same; reflexivity).
  apply hoards_createObjectURL.
Qed.

Lemma hoards_session clicks p : hoards p (run (session clicks) p).
Proof.
  revert p. induction clicks as [|[w settled] l IH]; intros p.
  - apply hoards_refl.
  - unfold session, run in *. simpl forEach. unfold bind.
    pose proof (hoards_onclick w settled p) as H. unfold run in H.
    destruct (onclick w settled p) as [p1 [[]|e]]; simpl in *.
    + apply (hoards_trans _ p1); auto.
    + assumption.
Qed.

Lemma hoards_live p q u : hoards p q -> live p u = true -> live q u = true.
Proof.
  intros [_ [_ [born [H _]]]] Hl. unfold live in *. rewrite H, existsb_app, Hl.
  apply orb_true_r.
Qed.

End HoardFacts.
Import HoardFacts.

Module PaneFacts.

Lemma text_of_app a b : text_of (a ++ b) = text_of a ++ text_of b.
Proof.
  induction a as [|n a IH]; simpl; [reflexivity|].
  now rewrite IH, append_assoc.
Qed.

Lemma rendering_app tab a b : rendering tab (a ++ b) = rendering tab a ++ rendering tab b.
Proof.
  induction a as [|e a IH]; simpl; [reflexivity|].
  destruct e; try assumption; destruct (String.eqb _ tab); try assumption;
    rewrite IH, ?append_assoc; reflexivity.
Qed.

Lemma transcribed_refl tab p : transcribed tab p p.
Proof.
  exists []. rewrite app_nil_r. simpl. rewrite append_nil_r. auto.
Qed.

Lemma transcribed_trans tab p q r :
  transcribed tab p q -> transcribed tab q r -> transcribed tab p r.
Proof.
  intros [e1 [H1 [H2 H3]]] [e2 [K1 [K2 K3]]]. exists (e1 ++ e2)%list.
  split; [now rewrite K1, H1, app_assoc|]. split.
  - now rewrite K2, H2, rendering_app, append_assoc.
  - intros a Ha. rewrite links_of_app. destruct (K3 a Ha) as [K | K].
    + destruct (H3 a K); [now left | right; apply in_or_app; now left].
    + right. apply in_or_app. now right.
Qed.

(** A step that leaves the pane alone and whose event does not show in it. *)
Lemma transcribed_aside {A : Type} tab (m : M A) e :
  (forall p, trace (fst (m p)) = (trace p ++ [e])%list) ->
  (forall p, childNodes (fst (m p)) ("log-" ++ tab) = childNodes p ("log-" ++ tab)) ->
  rendering tab [e] = "" -> links_of tab [e] = [] ->
  keeps (transcribed tab) m.
Proof.
  intros Ht Hc Hr Hl p. exists [e]. split; [apply Ht|]. unfold shown.
  rewrite Hc, Hr, append_nil_r. split; auto.
Qed.

Lemma log_childNodes tab m p :
  childNodes (run (log tab m) p) ("log-" ++ tab) =
  [TextNode (shown p ("log-" ++ tab) ++ m ++ LF)].
Proof.
  cbv [run log bind read set_textContent emit with_childNodes childNodes fst upd].
  rewrite String.eqb_refl. fold (childNodes p). unfold shown.
  destruct (text_of _ ++ m ++ LF) eqn:E; [|reflexivity].
  exfalso. apply append_eq_nil in E as [_ E]. apply append_eq_nil in E as [_ E]. discriminate.
Qed.

Lemma logHTML_childNodes tab a p :
  childNodes (run (logHTML tab a) p) ("log-" ++ tab) =
  (childNodes p ("log-" ++ tab) ++ [AnchorNode a])%list.
Proof.
  cbv [run logHTML bind appendChild emit with_childNodes childNodes fst upd].
  now rewrite String.eqb_refl.
Qed.

Lemma transcribed_log tab m : keeps (transcribed tab) (log tab m).
Proof.
  intros p. exists [Logged tab m]. split; [reflexivity|].
  change (fst (log tab m p)) with (run (log tab m) p).
  unfold shown at 1. rewrite log_childNodes. simpl. rewrite String.eqb_refl.
  rewrite !append_nil_r. split; [reflexivity|].
  intros a [H | []]. discriminate.
Qed.

Lemma transcribed_logHTML tab a : keeps (transcribed tab) (logHTML tab a).
Proof.
  intros p. exists [LoggedHTML tab a]. split; [reflexivity|].
  change (fst (logHTML tab a p)) with (run (logHTML tab a) p).
  unfold shown at 1. rewrite logHTML_childNodes, text_of_app. simpl.
  rewrite String.eqb_refl. split; [reflexivity|].
  intros b Hb. apply in_app_or in Hb as [Hb | [Hb | []]]; [now left|].
  right. injection Hb as ->. now left.
Qed.

Lemma transcribed_set_disabled tab id b : keeps (transcribed tab) (set_disabled id b).
Proof. apply (transcribed_aside _ _ (SetDisabled id b)); reflexivity. Qed.

Lemma transcribed_setStatus tab t : keeps (transcribed tab) (setStatus t).
Proof. apply (transcribed_aside _ _ (Status t)); reflexivity. Qed.

Lemma transcribed_updateChart tab x y : keeps (transcribed tab) (updateChart x y).
Proof. apply (transcribed_aside _ _ (ChartUpdated x y)); reflexivity. Qed.

Lemma transcribed_createObjectURL tab b : keeps (transcribed tab) (createObjectURL b).
Proof.
  intros q. exists [UrlCreated (nextObjectURL q)]. split; [reflexivity|].
  simpl. rewrite append_nil_r. auto.
Qed.

Lemma transcribed_fetch tab settled url fd : keeps (transcribed tab) (fetch settled url fd).
Proof. apply (transcribed_aside _ _ (Fetched (mkRequest url "POST" fd))); reflexivity. Qed.

Lemma transcribed_onclick w settled p :
  transcribed (tab_of w) p (run (onclick w settled) p).
Proof.
  apply (keeps_onclick (transcribed (tab_of w)) (transcribed_refl _) (transcribed_trans _) w);
    auto using transcribed_set_disabled, transcribed_log, transcribed_logHTML,
      transcribed_setStatus, transcribed_updateChart, transcribed_createObjectURL,
      transcribed_fetch.
Qed.

Lemma transcribed_after_prologue w settled p :
  transcribed (tab_of w) (run (prologue w) p) (run (onclick w settled) p).
Proof.
  apply (keeps_after_prologue (transcribed (tab_of w)) (transcribed_refl _)
           (transcribed_trans _) w);
    auto using transcribed_set_disabled, transcribed_log, transcribed_logHTML,
      transcribed_setStatus, transcribed_updateChart, transcribed_createObjectURL,
      transcribed_fetch.
Qed.


Lemma prologue_pane w p :
  childNodes (run (prologue w) p) (pane_of w) =
  [TextNode (shown p (pane_of w) ++ start_line w ++ LF)].
Proof.
  assert (E : exists q,
             childNodes (run (prologue w) p) (pane_of w) =
             childNodes (run (log (tab_of w) (start_line w)) q) ("log-" ++ tab_of w)
             /\ shown q (pane_of w) = shown p (pane_of w)).
  { exists (run (set_disabled (button_of w) true) p). destruct w; split; reflexivity. }
  destruct E as [q [E1 E2]]. rewrite E1, log_childNodes. unfold pane_of in E2. now rewrite E2.
Qed.

End PaneFacts.
Import PaneFacts.

Module FailureFacts.

Lemma onclick_failure w settled e p :
  failure_of settled = Some e ->
  run (onclick w settled) p =
    run (set_disabled (button_of w) false)
      (run (report (tab_of w) e) (emit (Fetched (request_of w p)) (run (prologue w) p)))
  /\ events_of (onclick w settled) p = failure_events w p e.
Proof.
  intros H. destruct settled as [r|e']; simpl in H.
  - destruct (ok r) eqn:Hok; [discriminate|]. injection H as <-. split.
    + unfold run at 1. now rewrite onclick_shape, try_report_eq, bind_fetch,
        (response_of_rejected _ _ _ Hok).
    + now apply onclick_rejected.
  - injection H as ->. split.
    + unfold run at 1. now rewrite onclick_shape, try_report_eq, bind_fetch.
    + apply onclick_unreachable.
Qed.

Lemma report_footer tab e p :
  shown (run (report tab e) p) "footer" = "Status: Error: " ++ message e.
Proof.
  cbv [shown run report bind log setStatus read set_textContent emit with_childNodes
       childNodes fst upd]. simpl. now rewrite append_nil_r.
Qed.

End FailureFacts.
Import FailureFacts.

Module BodyFacts.

(** The run of a handler whose [try] block throws [e] after it has added
    [mid] to the trace. *)
Lemma onclick_thrown w r p p3 e mid :
  response_of w r (emit (Fetched (request_of w p)) (run (prologue w) p)) = (p3, Throw e) ->
  trace p3 = (trace (run (prologue w) p) ++ Fetched (request_of w p) :: mid)%list ->
  run (onclick w (Ok r)) p =
    run (set_disabled (button_of w) false) (run (report (tab_of w) e) p3)
  /\ events_of (onclick w (Ok r)) p =
     (SetDisabled (button_of w) true :: prologue_events w
      ++ Fetched (request_of w p) :: mid
      ++ [ Logged (tab_of w) ("❌ ERROR: " ++ message e); Status ("Error: " ++ message e);
           SetDisabled (button_of w) false ])%list.
Proof.
  intros Hrun Ht.
  assert (Hp : run (onclick w (Ok r)) p =
               run (set_disabled (button_of w) false) (run (report (tab_of w) e) p3)).
  { unfold run at 1. rewrite onclick_shape, try_report_eq, bind_fetch.
    unfold request_of in Hrun. now rewrite Hrun. }
  split; [assumption|].
  apply events_of_trace. rewrite Hp, set_disabled_trace, report_trace, Ht, prologue_trace.
  repeat (rewrite <- app_assoc; simpl). reflexivity.
Qed.

Lemma lines_of_cons_other tab e evs :
  (forall m, e <> Logged tab m) -> lines_of tab (e :: evs) = lines_of tab evs.
Proof.
  intros H. destruct e; try reflexivity. simpl.
  destruct (String.eqb_spec tab0 tab); [subst; now destruct (H m) | reflexivity].
Qed.

(** What the encrypt and the compare handler do before they read the
    body of a success. *)
Lemma body_unread w r e p :
  packaging w -> ok r = true -> blob_body r = Throw e ->
  exists p' evs,
    response_of w r p = (p', Throw e)
    /\ trace p' = (trace p ++ evs)%list
    /\ lines_of (tab_of w) evs = announced w r
    /\ links_of (tab_of w) evs = []
    /\ resources p' = resources p.
Proof.
  intros [-> | ->] Hok Hblob.
  - unfold response_of, encrypt_response. rewrite Hblob.
    unfold bind at 1. rewrite check_ok_eq, Hok.
    step_page. unfold bind at 1, await, lift.
    eexists. eexists. split; [reflexivity|].
    split; [apply log_trace|]. repeat split.
  - unfold response_of, compare_response. rewrite Hblob.
    unfold bind at 1. rewrite check_ok_eq, Hok.
    do 6 step_page. unfold bind at 1, await, lift.
    eexists. eexists. split; [reflexivity|].
    split.
    + rewrite !log_trace, updateChart_trace, !log_trace.
      repeat (rewrite <- app_assoc; simpl). reflexivity.
    + repeat split.
Qed.

End BodyFacts.
Import BodyFacts.

Module DecryptFacts.

Lemma setStatus_footer text p :
  shown (run (setStatus text) p) "footer" = "Status: " ++ text.
Proof.
  cbv [shown run setStatus bind set_textContent emit with_childNodes childNodes fst upd].
  simpl. now rewrite append_nil_r.
Qed.

Lemma set_disabled_shown id b p x : shown (run (set_disabled id b) p) x = shown p x.
Proof. reflexivity. Qed.

(** A member list that is missing, falsy or empty has no members. *)
Lemma has_members_none members p :
  truthy members = false \/ members = Some (JArr []) ->
  has_members members p = (p, Ok false).
Proof.
  intros [H | ->]; [|reflexivity].
  unfold has_members. destruct members as [m|]; [|reflexivity]. now rewrite H.
Qed.

Lemma decrypt_response_none r data members p :
  ok r = true -> json_body r = Ok data -> get_prop data "files" = Ok members ->
  truthy members = false \/ members = Some (JArr []) ->
  decrypt_response r p =
    (run (setStatus "Decryption complete.")
       (run (log "dec" "✅ Decryption complete, but no files were found in the package.") p),
     Ok tt).
Proof.
  intros Hok Hjson Hfiles Hm. unfold decrypt_response.
  unfold bind at 1. rewrite check_ok_eq, Hok.
  unfold bind at 1, await, lift at 1. rewrite Hjson.
  unfold bind at 1, lift at 1. rewrite Hfiles.
  unfold bind at 1. rewrite (has_members_none _ _ Hm).
  reflexivity.
Qed.

(** The body of the loop, for a member that is a string. *)
Lemma decrypted_link_named data v sid file p :
  get_prop data "session_id" = Ok v -> ToString_opt v = Ok sid ->
  decrypted_link data (JStr file) p = logHTML "dec" (member_link sid file) p.
Proof.
  intros H1 H2. unfold decrypted_link. unfold bind at 1, lift at 1. rewrite H1.
  unfold bind at 1, lift at 1. rewrite H2. reflexivity.
Qed.

Lemma forEach_named data v sid names p :
  get_prop data "session_id" = Ok v -> ToString_opt v = Ok sid ->
  exists p',
    forEach (map JStr names) (decrypted_link data) p = (p', Ok tt)
    /\ trace p' = (trace p ++ map (fun f => LoggedHTML "dec" (member_link sid f)) names)%list
    /\ childNodes p' "log-dec" =
       (childNodes p "log-dec" ++ map (fun f => AnchorNode (member_link sid f)) names)%list.
Proof.
  intros H1 H2. revert p. induction names as [|f names IH]; intros p.
  - exists p. simpl. rewrite !app_nil_r. auto.
  - simpl forEach. unfold bind at 1. rewrite (decrypted_link_named _ _ _ _ _ H1 H2).
    set (p1 := fst (logHTML "dec" (member_link sid f) p)).
    change (logHTML "dec" (member_link sid f) p) with (p1, @Ok unit tt).
    destruct (IH p1) as [p' [Hrun [Ht Hc]]]. exists p'.
    rewrite Hrun, Ht, Hc. unfold p1. simpl. unfold upd. simpl.
    rewrite <- !app_assoc. auto.
Qed.

Lemma decrypt_response_named r data v sid names p :
  ok r = true -> json_body r = Ok data ->
  get_prop data "files" = Ok (Some (JArr (map JStr names))) ->
  get_prop data "session_id" = Ok v -> ToString_opt v = Ok sid ->
  names <> [] ->
  exists p',
    decrypt_response r p = (p', Ok tt)
    /\ trace p' =
       (trace p
        ++ Logged "dec" ("✅ Success! Server decrypted "
                         ++ decimal (Z.of_nat (List.length names)) ++ " file(s):")
        :: map (fun f => LoggedHTML "dec" (member_link sid f)) names
        ++ [Status "Decryption complete."])%list.
Proof.
  intros Hok Hjson Hfiles Hsid Hstr Hne.
  unfold decrypt_response.
  unfold bind at 1. rewrite check_ok_eq, Hok.
  unfold bind at 1, await, lift at 1. rewrite Hjson.
  unfold bind at 1, lift at 1. rewrite Hfiles.
  assert (Hm : forall q, has_members (Some (JArr (map JStr names))) q = (q, Ok true)).
  { intros q. destruct names; [contradiction | reflexivity]. }
  unfold bind at 1. rewrite Hm.
  unfold bind at 1. unfold bind at 1, lift at 1. simpl get_length.
  unfold bind at 1, lift at 1. simpl length_text. rewrite length_map.
  unfold bind at 1.
  set (line := "✅ Success! Server decrypted "
               ++ decimal (Z.of_nat (List.length names)) ++ " file(s):").
  set (p1 := fst (log "dec" line p)).
  change (log "dec" line p) with (p1, @Ok unit tt).
  destruct (forEach_named data v sid names p1 Hsid Hstr) as [p2 [Hrun [Ht Hc]]].
  rewrite Hrun.
  exists (fst (setStatus "Decryption complete." p2)). split; [reflexivity|].
  cbv [setStatus bind set_textContent emit with_childNodes trace fst].
  fold (trace p2). rewrite Ht. unfold p1.
  cbv [log bind read set_textContent emit with_childNodes trace fst].
  fold (trace p). rewrite <- !app_assoc. reflexivity.
Qed.

End DecryptFacts.
Import DecryptFacts.

Module ChartFacts.

Lemma compare_chart r p :
  ok r = true ->
  comparisonChart (run (onclick Compare (Ok r)) p) =
  Some (header_time r "X-Time-FIFO", header_time r "X-Time-AI").
Proof.
  intros Hok. unfold run. rewrite onclick_shape, try_report_eq, bind_fetch.
  unfold response_of, compare_response. unfold bind at 1. rewrite check_ok_eq, Hok.
  do 6 step_page. unfold bind at 1, await, lift.
  destruct (blob_body r) as [b|e]; [|reflexivity].
  do 3 step_page. rewrite setStatus_returns. reflexivity.
Qed.

End ChartFacts.
Import ChartFacts.

Module NameFacts.

Lemma remove_char_clean c s : includes (remove_char c s) (String c "") = false.
Proof.
  induction s as [|a s IH]; simpl.
  - reflexivity.
  - destruct (Ascii.eqb a c) eqn:E; [assumption|].
    simpl. unfold startsWith. simpl. rewrite Ascii.eqb_sym, E. simpl. exact IH.
Qed.

Lemma or_default_cases v d :
  or_default v d = d \/ (v = Some (or_default v d) /\ or_default v d <> "").
Proof.
  destruct v as [s|]; simpl; [|now left].
  destruct (String.eqb_spec s ""); [now left | now right].
Qed.

Lemma disposition_filename_cases h fb :
  disposition_filename h fb = fb
  \/ (disposition_filename h fb <> ""
      /\ exists seg, disposition_filename h fb = remove_char dquote seg).
Proof.
  unfold disposition_filename.
  match goal with |- context [or_default ?v fb] => destruct (or_default_cases v fb) as [H | [H1 H2]] end.
  - now left.
  - right. split; [assumption|].
    destruct h as [v|]; [|discriminate].
    destruct (nth_error (split v "filename=") 1) as [seg|]; [|discriminate].
    exists seg. now injection H1.
Qed.

End NameFacts.
Import NameFacts.

Module UriFacts.

Lemma hex_digit_inj i j : i < 16 -> j < 16 -> hex_digit i = hex_digit j -> i = j.
Proof.
  intros Hi Hj.
  do 16 (destruct i as [|i];
         [do 16 (destruct j as [|j]; [first [reflexivity | discriminate]|]); lia|]).
  lia.
Qed.

Lemma hex_digit_unreserved i : i < 16 -> uri_unreserved (hex_digit i) = true.
Proof.
  intros Hi. do 16 (destruct i as [|i]; [reflexivity|]). lia.
Qed.

Lemma code_lt c : code c < 256.
Proof. apply nat_ascii_bounded. Qed.

Lemma percent_encode_inj c1 c2 : percent_encode c1 = percent_encode c2 -> c1 = c2.
Proof.
  unfold percent_encode. cbv zeta.
  pose proof (code_lt c1) as B1. pose proof (code_lt c2) as B2.
  pose proof (Nat.div_mod_eq (code c1) 16) as D1.
  pose proof (Nat.div_mod_eq (code c2) 16) as D2.
  assert (Q1 : code c1 / 16 < 16) by (apply Nat.Div0.div_lt_upper_bound; lia).
  assert (Q2 : code c2 / 16 < 16) by (apply Nat.Div0.div_lt_upper_bound; lia).
  assert (R1 : code c1 mod 16 < 16) by (apply Nat.mod_upper_bound; lia).
  assert (R2 : code c2 mod 16 < 16) by (apply Nat.mod_upper_bound; lia).
  revert D1 D2 Q1 Q2 R1 R2.
  generalize (code c1 / 16) (code c1 mod 16) (code c2 / 16) (code c2 mod 16).
  intros q1 r1 q2 r2 D1 D2 Q1 Q2 R1 R2 H. injection H as H1 H2.
  apply hex_digit_inj in H1; [|assumption ..].
  apply hex_digit_inj in H2; [|assumption ..].
  assert (E : code c1 = code c2) by congruence.
  unfold code in E. rewrite <- (ascii_nat_embedding c1), <- (ascii_nat_embedding c2).
  now rewrite E.
Qed.

Lemma percent_not_unreserved : uri_unreserved "%" = false.
Proof. reflexivity. Qed.

Lemma percent_encode_shape c :
  exists h1 h2, percent_encode c = String "%" (String h1 (String h2 "")).
Proof. eexists. eexists. reflexivity. Qed.

Lemma encodeURIComponent_inj a b :
  encodeURIComponent a = encodeURIComponent b -> a = b.
Proof.
  revert b. induction a as [|x a IH]; intros [|y b]; cbn [encodeURIComponent].
  - reflexivity.
  - destruct (percent_encode_shape y) as [h1 [h2 ->]]. destruct (uri_unreserved y); discriminate.
  - destruct (percent_encode_shape x) as [h1 [h2 ->]]. destruct (uri_unreserved x); discriminate.
  - destruct (percent_encode_shape x) as [h1 [h2 Hx]].
    destruct (percent_encode_shape y) as [k1 [k2 Hy]].
    destruct (uri_unreserved x) eqn:Ex; destruct (uri_unreserved y) eqn:Ey;
      rewrite ?Hx, ?Hy; cbn [append]; intros H.
    + injection H as -> H. f_equal. auto.
    + injection H as -> _. rewrite percent_not_unreserved in Ex. discriminate.
    + injection H as <- _. rewrite percent_not_unreserved in Ey. discriminate.
    + injection H as -> -> H. f_equal; [|auto].
      apply percent_encode_inj. congruence.
Qed.

Lemma chars_append a b : chars (a ++ b) = (chars a ++ chars b)%list.
Proof. unfold chars. induction a as [|x a IH]; simpl; [reflexivity | now rewrite IH]. Qed.

Lemma percent_encode_chars x c :
  In c (chars (percent_encode x)) -> uri_unreserved c = true \/ c = "%"%char.
Proof.
  pose proof (code_lt x) as B.
  assert (Q : code x / 16 < 16) by (apply Nat.Div0.div_lt_upper_bound; lia).
  assert (R : code x mod 16 < 16) by (apply Nat.mod_upper_bound; lia).
  revert Q R. unfold percent_encode. cbv zeta.
  generalize (code x / 16) (code x mod 16). intros q r Q R.
  intros [<- | [<- | [<- | []]]]; auto; left; now apply hex_digit_unreserved.
Qed.

Lemma encodeURIComponent_chars s c :
  In c (chars (encodeURIComponent s)) -> uri_unreserved c = true \/ c = "%"%char.
Proof.
  induction s as [|x s IH]; cbn [encodeURIComponent]; [contradiction|].
  rewrite chars_append. intros H. apply in_app_or in H as [H | H]; [|auto].
  destruct (uri_unreserved x) eqn:Ex.
  - destruct H as [<- | []]. auto.
  - now apply (percent_encode_chars x).
Qed.

End UriFacts.
Import UriFacts.

Module AccuracyFacts.

Lemma rendered_unit n :
  (1 <= n)%Z ->
  (unit_size (snd (rendered n)) <= n)%Z
  /\ (n < 1024 ^ 3 -> n < 1024 * unit_size (snd (rendered n)))%Z.
Proof.
  intros H. unfold rendered.
  change (1024 ^ 2)%Z with 1048576%Z. change (1024 ^ 3)%Z with 1073741824%Z.
  destruct (Z.ltb_spec n 1); [lia|].
  destruct (Z.ltb_spec n 1024); [cbn [snd unit_size]; lia|].
  destruct (Z.ltb_spec n 1048576); [cbn [snd unit_size]; lia|].
  destruct (Z.ltb_spec n 1073741824); cbn [snd unit_size];
    change (1024 ^ 2)%Z with 1048576%Z; change (1024 ^ 3)%Z with 1073741824%Z; lia.
Qed.

Lemma rendered_close n :
  (0 <= n)%Z -> (2 * Z.abs (rendered_bytes n - 10 * n) <= unit_size (snd (rendered n)))%Z.
Proof.
  intros H. unfold rendered_bytes, rendered.
  rewrite !fixed_integer_whole. unfold fixed_integer.
  change (10 ^ Z.of_nat 1)%Z with 10%Z.
  change (1024 ^ 2)%Z with 1048576%Z. change (1024 ^ 3)%Z with 1073741824%Z.
  change (Z.pos (1024 ^ 2)) with 1048576%Z. change (Z.pos (1024 ^ 3)) with 1073741824%Z.
  destruct (Z.ltb_spec n 1); [cbn [fst snd unit_size]; lia|].
  destruct (Z.ltb_spec n 1024); [cbn [fst snd unit_size]; lia|].
  destruct (Z.ltb_spec n 1048576);
    [cbn [fst snd unit_size]; Z.to_euclidean_division_equations; lia|].
  destruct (Z.ltb_spec n 1073741824); cbn [fst snd unit_size];
    change (1024 ^ 2)%Z with 1048576%Z; change (1024 ^ 3)%Z with 1073741824%Z;
    Z.to_euclidean_division_equations; lia.
Qed.

End AccuracyFacts.
Import AccuracyFacts.

Module DownloadFacts.

Lemma filter_all {A : Type} (f : A -> bool) l :
  forallb f l = true -> filter f l = l.
Proof.
  induction l as [|x l IH]; simpl; [reflexivity|].
  intros H. apply andb_true_iff in H as [H1 H2]. now rewrite H1, IH.
Qed.

(** The page [downloadBlob] leaves. *)
Lemma downloadBlob_page b name p :
  let id := nextObjectURL p in
  let a := mkAnchor (ObjectUrl id) name "" "" in
  let q := run (downloadBlob b name) p in
  objectURLs q = (id, b) :: objectURLs p
  /\ childNodes q "body" = (childNodes p "body" ++ [AnchorNode a])%list
  /\ timers q = (timers p ++ [((clock p + 800)%Z, RevokeAndRemove id)])%list
  /\ clock q = clock p
  /\ trace q = (trace p ++ [UrlCreated id; Clicked a; TimerSet 800 (RevokeAndRemove id)])%list.
Proof.
  repeat split.
  cbv [run downloadBlob bind createObjectURL appendChild click setTimeout emit
       with_objectURLs with_childNodes with_timers trace fst].
  now rewrite <- !app_assoc.
Qed.

(** A tick that finds the one timer of [downloadBlob] due. *)
Lemma tick_due q ms id :
  timers q = [((clock q + 800)%Z, RevokeAndRemove id)] -> (800 <= ms)%Z ->
  tick ms q = run_task (RevokeAndRemove id) (with_timers (clock q + ms) [] q).
Proof.
  intros Ht Hms. unfold tick. rewrite Ht. simpl filter.
  assert (E : (clock q + 800 <=? clock q + ms)%Z = true) by (apply Z.leb_le; lia).
  rewrite E. simpl. unfold bind.
  destruct (run_task (RevokeAndRemove id) (with_timers (clock q + ms) [] q)) as [q' [[]|e]];
    reflexivity.
Qed.

Lemma tick_early q ms id :
  timers q = [((clock q + 800)%Z, RevokeAndRemove id)] -> (ms < 800)%Z ->
  tick ms q = (with_timers (clock q + ms) (timers q) q, Ok tt).
Proof.
  intros Ht Hms. unfold tick. rewrite Ht. simpl filter.
  assert (E : (clock q + 800 <=? clock q + ms)%Z = false) by (apply Z.leb_gt; lia).
  rewrite E. reflexivity.
Qed.

End DownloadFacts.
Import DownloadFacts.

Module VerdictFacts.

Lemma sub_nan_l x : (nan - x)%float = nan.
Proof.
  rewrite <- (SF2Prim_Prim2SF (nan - x)), sub_spec.
  change (Prim2SF nan) with S754_nan. reflexivity.
Qed.

Lemma sub_nan_r x : (x - nan)%float = nan.
Proof.
  rewrite <- (SF2Prim_Prim2SF (x - nan)), sub_spec.
  change (Prim2SF nan) with S754_nan.
  destruct (Prim2SF x) as [s| s| |s m e]; reflexivity.
Qed.

Lemma verdict_nan fifo ai :
  fifo = nan \/ ai = nan -> verdict fifo ai = "🐌 AI was NaNs slower.".
Proof.
  intros H.
  assert (E : saved_time fifo ai = nan).
  { unfold saved_time. destruct H as [-> | ->]; [apply sub_nan_l | apply sub_nan_r]. }
  unfold verdict. cbv zeta. rewrite E. reflexivity.
Qed.

Lemma header_time_nan r name v :
  headers_get r name = Some v -> v <> "" -> parse_decimal (trimStart v) = None ->
  header_time r name = nan.
Proof.
  intros H Hv Hp. unfold header_time. rewrite H. unfold or_default.
  destruct (String.eqb_spec v "") as [E | _]; [contradiction|].
  unfold parseFloat. now rewrite Hp.
Qed.

End VerdictFacts.
Import VerdictFacts.

(** ** Class names and tabs *)

Module ClassFacts.

Lemma existsb_snoc (c' c : string) l :
  existsb (String.eqb c') (l ++ [c]) = existsb (String.eqb c') l || String.eqb c' c.
Proof. rewrite existsb_app. simpl. now rewrite orb_false_r. Qed.

Lemma existsb_without (c' c : string) l :
  existsb (String.eqb c') (filter (fun x => negb (String.eqb c x)) l) =
  existsb (String.eqb c') l && negb (String.eqb c' c).
Proof.
  induction l as [|x l IH]; simpl; [reflexivity|].
  destruct (String.eqb_spec c x) as [<- | Hx]; simpl; rewrite IH.
  - destruct (String.eqb_spec c' c); simpl; [now rewrite !andb_false_r | reflexivity].
  - destruct (String.eqb_spec c' x) as [<- | Hx']; simpl; [|reflexivity].
    destruct (String.eqb_spec c' c); [congruence | reflexivity].
Qed.

Lemma contains_add id c s id' c' :
  contains (show (classList_add id c) s) id' c' =
  contains s id' c' || (String.eqb id' id && String.eqb c' c).
Proof.
  unfold show, classList_add. cbn [fst].
  destruct (contains s id c) eqn:E.
  - destruct (String.eqb_spec id' id) as [-> | _]; [|now rewrite orb_false_r].
    destruct (String.eqb_spec c' c) as [-> | _]; [|now rewrite orb_false_r].
    now rewrite E.
  - unfold contains, with_classList, classList, upd.
    destruct (String.eqb_spec id' id) as [-> | _]; [|now rewrite orb_false_r].
    apply existsb_snoc.
Qed.

Lemma contains_remove id c s id' c' :
  contains (show (classList_remove id c) s) id' c' =
  contains s id' c' && negb (String.eqb id' id && String.eqb c' c).
Proof.
  unfold show, classList_remove, contains, with_classList, classList, upd. cbn [fst].
  destruct (String.eqb_spec id' id) as [-> | _]; [|now rewrite andb_true_r].
  apply existsb_without.
Qed.

(** *** Steps that return *)

Lemma wbind_step {B : Type} (m : W unit) (k : unit -> W B) s :
  snd (m s) = Ok tt -> wbind m k s = k tt (show m s).
Proof.
  unfold wbind, show. destruct (m s) as [s' [[]|e]]; simpl; intros H;
    [reflexivity | discriminate].
Qed.

Lemma classList_add_returns id c s : snd (classList_add id c s) = Ok tt.
Proof. reflexivity. Qed.

Lemma classList_remove_returns id c s : snd (classList_remove id c s) = Ok tt.
Proof. reflexivity. Qed.

Lemma wforEach_steps {A : Type} (f : A -> W unit) l s :
  (forall x s', snd (f x s') = Ok tt) ->
  wforEach l f s = (fold_left (fun s' x => show (f x) s') l s, Ok tt).
Proof.
  intros Hf. revert s. induction l as [|x l IH]; intros s; [reflexivity|].
  cbn [wforEach fold_left]. rewrite (wbind_step _ _ _ (Hf x s)). apply IH.
Qed.

(** [switchTab], step by step. *)
Lemma switchTab_steps t s :
  show (switchTab t) s =
  (let s1 :=
    show (classList_add "settings-compare" "hidden")
      (show (classList_add "settings-decrypt" "hidden")
         (show (classList_add "settings-encrypt" "hidden")
            (show (classList_remove "compare-page" "active")
               (show (classList_remove "decrypt-page" "active")
                  (show (classList_remove "encrypt-page" "active")
                     (show (classList_remove "btnTabCompare" "active")
                        (show (classList_remove "btnTabDecrypt" "active")
                           (show (classList_remove "btnTabEncrypt" "active") s)))))))) in
  if String.eqb t "encrypt" then
    show (classList_remove "settings-encrypt" "hidden")
      (show (classList_add "encrypt-page" "active")
         (show (classList_add "btnTabEncrypt" "active") s1))
  else if String.eqb t "decrypt" then
    show (classList_remove "settings-decrypt" "hidden")
      (show (classList_add "decrypt-page" "active")
         (show (classList_add "btnTabDecrypt" "active") s1))
  else
    show (classList_remove "settings-compare" "hidden")
      (show (classList_add "compare-page" "active")
         (show (classList_add "btnTabCompare" "active") s1)))
  /\ snd (switchTab t s) = Ok tt.
Proof.
  assert (E : forall k : unit -> W unit,
            wbind (wforEach tabs (fun t => classList_remove t "active"))
              (fun _ => wbind (wforEach pages (fun p => classList_remove p "active"))
                 (fun _ => wbind (wforEach settingsPanels (fun x => classList_add x "hidden")) k)) s
            = k tt
                (show (classList_add "settings-compare" "hidden")
                   (show (classList_add "settings-decrypt" "hidden")
                      (show (classList_add "settings-encrypt" "hidden")
                         (show (classList_remove "compare-page" "active")
                            (show (classList_remove "decrypt-page" "active")
                               (show (classList_remove "encrypt-page" "active")
                                  (show (classList_remove "btnTabCompare" "active")
                                     (show (classList_remove "btnTabDecrypt" "active")
                                        (show (classList_remove "btnTabEncrypt" "active")
                                           s)))))))))).
  { intros k.
    assert (Hr : forall x s', snd (classList_remove x "active" s') = Ok tt) by reflexivity.
    assert (Ha : forall x s', snd (classList_add x "hidden" s') = Ok tt) by reflexivity.
    rewrite wbind_step by (now rewrite (wforEach_steps _ _ _ Hr)).
    rewrite wbind_step by (now rewrite (wforEach_steps _ _ _ Hr)).
    rewrite wbind_step by (now rewrite (wforEach_steps _ _ _ Ha)).
    unfold show at 1 2 3. rewrite !(wforEach_steps _ _ _ Hr), (wforEach_steps _ _ _ Ha).
    reflexivity. }
  unfold switchTab, show at 1. rewrite E. cbv zeta.
  destruct (String.eqb t "encrypt"); [|destruct (String.eqb t "decrypt")];
    rewrite wbind_step by apply classList_add_returns;
    rewrite wbind_step by apply classList_add_returns;
    split; reflexivity.
Qed.

Lemma switchTab_returns t s : snd (switchTab t s) = Ok tt.
Proof. apply switchTab_steps. Qed.

Lemma add_rest id c x :
  page (show (classList_add id c) x) = page x
  /\ innerHTML (show (classList_add id c) x) = innerHTML x
  /\ notes (show (classList_add id c) x) = notes x.
Proof. unfold show, classList_add. cbn [fst]. destruct (contains x id c); auto. Qed.

Lemma remove_rest id c x :
  page (show (classList_remove id c) x) = page x
  /\ innerHTML (show (classList_remove id c) x) = innerHTML x
  /\ notes (show (classList_remove id c) x) = notes x.
Proof. auto. Qed.

Lemma switchTab_rest t s :
  page (show (switchTab t) s) = page s
  /\ innerHTML (show (switchTab t) s) = innerHTML s
  /\ notes (show (switchTab t) s) = notes s.
Proof.
  rewrite (proj1 (switchTab_steps t s)). cbv zeta.
  destruct (String.eqb t "encrypt"); [|destruct (String.eqb t "decrypt")];
    repeat match goal with
    | |- context [show (classList_add ?id ?c) ?x] =>
        destruct (add_rest id c x) as [-> [-> ->]]
    | |- context [show (classList_remove ?id ?c) ?x] =>
        destruct (remove_rest id c x) as [-> [-> ->]]
    end; auto.
Qed.

Ltac class_steps := repeat first [rewrite contains_add | rewrite contains_remove].

Ltac by_cases :=
  simpl;
  try match goal with
      | |- context [contains ?s ?i ?k] => destruct (contains s i k)
      end;
  reflexivity.

Ltac split_id id :=
  repeat match goal with
  | |- context [String.eqb id ?k] =>
      destruct (String.eqb_spec id k) as [-> | ?]; [by_cases|]
  end.

Lemma switchTab_switched t s id c :
  contains (show (switchTab t) s) id c = switched t id c (contains s id c).
Proof.
  rewrite (proj1 (switchTab_steps t s)). cbv zeta.
  unfold switched, selected, tabs, pages, settingsPanels.
  destruct (String.eqb t "encrypt"); [|destruct (String.eqb t "decrypt")];
    class_steps;
    (destruct (String.eqb_spec c "active") as [-> | Hc1];
     [|destruct (String.eqb_spec c "hidden") as [-> | Hc2]]);
    simpl; rewrite ?andb_false_r, ?andb_true_r, ?orb_false_r;
    split_id id; by_cases.
Qed.

End ClassFacts.
Import ClassFacts.

Module TabFacts.

Lemma switched_last a b id c x : switched b id c (switched a id c x) = switched b id c x.
Proof.
  unfold switched. destruct (String.eqb c "active"); [|destruct (String.eqb c "hidden")].
  - destruct (index_of id tabs); [reflexivity|]. destruct (index_of id pages); reflexivity.
  - destruct (index_of id settingsPanels); reflexivity.
  - reflexivity.
Qed.

Lemma switchTab_last a b s id c :
  contains (show (switchTab b) (show (switchTab a) s)) id c =
  contains (show (switchTab b) s) id c.
Proof. rewrite !switchTab_switched. apply switched_last. Qed.

Lemma switchTab_other_class a s id c :
  c <> "active" -> c <> "hidden" ->
  contains (show (switchTab a) s) id c = contains s id c.
Proof.
  intros H1 H2. apply String.eqb_neq in H1, H2.
  rewrite switchTab_switched. unfold switched. now rewrite H1, H2.
Qed.

End TabFacts.
Import TabFacts.

(** ** The file lists *)

Module ListFacts.

Lemma map_sizes_from items t fs :
  fold_left (fun acc f => ((fst acc ++ [file_item f])%list, (snd acc + file_size f)%Z))
    fs (items, t)
  = ((items ++ map file_item fs)%list, (t + total_size fs)%Z).
Proof.
  revert items t. induction fs as [|f fs IH]; intros items t; simpl.
  - now rewrite app_nil_r, Z.add_0_r.
  - rewrite IH, <- app_assoc. simpl. f_equal. lia.
Qed.

Lemma map_sizes_eq fs : map_sizes fs 0 = (map file_item fs, total_size fs).
Proof. unfold map_sizes. now rewrite map_sizes_from. Qed.

Lemma on_page_step {A B : Type} (m : M A) (k : A -> W B) s a :
  snd (m (page s)) = Ok a -> wbind (on_page m) k s = k a (with_page (run m (page s)) s).
Proof.
  unfold wbind, on_page, run. destruct (m (page s)) as [p r]. simpl. now intros ->.
Qed.

(** What [renderFileList] makes of the screen, when [enableFn] returns. *)
Lemma renderFileList_steps fs listElId summaryElId enableFn s :
  snd (enableFn (page s)) = Ok tt ->
  let s1 := with_page (run enableFn (page s)) s in
  renderFileList fs listElId summaryElId enableFn s =
  (match fs with
   | [] => show (classList_add summaryElId "hidden") (show (set_innerHTML listElId "") s1)
   | _ =>
       show (on_page (set_textContent summaryElId
                        (decimal (Z.of_nat (List.length fs)) ++ " file(s) — Total size: "
                         ++ fmtBytes (total_size fs))))
         (show (set_innerHTML listElId (join "" (map file_item fs)))
            (show (classList_remove summaryElId "hidden") s1))
   end, Ok tt).
Proof.
  intros He s1. unfold renderFileList. rewrite (on_page_step _ _ _ tt He). fold s1.
  cbv zeta. rewrite map_sizes_eq.
  destruct fs as [|f fs]; reflexivity.
Qed.

Lemma includes_middle a b c d : includes (a ++ (b ++ c ++ d)) c = true.
Proof.
  rewrite <- append_assoc. apply includes_append.
Qed.

Lemma includes_join x l sub :
  In x l -> includes x sub = true -> includes (join "" l) sub = true.
Proof.
  intros Hin Hx. apply includes_true in Hx as [a [b ->]].
  induction l as [|y l IH]; [contradiction|].
  assert (E : join "" (y :: l) = y ++ join "" l).
  { destruct l; simpl; [now rewrite append_nil_r | reflexivity]. }
  rewrite E. destruct Hin as [-> | Hin].
  - rewrite !append_assoc. apply includes_append.
  - specialize (IH Hin). apply includes_true in IH as [u [v ->]].
    rewrite <- append_assoc. apply includes_append.
Qed.

Lemma file_item_name f : includes (file_item f) ("<h4>" ++ file_name f ++ "</h4>") = true.
Proof.
  unfold file_item.
  set (head := "<div class=" ++ quoted "file-item" ++ "><div class=" ++ quoted "file-details" ++ ">").
  replace ("<div class=" ++ quoted "file-item" ++ "><div class=" ++ quoted "file-details"
           ++ "><h4>" ++ file_name f ++ "</h4><p>" ++ fmtBytes (file_size f)
           ++ "</p></div></div>")
    with (head ++ ("<h4>" ++ file_name f ++ "</h4>")
          ++ ("<p>" ++ fmtBytes (file_size f) ++ "</p></div></div>")).
  - apply includes_append.
  - unfold head. simpl. rewrite !append_assoc. reflexivity.
Qed.

Lemma renderFileList_spec fs listElId summaryElId enableFn s :
  snd (enableFn (page s)) = Ok tt ->
  let s' := show (renderFileList fs listElId summaryElId enableFn) s in
  snd (renderFileList fs listElId summaryElId enableFn s) = Ok tt
  /\ innerHTML s' listElId = join "" (map file_item fs)
  /\ contains s' summaryElId "hidden" = negb (nonzero (List.length fs))
  /\ disabled (page s') = disabled (run enableFn (page s))
  /\ (fs <> [] ->
      shown (page s') summaryElId =
      decimal (Z.of_nat (List.length fs)) ++ " file(s) — Total size: "
      ++ fmtBytes (total_size fs))
  /\ (fs = [] -> page s' = run enableFn (page s))
  /\ (forall f, In f fs ->
        includes (innerHTML s' listElId) ("<h4>" ++ file_name f ++ "</h4>") = true).
Proof.
  intros He s'. pose proof (renderFileList_steps fs listElId summaryElId enableFn s He) as E.
  cbv zeta in E. unfold s', show. rewrite E. cbn [fst snd].
  assert (Hh : innerHTML
                 match fs with
                 | [] => show (classList_add summaryElId "hidden")
                           (show (set_innerHTML listElId "")
                              (with_page (run enableFn (page s)) s))
                 | _ :: _ =>
                     show (on_page (set_textContent summaryElId
                             (decimal (Z.of_nat (List.length fs)) ++ " file(s) — Total size: "
                              ++ fmtBytes (total_size fs))))
                       (show (set_innerHTML listElId (join "" (map file_item fs)))
                          (show (classList_remove summaryElId "hidden")
                             (with_page (run enableFn (page s)) s)))
                 end listElId = join "" (map file_item fs)).
  { destruct fs as [|f fs].
    - destruct (add_rest summaryElId "hidden"
                  (show (set_innerHTML listElId "") (with_page (run enableFn (page s)) s)))
        as [_ [-> _]].
      cbv [show set_innerHTML with_innerHTML innerHTML fst upd]. now rewrite String.eqb_refl.
    - cbv [show on_page set_textContent set_innerHTML classList_remove with_innerHTML
           with_page with_classList innerHTML fst upd].
      now rewrite String.eqb_refl. }
  split; [reflexivity|]. split; [exact Hh|]. split; [|split; [|split; [|split]]].
  - destruct fs as [|f fs].
    + rewrite contains_add, !String.eqb_refl. apply orb_true_r.
    + change (contains (show (classList_remove summaryElId "hidden")
                          (with_page (run enableFn (page s)) s)) summaryElId "hidden" = false).
      rewrite contains_remove, !String.eqb_refl. apply andb_false_r.
  - destruct fs as [|f fs].
    + now destruct (add_rest summaryElId "hidden"
                      (show (set_innerHTML listElId "") (with_page (run enableFn (page s)) s)))
        as [-> _].
    + reflexivity.
  - intros Hne. destruct fs as [|f fs]; [contradiction|].
    cbv [shown show on_page set_textContent with_page page fst childNodes with_childNodes upd].
    rewrite String.eqb_refl.
    destruct (decimal _ ++ _) eqn:Ed; [|simpl; now rewrite append_nil_r].
    exfalso. apply append_eq_nil in Ed as [_ Ed]. discriminate.
  - intros ->.
    now destruct (add_rest summaryElId "hidden"
                    (show (set_innerHTML listElId "") (with_page (run enableFn (page s)) s)))
      as [-> _].
  - intros f Hf. rewrite Hh.
    apply (includes_join (file_item f)); [now apply in_map | apply file_item_name].
Qed.

(** What [renderFileList] leaves alone. *)
Lemma renderFileList_frame fs listElId summaryElId enableFn s :
  snd (enableFn (page s)) = Ok tt ->
  let s' := show (renderFileList fs listElId summaryElId enableFn) s in
  let p1 := run enableFn (page s) in
  chosenFilesEnc (page s') = chosenFilesEnc p1
  /\ chosenFilesCmp (page s') = chosenFilesCmp p1
  /\ value (page s') = value p1
  /\ files (page s') = files p1
  /\ notes s' = notes s
  /\ (forall id c, id <> summaryElId -> contains s' id c = contains s id c).
Proof.
  intros He s' p1. pose proof (renderFileList_steps fs listElId summaryElId enableFn s He) as E.
  cbv zeta in E. unfold s', show. rewrite E. cbn [fst]. fold p1.
  destruct fs as [|f fs].
  - destruct (add_rest summaryElId "hidden" (show (set_innerHTML listElId "") (with_page p1 s)))
      as [-> [_ ->]].
    repeat split; try reflexivity.
    intros id c Hid. rewrite contains_add.
    destruct (String.eqb_spec id summaryElId); [contradiction|]. simpl.
    now rewrite orb_false_r.
  - repeat split; try reflexivity.
    intros id c Hid.
    change (contains (show (classList_remove summaryElId "hidden") (with_page p1 s)) id c
            = contains s id c).
    rewrite contains_remove.
    destruct (String.eqb_spec id summaryElId); [contradiction|]. simpl.
    now rewrite andb_true_r.
Qed.

End ListFacts.
Import ListFacts.

Module DropFacts.

Lemma enable_of_returns w p : snd (enable_of w p) = Ok tt.
Proof. destruct w; reflexivity. Qed.

(** The part the drop and the change handlers share: the files picked
    become the files chosen, and the list is rendered. *)
Lemma chosen_rendered w fs s :
  packaging w ->
  let s1 := with_page (match w with
                       | Compare => with_chosenFilesCmp fs (page s)
                       | _ => with_chosenFilesEnc fs (page s)
                       end) s in
  let s' := show (renderFileList fs (list_of w) (summary_of w) (enable_of w)) s1 in
  snd (renderFileList fs (list_of w) (summary_of w) (enable_of w) s1) = Ok tt
  /\ selection_of w (page s') = fs
  /\ disabled (page s') (button_of w) =
     negb (nonzero (List.length fs) && nonempty (trim (value (page s) (password_of w))))
  /\ innerHTML s' (list_of w) = join "" (map file_item fs)
  /\ contains s' (summary_of w) "hidden" = negb (nonzero (List.length fs))
  /\ uploads (request_of w (page s')) = fs
  /\ (forall w', w' <> w -> selection_of w' (page s') = selection_of w' (page s))
  /\ notes s' = notes s
  /\ (forall id c, id <> summary_of w -> contains s' id c = contains s id c).
Proof.
  intros Hw s1 s'.
  assert (He : snd (enable_of w (page s1)) = Ok tt) by apply enable_of_returns.
  destruct (renderFileList_spec fs (list_of w) (summary_of w) (enable_of w) s1 He)
    as [H1 [H2 [H3 [H4 _]]]].
  destruct (renderFileList_frame fs (list_of w) (summary_of w) (enable_of w) s1 He)
    as [K1 [K2 [K3 [K4 [K5 K6]]]]].
  fold s' in H2, H3, H4, K1, K2, K3, K4, K5, K6.
  assert (Hsel : selection_of w (page s') = fs).
  { destruct Hw as [-> | ->]; simpl; [rewrite K1 | rewrite K2]; reflexivity. }
  split; [exact H1|]. split; [exact Hsel|]. split; [|split; [exact H2|split; [exact H3|]]].
  - rewrite H4. rewrite (enable_of_disabled w (page s1)).
    destruct Hw as [-> | ->]; reflexivity.
  - split; [|split; [|split; [exact K5 | exact K6]]].
    + destruct Hw as [-> | ->]; unfold uploads, request_of, formData_of, req_body,
        encrypt_formData, compare_formData; simpl; rewrite ?K1, ?K2; simpl;
        clear; induction fs as [|f fs IH]; simpl; congruence.
    + intros w' Hw'. destruct Hw as [-> | ->]; destruct w'; try contradiction; simpl;
        rewrite ?K1, ?K2, ?K4; reflexivity.
Qed.

Lemma ondrop_steps w e s :
  packaging w ->
  ondrop_of w e s =
  renderFileList (Array_from (dataTransfer_files e)) (list_of w) (summary_of w) (enable_of w)
    (with_page (match w with
                | Compare => with_chosenFilesCmp (Array_from (dataTransfer_files e))
                               (page (show (classList_remove (zone_of w) "drag-over")
                                        (note (DefaultPrevented "drop") s)))
                | _ => with_chosenFilesEnc (Array_from (dataTransfer_files e))
                         (page (show (classList_remove (zone_of w) "drag-over")
                                  (note (DefaultPrevented "drop") s)))
                end)
       (show (classList_remove (zone_of w) "drag-over") (note (DefaultPrevented "drop") s))).
Proof. intros [-> | ->]; reflexivity. Qed.

Lemma onchange_steps w s :
  packaging w ->
  onchange_of w s =
  renderFileList (files (page s) (input_of w)) (list_of w) (summary_of w) (enable_of w)
    (with_page (match w with
                | Compare => with_chosenFilesCmp (files (page s) (input_of w)) (page s)
                | _ => with_chosenFilesEnc (files (page s) (input_of w)) (page s)
                end) s).
Proof. intros [-> | ->]; reflexivity. Qed.

End DropFacts.
Import DropFacts.

(** ** The settings and the load *)

Module SettingsFacts.

Lemma shown_set id text p : shown (run (set_textContent id text) p) id = text.
Proof.
  cbv [shown run set_textContent with_childNodes childNodes fst upd].
  rewrite String.eqb_refl. destruct text; simpl; [reflexivity | now rewrite append_nil_r].
Qed.

Lemma shown_set_other id text p id' :
  id' <> id -> shown (run (set_textContent id text) p) id' = shown p id'.
Proof.
  intros H. cbv [shown run set_textContent with_childNodes childNodes fst upd].
  destruct (String.eqb_spec id' id); [contradiction | reflexivity].
Qed.

Ltac settled_leaf :=
  eexists; split; [reflexivity|]; repeat split.

Lemma fetchAutoSettings_run settled s :
  exists s',
    fetchAutoSettings settled s = (s', Ok tt)
    /\ trace (page s') = (trace (page s) ++ [Fetched (mkRequest "/api/settings" "GET" [])])%list
    /\ classList s' = classList s
    /\ innerHTML s' = innerHTML s
    /\ comparisonChart (page s') = comparisonChart (page s)
    /\ disabled (page s') = disabled (page s)
    /\ shown (page s') "footer" = shown (page s) "footer"
    /\ match settings_texts settled with
       | Ok (wt, ct) => labels (page s') = [wt; ct; wt; ct] /\ notes s' = notes s
       | Throw e =>
           labels (page s') = ["4 (Default)"; "8 (Default)"; "4 (Default)"; "8 (Default)"]
           /\ notes s' = (notes s ++ [ConsoleError "Failed to load auto-settings" e])%list
       end.
Proof.
  unfold fetchAutoSettings, settings_texts, try_catch.
  unfold wbind at 1. unfold on_page at 1, fetch_get.
  destruct settled as [r|e]; cbn [rbind]; [|settled_leaf].
  unfold wbind at 1. destruct (ok r); cbn [negb wthrow wret]; [|settled_leaf].
  unfold wbind at 1, wlift at 1.
  destruct (json_body r) as [settings|e]; cbn [rbind]; [|settled_leaf].
  unfold wbind at 1, wlift at 1.
  destruct (get_prop settings "workers") as [workers|e]; cbn [rbind]; [|settled_leaf].
  unfold assign_textContent. unfold wbind at 1. unfold wbind at 1, wlift at 1.
  destruct (nullable_text workers) as [wt|e] eqn:Ew; cbn [rbind]; [|settled_leaf].
  unfold on_page at 1. cbn [set_textContent].
  unfold wbind at 1, wlift at 1.
  destruct (get_prop settings "chunk_mb") as [chunk_mb|e]; cbn [rbind]; [|settled_leaf].
  unfold wbind at 1. unfold wbind at 1, wlift at 1.
  destruct (nullable_text chunk_mb) as [ct|e] eqn:Ec; cbn [rbind]; [|settled_leaf].
  cbv [wbind wlift on_page set_textContent]. rewrite Ew, Ec. cbv iota beta. settled_leaf.
  unfold labels, shown. cbn [map page with_page childNodes with_childNodes upd].
  simpl String.eqb. cbv iota.
  destruct wt, ct; simpl; rewrite ?append_nil_r; reflexivity.
Qed.

Lemma fetchAutoSettings_spec settled s :
  let s' := show (fetchAutoSettings settled) s in
  snd (fetchAutoSettings settled s) = Ok tt
  /\ trace (page s') = (trace (page s) ++ [Fetched (mkRequest "/api/settings" "GET" [])])%list
  /\ classList s' = classList s
  /\ innerHTML s' = innerHTML s
  /\ comparisonChart (page s') = comparisonChart (page s)
  /\ disabled (page s') = disabled (page s)
  /\ shown (page s') "footer" = shown (page s) "footer"
  /\ match settings_texts settled with
     | Ok (wt, ct) => labels (page s') = [wt; ct; wt; ct] /\ notes s' = notes s
     | Throw e =>
         labels (page s') = ["4 (Default)"; "8 (Default)"; "4 (Default)"; "8 (Default)"]
         /\ notes s' = (notes s ++ [ConsoleError "Failed to load auto-settings" e])%list
     end.
Proof.
  destruct (fetchAutoSettings_run settled s) as [s1 [E H]].
  unfold show. rewrite E. cbn [fst snd]. split; [reflexivity | exact H].
Qed.

Lemma window_onload_steps settled s :
  window_onload settled s =
  fetchAutoSettings settled
    (with_page (run (setStatus "Ready") (page (show (switchTab "encrypt")
                                                (with_page (run initChart (page s)) s))))
       (show (switchTab "encrypt") (with_page (run initChart (page s)) s))).
Proof.
  unfold window_onload.
  rewrite (on_page_step initChart _ s tt eq_refl).
  rewrite wbind_step by apply switchTab_returns.
  now rewrite (on_page_step (setStatus "Ready") _ _ tt eq_refl).
Qed.

(** The load, from the screen [s2] that [switchTab] leaves. *)
Lemma onload_tail settled p1 s2 :
  page s2 = p1 ->
  let s3 := with_page (run (setStatus "Ready") (page s2)) s2 in
  let s' := fst (fetchAutoSettings settled s3) in
  snd (fetchAutoSettings settled s3) = Ok tt
  /\ (forall id c, contains s' id c = contains s2 id c)
  /\ shown (page s') "footer" = "Status: Ready"
  /\ comparisonChart (page s') = comparisonChart p1
  /\ disabled (page s') = disabled p1
  /\ trace (page s') =
     (trace p1 ++ [Status "Ready"; Fetched (mkRequest "/api/settings" "GET" [])])%list.
Proof.
  intros K1 s3 s'.
  destruct (fetchAutoSettings_spec settled s3) as [H1 [H2 [H3 [H4 [H5 [H6 [H7 _]]]]]]].
  unfold show in H2, H3, H4, H5, H6, H7. fold s' in H2, H3, H4, H5, H6, H7.
  assert (P3 : page s3 = run (setStatus "Ready") p1).
  { unfold s3. cbn [page with_page]. now rewrite K1. }
  rewrite P3 in *.
  split; [exact H1|]. split.
  { intros id c. unfold contains. now rewrite H3. }
  rewrite H7, H5, H6, H2. repeat split.
  change (trace (run (setStatus "Ready") p1)) with (trace p1 ++ [Status "Ready"])%list.
  now rewrite <- app_assoc.
Qed.

End SettingsFacts.
Import SettingsFacts.

(** ** The highlight of the drop zones *)

Module DragFacts.

Lemma ondragover_steps w s :
  packaging w ->
  ondragover_of w s =
  classList_add (zone_of w) "drag-over" (note (DefaultPrevented "dragover") s).
Proof. intros [-> | ->]; reflexivity. Qed.

Lemma ondragleave_steps w s :
  packaging w -> ondragleave_of w s = classList_remove (zone_of w) "drag-over" s.
Proof. intros [-> | ->]; reflexivity. Qed.

End DragFacts.
Import DragFacts.

(** ** The properties *)

(** X1. Once the function that enables the trigger of a workflow has run
    ([enableEncrypt], [enableCompare], [enableDecrypt]), the trigger is
    disabled exactly when no file is chosen or the password is white
    space throughout (the empty password included); the function leaves
    every other trigger as it was. *)
Theorem X1_enable (w : Workflow) (p : Page) :
  (disabled (run (enable_of w) p) (button_of w) = true <->
   selection_of w p = [] \/ all_whitespace (value p (password_of w)) = true)
  /\ (forall id, id <> button_of w ->
        disabled (run (enable_of w) p) id = disabled p id).
Proof.
  split.
  - rewrite enable_of_disabled, <- trim_nil_iff. unfold nonzero, nonempty.
    destruct (selection_of w p) as [|f fs]; simpl.
    + split; auto.
    + destruct (String.eqb_spec (trim (value p (password_of w))) "") as [E | E]; simpl.
      * split; auto.
      * split; [discriminate | intros [H | H]; [discriminate | contradiction]].
  - intros id Hid. destruct w; cbv [run enable_of enableEncrypt enableCompare enableDecrypt
      bind read set_disabled fst emit with_disabled disabled upd button_of] in *;
      match goal with |- context [String.eqb id ?b] => destruct (String.eqb_spec id b) end;
      congruence.
Qed.

(** X2. When the request of a handler fails before anything is made of
    it (the network rejects it, or the response is not a success), the
    handler logs its start line and one error line, shows the message of
    that line in the footer behind [Status: Error: ], logs no link,
    creates no object URL, and leaves its trigger enabled. *)
Theorem X2_failure (w : Workflow) (settled : result Response) (e : Exn) (p : Page) :
  failure_of settled = Some e ->
  logged w settled p = [start_line w; "❌ ERROR: " ++ message e]
  /\ shown (run (onclick w settled) p) "footer" = "Status: Error: " ++ message e
  /\ links_of (tab_of w) (events_of (onclick w settled) p) = []
  /\ objectURLs (run (onclick w settled) p) = objectURLs p
  /\ disabled (run (onclick w settled) p) (button_of w) = false.
Proof.
  intros H. destruct (onclick_failure w settled e p H) as [Hq Hev].
  unfold logged. rewrite Hev. rewrite Hq. split; [apply failure_lines|].
  split; [exact (report_footer (tab_of w) e
                   (emit (Fetched (request_of w p)) (run (prologue w) p)))|].
  split; [destruct w; reflexivity|].
  split; [destruct w; reflexivity|].
  apply set_disabled_disabled.
Qed.

Lemma X2_failure_witness :
  failure_of (Throw (TypeError "Failed to fetch")) = Some (TypeError "Failed to fetch")
  /\ logged Encrypt (Throw (TypeError "Failed to fetch")) blank =
     [start_line Encrypt; "❌ ERROR: Failed to fetch"]
  /\ shown (run (onclick Encrypt (Throw (TypeError "Failed to fetch"))) blank) "footer"
     = "Status: Error: Failed to fetch".
Proof.
  split; [reflexivity|].
  destruct (X2_failure Encrypt (Throw (TypeError "Failed to fetch")) _ blank eq_refl)
    as [H1 [H2 _]].
  split; [exact H1 | exact H2].
Defined.

(** X3. The encrypt and the compare handler log their lines of success
    before they read the body of the response: when the body of a success
    cannot be read, those lines stay in the log, the error line follows
    them, the footer shows the error, and no link and no object URL is
    made. *)
Theorem X3_body_unread (w : Workflow) (r : Response) (e : Exn) (p : Page) :
  packaging w -> ok r = true -> blob_body r = Throw e ->
  logged w (Ok r) p =
    (start_line w :: announced w r ++ [("❌ ERROR: " ++ message e)%string])%list
  /\ links_of (tab_of w) (events_of (onclick w (Ok r)) p) = []
  /\ objectURLs (run (onclick w (Ok r)) p) = objectURLs p
  /\ shown (run (onclick w (Ok r)) p) "footer" = "Status: Error: " ++ message e.
Proof.
  intros Hw Hok Hblob.
  set (p2 := emit (Fetched (request_of w p)) (run (prologue w) p)).
  destruct (body_unread w r e p2 Hw Hok Hblob) as [p3 [evs [Hrun [Ht [Hl [Hk Hres]]]]]].
  assert (Ht2 : trace p2 = (trace (run (prologue w) p) ++ [Fetched (request_of w p)])%list)
    by reflexivity.
  rewrite Ht2, <- app_assoc in Ht.
  destruct (onclick_thrown w r p p3 e evs Hrun Ht) as [Hp Hev].
  unfold logged. rewrite Hev, Hp. split; [|split; [|split]].
  - change (SetDisabled (button_of w) true :: prologue_events w ++ ?l)%list
      with ((SetDisabled (button_of w) true :: prologue_events w) ++ l)%list.
    rewrite lines_of_app.
    change (Fetched (request_of w p) :: evs ++ ?l)%list
      with ([Fetched (request_of w p)] ++ evs ++ l)%list.
    rewrite !lines_of_app, Hl.
    destruct Hw as [-> | ->]; simpl; rewrite ?String.eqb_refl; reflexivity.
  - change (SetDisabled (button_of w) true :: prologue_events w ++ ?l)%list
      with ((SetDisabled (button_of w) true :: prologue_events w) ++ l)%list.
    rewrite links_of_app.
    change (Fetched (request_of w p) :: evs ++ ?l)%list
      with ([Fetched (request_of w p)] ++ evs ++ l)%list.
    rewrite !links_of_app, Hk.
    destruct Hw as [-> | ->]; reflexivity.
  - unfold resources in Hres. injection Hres as Hu _ _ _.
    change (objectURLs p3 = objectURLs p). rewrite Hu.
    destruct (prologue_keeps w p) as [Hu2 _]. exact Hu2.
  - exact (report_footer (tab_of w) e p3).
Qed.

Lemma X3_body_unread_witness :
  packaging Encrypt /\ ok truncated = true
  /\ blob_body truncated = Throw (TypeError "Failed to fetch")
  /\ logged Encrypt (Ok truncated) blank =
     [ start_line Encrypt; "✅ Success! Run complete in 1.2500s.";
       "❌ ERROR: Failed to fetch" ].
Proof.
  split; [now left|]. split; [reflexivity|]. split; [reflexivity|].
  exact (proj1 (X3_body_unread Encrypt truncated _ blank (or_introl eq_refl) eq_refl eq_refl)).
Defined.

(** X4. A success of the decrypt endpoint whose list of files is missing,
    falsy or empty is no error: the handler logs that no files were
    found, logs no link, and the footer reads [Status: Decryption
    complete.]. *)
Theorem X4_no_members (r : Response) (data : Json) (members : option Json) (p : Page) :
  ok r = true -> json_body r = Ok data -> get_prop data "files" = Ok members ->
  truthy members = false \/ members = Some (JArr []) ->
  logged Decrypt (Ok r) p =
    [ start_line Decrypt;
      "✅ Decryption complete, but no files were found in the package." ]
  /\ links_of "dec" (events_of (onclick Decrypt (Ok r)) p) = []
  /\ shown (run (onclick Decrypt (Ok r)) p) "footer" = "Status: Decryption complete.".
Proof.
  intros Hok Hjson Hfiles Hm.
  set (p2 := emit (Fetched (request_of Decrypt p)) (run (prologue Decrypt) p)).
  pose proof (decrypt_response_none r data members p2 Hok Hjson Hfiles Hm) as Hrun.
  set (line := "✅ Decryption complete, but no files were found in the package.") in *.
  assert (Ht : trace (run (setStatus "Decryption complete.") (run (log "dec" line) p2)) =
               (trace (run (prologue Decrypt) p)
                ++ Fetched (request_of Decrypt p)
                   :: [Logged "dec" line; Status "Decryption complete."])%list).
  { rewrite setStatus_trace, log_trace. unfold p2. simpl trace.
    now rewrite <- !app_assoc. }
  destruct (onclick_handled Decrypt r p _ _ Hrun Ht) as [Hp Hev].
  unfold logged. rewrite Hev, Hp. split; [reflexivity|]. split; [reflexivity|].
  rewrite set_disabled_shown. apply setStatus_footer.
Qed.

Lemma X4_no_members_witness :
  ok emptied = true
  /\ logged Decrypt (Ok emptied) blank =
     [ start_line Decrypt;
       "✅ Decryption complete, but no files were found in the package." ].
Proof.
  split; [reflexivity|].
  exact (proj1 (X4_no_members emptied _ (Some (JArr [])) blank eq_refl eq_refl eq_refl
                  (or_intror eq_refl))).
Defined.

(** X5. On a success of the decrypt endpoint that lists member names, the
    links are those of the members under whatever the session identifier
    converts to as a string: the handler does not check that there is
    one, and without one the links point below
    [/api/download_decrypted/undefined/]. One line is logged, with the
    number of members. *)
Theorem X5_session_links (r : Response) (data : Json) (v : option Json) (sid : string)
    (names : list string) (p : Page) :
  ok r = true -> json_body r = Ok data ->
  get_prop data "files" = Ok (Some (JArr (map JStr names))) ->
  get_prop data "session_id" = Ok v -> ToString_opt v = Ok sid ->
  names <> [] ->
  links_of "dec" (events_of (onclick Decrypt (Ok r)) p) = map (member_link sid) names
  /\ logged Decrypt (Ok r) p =
     [ start_line Decrypt;
       "✅ Success! Server decrypted " ++ decimal (Z.of_nat (List.length names))
       ++ " file(s):" ]
  /\ (v = None -> sid = "undefined").
Proof.
  intros Hok Hjson Hfiles Hsid Hstr Hne.
  set (p2 := emit (Fetched (request_of Decrypt p)) (run (prologue Decrypt) p)).
  destruct (decrypt_response_named r data v sid names p2 Hok Hjson Hfiles Hsid Hstr Hne)
    as [p3 [Hrun Ht]].
  assert (Ht2 : trace p2 = (trace (run (prologue Decrypt) p)
                            ++ [Fetched (request_of Decrypt p)])%list) by reflexivity.
  rewrite Ht2, <- app_assoc in Ht.
  destruct (onclick_handled Decrypt r p p3 _ Hrun Ht) as [_ Hev].
  unfold logged. rewrite Hev. split; [|split].
  - simpl. rewrite links_of_app, links_of_app, links_of_members. simpl.
    now rewrite !app_nil_r.
  - assert (E : lines_of "dec" (map (fun f => LoggedHTML "dec" (member_link sid f)) names) = []).
    { clear. induction names; simpl; auto. }
    simpl. rewrite !lines_of_app, E. reflexivity.
  - intros ->. simpl in Hstr. now injection Hstr.
Qed.

Lemma X5_session_links_witness :
  ok unnamed = true
  /\ links_of "dec" (events_of (onclick Decrypt (Ok unnamed)) blank) =
     [member_link "undefined" "a.txt"]
  /\ href (member_link "undefined" "a.txt") =
     Location "/api/download_decrypted/undefined/a.txt".
Proof.
  split; [reflexivity|]. split; [|reflexivity].
  refine (proj1 (X5_session_links unnamed _ None "undefined" ["a.txt"] blank
                   eq_refl eq_refl eq_refl eq_refl eq_refl _)).
  discriminate.
Defined.

(** X6. A success status does not protect the decrypt handler from its
    body: when the body does not parse as JSON, or reading [files] off it
    throws (the body is [null]), the handler logs one error line with the
    message of that exception, logs no link, and shows the message in the
    footer. *)
Theorem X6_unusable_body (r : Response) (e : Exn) (p : Page) :
  ok r = true ->
  json_body r = Throw e
  \/ (exists data, json_body r = Ok data /\ get_prop data "files" = Throw e) ->
  logged Decrypt (Ok r) p = [start_line Decrypt; "❌ ERROR: " ++ message e]
  /\ links_of "dec" (events_of (onclick Decrypt (Ok r)) p) = []
  /\ shown (run (onclick Decrypt (Ok r)) p) "footer" = "Status: Error: " ++ message e.
Proof.
  intros Hok Hbody.
  set (p2 := emit (Fetched (request_of Decrypt p)) (run (prologue Decrypt) p)).
  assert (Hrun : response_of Decrypt r p2 = (p2, Throw e)).
  { unfold response_of, decrypt_response.
    unfold bind at 1. rewrite check_ok_eq, Hok.
    unfold bind at 1, await, lift at 1.
    destruct Hbody as [-> | [data [-> Hf]]]; [reflexivity|].
    unfold bind at 1, lift at 1. now rewrite Hf. }
  assert (Ht : trace p2 = (trace (run (prologue Decrypt) p)
                           ++ Fetched (request_of Decrypt p) :: [])%list) by reflexivity.
  destruct (onclick_thrown Decrypt r p p2 e [] Hrun Ht) as [Hp Hev].
  unfold logged. rewrite Hev, Hp. split; [reflexivity|]. split; [reflexivity|].
  exact (report_footer "dec" e p2).
Qed.

Lemma X6_unusable_body_witness :
  ok garbage = true
  /\ logged Decrypt (Ok garbage) blank =
     [start_line Decrypt; "❌ ERROR: Unexpected token < in JSON at position 0"].
Proof.
  split; [reflexivity|].
  exact (proj1 (X6_unusable_body garbage _ blank eq_refl (or_introl eq_refl))).
Defined.

(** X7. [log] rewrites the pane as one text node that holds all its text
    and the new line; [logHTML] appends the link to the children of the
    pane. A line logged after a link therefore removes the link and keeps
    its text. *)
Theorem X7_log_flattens (tab m : string) (a : Anchor) (p : Page) :
  childNodes (run (log tab m) p) ("log-" ++ tab) =
    [TextNode (shown p ("log-" ++ tab) ++ m ++ LF)]
  /\ childNodes (run (logHTML tab a) p) ("log-" ++ tab) =
     (childNodes p ("log-" ++ tab) ++ [AnchorNode a])%list
  /\ childNodes (run (log tab m) (run (logHTML tab a) p)) ("log-" ++ tab) =
     [TextNode (shown p ("log-" ++ tab) ++ textContent a ++ m ++ LF)].
Proof.
  split; [apply log_childNodes|]. split; [apply logHTML_childNodes|].
  rewrite log_childNodes. unfold shown. rewrite logHTML_childNodes, text_of_app. simpl.
  now rewrite !append_assoc.
Qed.

(** X8. The log pane of a workflow is an append-only transcript: whatever
    the request comes to, a run of the handler leaves the text of the pane
    as it was, followed by the lines and the texts of the links the run
    logged on it, in order. *)
Theorem X8_transcript (w : Workflow) (settled : result Response) (p : Page) :
  shown (run (onclick w settled) p) (pane_of w) =
  shown p (pane_of w) ++ rendering (tab_of w) (events_of (onclick w settled) p).
Proof.
  destruct (transcribed_onclick w settled p) as [evs [Ht [Hs _]]].
  now rewrite (events_of_trace _ _ _ Ht).
Qed.

(** X9. The links that earlier runs left in the pane of a workflow do not
    survive a click on its trigger: every link that is in the pane when
    the handler returns is one that this run logged. *)
Theorem X9_earlier_links_gone (w : Workflow) (settled : result Response) (p : Page)
    (a : Anchor) :
  In (AnchorNode a) (childNodes (run (onclick w settled) p) (pane_of w)) ->
  In a (links_of (tab_of w) (events_of (onclick w settled) p)).
Proof.
  intros Ha. destruct (transcribed_after_prologue w settled p) as [evs [Ht [_ Hl]]].
  rewrite prologue_trace, <- app_assoc in Ht.
  rewrite (events_of_trace _ _ _ Ht), links_of_app.
  apply in_or_app. right.
  destruct (Hl a Ha) as [H | H]; [|assumption].
  fold (pane_of w) in H. rewrite prologue_pane in H. destruct H as [H | []]. discriminate.
Qed.

Lemma X9_earlier_links_gone_witness :
  In (AnchorNode (package_link Encrypt packaged 0))
     (childNodes (run (onclick Encrypt (Ok packaged)) blank) (pane_of Encrypt))
  /\ In (package_link Encrypt packaged 0)
        (links_of (tab_of Encrypt) (events_of (onclick Encrypt (Ok packaged)) blank)).
Proof.
  assert (H : In (AnchorNode (package_link Encrypt packaged 0))
                (childNodes (run (onclick Encrypt (Ok packaged)) blank) (pane_of Encrypt))).
  { vm_compute. right. left. reflexivity. }
  split; [exact H|].
  exact (X9_earlier_links_gone Encrypt (Ok packaged) blank _ H).
Defined.

(** X10. The workflows are apart: a run of the handler of one workflow,
    whatever its request comes to, changes no trigger but its own, no
    element but its own pane and the footer, neither the files chosen nor
    the values typed, and (the compare handler apart) not the chart. *)
Theorem X10_apart (w : Workflow) (settled : result Response) (p : Page) :
  apart w p (run (onclick w settled) p).
Proof. apply apart_onclick. Qed.

(** X11. The chart after a click: the encrypt and the decrypt handler
    leave it alone; the compare handler resets both bars to zero before
    the request, so that a comparison that fails leaves them at zero, and
    draws the two times of the headers as soon as the response is a
    success, whether or not its body can then be read. *)
Theorem X11_chart (w : Workflow) (settled : result Response) (p : Page) :
  (w <> Compare ->
   comparisonChart (run (onclick w settled) p) = comparisonChart p)
  /\ (forall e, failure_of settled = Some e ->
        comparisonChart (run (onclick Compare settled) p) = Some (zero, zero))
  /\ (forall r, settled = Ok r -> ok r = true ->
        comparisonChart (run (onclick Compare settled) p) =
        Some (header_time r "X-Time-FIFO", header_time r "X-Time-AI")).
Proof.
  split; [|split].
  - intros Hw. destruct (apart_onclick w settled p) as [_ [_ [_ [_ [_ [_ H]]]]]]. auto.
  - intros e He. destruct (onclick_failure Compare settled e p He) as [Hq _].
    rewrite Hq. reflexivity.
  - intros r -> Hok. now apply compare_chart.
Qed.

(** X12. The request a handler sends uploads the files chosen, in order
    (the decrypt handler the first file of its input only), with the
    trimmed password as its one password; when the enable function left
    the trigger enabled, the request uploads at least one file and its
    password is not empty. A decrypt request made with no file chosen
    carries the text [undefined] in place of the file. *)
Theorem X12_request (w : Workflow) (p : Page) :
  uploads (request_of w p) =
    match w with
    | Decrypt => firstn 1 (selection_of w p)
    | _ => selection_of w p
    end
  /\ texts "password" (request_of w p) = [trim (value p (password_of w))]
  /\ request_of w (run (enable_of w) p) = request_of w p
  /\ (disabled (run (enable_of w) p) (button_of w) = false ->
      uploads (request_of w p) <> [] /\ texts "password" (request_of w p) <> [""])
  /\ (selection_of Decrypt p = [] ->
      req_body (request_of Decrypt p) =
      [("file", FText "undefined"); ("password", FText (trim (value p "pwDec")))]).
Proof.
  assert (Hmap : forall fs : list File,
            flat_map (fun e : string * FormValue =>
                        match snd e with FFile f _ => [f] | FText _ => [] end)
              (map (fun f => ("files", FFile f (file_name f))) fs) = fs).
  { induction fs as [|f fs IH]; simpl; [reflexivity | now rewrite IH]. }
  assert (Htxt : forall name (fs : list File),
            flat_map (fun e : string * FormValue =>
                        match snd e with
                        | FText s => if String.eqb (fst e) name then [s] else []
                        | FFile _ _ => []
                        end)
              (map (fun f => ("files", FFile f (file_name f))) fs) = []).
  { intros name. induction fs as [|f fs IH]; simpl; [reflexivity | now rewrite IH]. }
  assert (H1 : uploads (request_of w p) =
               match w with
               | Decrypt => firstn 1 (selection_of w p)
               | _ => selection_of w p
               end).
  { destruct w; unfold uploads, request_of, formData_of, req_body; simpl.
    - apply Hmap.
    - apply Hmap.
    - destruct (files p "pkg"); reflexivity. }
  clear Hmap.
  assert (H2 : texts "password" (request_of w p) = [trim (value p (password_of w))]).
  { destruct w; unfold texts, request_of, formData_of, req_body; simpl.
    - now rewrite Htxt.
    - now rewrite Htxt.
    - destruct (files p "pkg"); reflexivity. }
  split; [exact H1|]. split; [exact H2|]. split; [destruct w; reflexivity|]. split.
  - rewrite enable_of_disabled, H1, H2. unfold nonzero, nonempty. intros H.
    apply negb_false_iff, andb_true_iff in H as [Hn Hs].
    apply negb_true_iff in Hs. apply String.eqb_neq in Hs.
    split; [|congruence].
    destruct (selection_of w p) as [|f fs]; [discriminate|]. destruct w; discriminate.
  - intros H. simpl in H. unfold request_of, formData_of, decrypt_formData, req_body.
    now rewrite H.
Qed.

(** X13. The handlers never release an object URL: over any sequence of
    clicks, with whatever outcomes, the timers and the clock stay as they
    were and every object URL alive before is alive after; a sequence of
    successful encryptions and comparisons leaves one more object URL per
    click. *)
Theorem X13_hoards (clicks : list (Workflow * result Response)) (p : Page) :
  hoards p (run (session clicks) p)
  /\ (forall u, live p u = true -> live (run (session clicks) p) u = true)
  /\ (Forall (fun c => packaging (fst c)
                       /\ exists r b, snd c = Ok r /\ ok r = true /\ blob_body r = Ok b) clicks ->
      List.length (objectURLs (run (session clicks) p)) =
      List.length clicks + List.length (objectURLs p)).
Proof.
  split; [apply hoards_session|]. split.
  - intros u. apply hoards_live, hoards_session.
  - intros H. revert p. induction H as [|[w s] l [Hw [r [b [Hs [Hok Hb]]]]] Hl IH]; intros p.
    + reflexivity.
    + simpl in Hw, Hs. subst s.
      destruct (package_run w r b p Hw Hok Hb) as [_ [Hu _]].
      destruct (onclick_run w (Ok r) p) as [_ [_ [_ [_ Hr]]]].
      unfold session, run in *. simpl forEach. unfold bind.
      destruct (onclick w (Ok r) p) as [p1 r1]. simpl in Hr, Hu. subst r1.
      rewrite IH, Hu. simpl. lia.
Qed.

(** X14. The name under which a package is offered for download (the
    [download] attribute of the link) is never empty and never holds a
    double quote, whatever the content-disposition header holds. *)
Theorem X14_package_name (w : Workflow) (r : Response) (id : nat) :
  download (package_link w r id) = package_name w r
  /\ package_name w r <> ""
  /\ includes (package_name w r) (String dquote "") = false.
Proof.
  split; [destruct w; reflexivity|].
  unfold package_name.
  destruct (disposition_filename_cases (headers_get r "content-disposition") (fallback_name w))
    as [H | [H1 [seg H2]]].
  - rewrite H. destruct w; split; (discriminate || reflexivity).
  - split; [assumption|]. rewrite H2. apply remove_char_clean.
Qed.

(** X15. The target of the link of a member is
    [/api/download_decrypted/<session>/<encoded name>], where the encoded
    name consists of unreserved characters and percent signs only (it
    holds no slash), and two different member names of one session never
    share a target. *)
Theorem X15_member_target (sid a b : string) :
  (href (member_link sid a) = href (member_link sid b) -> a = b)
  /\ (forall c, In c (chars (encodeURIComponent a)) ->
        uri_unreserved c = true \/ c = "%"%char)
  /\ includes (encodeURIComponent a) "/" = false
  /\ href (member_link sid a) =
     Location ("/api/download_decrypted/" ++ sid ++ "/" ++ encodeURIComponent a).
Proof.
  split; [|split; [|split]].
  - unfold member_link. cbn [href]. intros H. injection H as H.
    repeat apply append_cancel_l in H. injection H as H. now apply encodeURIComponent_inj.
  - apply encodeURIComponent_chars.
  - destruct (includes (encodeURIComponent a) "/") eqn:E; [exfalso | reflexivity].
    apply includes_true in E as [u [v E]].
    assert (H : In "/"%char (chars (encodeURIComponent a))).
    { rewrite E. unfold chars. clear. induction u; simpl; auto. }
    destruct (encodeURIComponent_chars _ _ H); discriminate.
  - reflexivity.
Qed.

(** X16. What [fmtBytes] shows is close to the count: a count of zero or
    less shows as [0 B]; a count of at least one is shown in the largest
    unit that is not larger than the count (gigabytes at most), and the
    quantity shown differs from the count by at most half a tenth of that
    unit (bytes are exact). *)
Theorem X16_fmtBytes_close (n : Z) :
  fmtBytes n = quantity_text (fst (rendered n)) (snd (rendered n))
  /\ ((n <= 0)%Z -> fmtBytes n = "0 B")
  /\ ((0 <= n)%Z ->
      (2 * Z.abs (rendered_bytes n - 10 * n) <= unit_size (snd (rendered n)))%Z)
  /\ ((1 <= n)%Z ->
      (unit_size (snd (rendered n)) <= n)%Z
      /\ (n < 1024 ^ 3 -> n < 1024 * unit_size (snd (rendered n)))%Z).
Proof.
  split; [apply fmtBytes_rendered|]. split; [|split].
  - intros H. unfold fmtBytes. destruct (Z.ltb_spec n 1); [reflexivity | lia].
  - apply rendered_close.
  - apply rendered_unit.
Qed.

(** X17. [downloadBlob] cleans up after itself. It creates an object URL,
    clicks an anchor on it and sets one timer; on a page with no other
    timer, where the number of the next object URL is not in use, the URL
    is alive and the anchor is in the document until 800 ms have passed,
    and from then on the object URLs and the children of the document
    body are what they were before the call. *)
Theorem X17_downloadBlob (b : Blob) (name : string) (p : Page) (ms : Z) :
  timers p = [] -> unused_next p = true ->
  let a := mkAnchor (ObjectUrl (nextObjectURL p)) name "" "" in
  events_of (downloadBlob b name) p =
    [ UrlCreated (nextObjectURL p); Clicked a;
      TimerSet 800 (RevokeAndRemove (nextObjectURL p)) ]
  /\ ((ms < 800)%Z ->
      live (run (tick ms) (run (downloadBlob b name) p)) (nextObjectURL p) = true
      /\ In (AnchorNode a) (childNodes (run (tick ms) (run (downloadBlob b name) p)) "body"))
  /\ ((800 <= ms)%Z ->
      objectURLs (run (tick ms) (run (downloadBlob b name) p)) = objectURLs p
      /\ childNodes (run (tick ms) (run (downloadBlob b name) p)) "body" = childNodes p "body"
      /\ timers (run (tick ms) (run (downloadBlob b name) p)) = []).
Proof.
  intros Ht Hu a.
  destruct (downloadBlob_page b name p) as [H1 [H2 [H3 [H4 H5]]]].
  fold a in H2, H5.
  set (q := run (downloadBlob b name) p) in *.
  rewrite Ht in H3. simpl in H3. rewrite <- H4 in H3.
  apply andb_true_iff in Hu as [Hu1 Hu2].
  split; [now apply events_of_trace|]. split.
  - intros Hms. unfold run. rewrite (tick_early q ms _ H3 Hms). cbn [fst].
    split.
    + change (existsb (fun u => Nat.eqb (fst u) (nextObjectURL p)) (objectURLs q) = true).
      rewrite H1. simpl. now rewrite Nat.eqb_refl.
    + change (In (AnchorNode a) (childNodes q "body")).
      rewrite H2. apply in_or_app. right. now left.
  - intros Hms. unfold run. rewrite (tick_due q ms _ H3 Hms).
    cbv [run_task bind revokeObjectURL remove_anchor emit with_objectURLs with_childNodes
         with_timers objectURLs childNodes timers fst upd].
    simpl String.eqb. cbv iota.
    fold (objectURLs q). fold (childNodes q). rewrite H1, H2.
    split; [|split; [|reflexivity]].
    + simpl. rewrite Nat.eqb_refl. simpl. now apply filter_all.
    + rewrite filter_app. simpl. rewrite Nat.eqb_refl. simpl. rewrite app_nil_r.
      now apply filter_all.
Qed.

Lemma X17_downloadBlob_witness :
  timers blank = [] /\ unused_next blank = true
  /\ objectURLs (run (tick 800) (run (downloadBlob (mkBlob "PK") "a.zip") blank)) = []
  /\ childNodes (run (tick 800) (run (downloadBlob (mkBlob "PK") "a.zip") blank)) "body" = [].
Proof.
  split; [reflexivity|]. split; [reflexivity|].
  destruct (X17_downloadBlob (mkBlob "PK") "a.zip" blank 800 eq_refl eq_refl) as [_ [_ H]].
  destruct (H ltac:(lia)) as [H1 [H2 _]]. split; [exact H1 | exact H2].
Defined.

(** X18. A time header of a comparison that is there and is no number
    makes the comparison report the AI as slower: the time is logged as
    [NaN], and the verdict line reads [AI was NaNs slower.]. *)
Theorem X18_unreadable_time (r : Response) (b : Blob) (name v : string) (p : Page) :
  ok r = true -> blob_body r = Ok b ->
  name = "X-Time-FIFO" \/ name = "X-Time-AI" ->
  headers_get r name = Some v -> v <> "" -> parse_decimal (trimStart v) = None ->
  In "🐌 AI was NaNs slower." (logged Compare (Ok r) p)
  /\ (name = "X-Time-FIFO" ->
      In "FIFO (Naive):   NaN seconds" (logged Compare (Ok r) p))
  /\ (name = "X-Time-AI" ->
      In "AI (Priority):  NaN seconds" (logged Compare (Ok r) p)).
Proof.
  intros Hok Hblob Hname Hh Hv Hp.
  pose proof (header_time_nan r name v Hh Hv Hp) as Hn.
  destruct (package_run Compare r b p (or_intror eq_refl) Hok Hblob) as [Hev _].
  unfold logged. rewrite Hev.
  assert (Hver : verdict (header_time r "X-Time-FIFO") (header_time r "X-Time-AI")
                 = "🐌 AI was NaNs slower.").
  { apply verdict_nan. destruct Hname as [-> | ->]; auto. }
  split; [|split].
  - simpl. rewrite Hver. intuition.
  - intros ->. simpl. rewrite Hn. simpl. intuition.
  - intros ->. simpl. rewrite Hn. simpl. intuition.
Qed.

Lemma X18_unreadable_time_witness :
  ok garbled = true /\ headers_get garbled "X-Time-FIFO" = Some "n/a"
  /\ parse_decimal (trimStart "n/a") = None
  /\ In "🐌 AI was NaNs slower." (logged Compare (Ok garbled) blank).
Proof.
  split; [reflexivity|]. split; [reflexivity|]. split; [reflexivity|].
  refine (proj1 (X18_unreadable_time garbled (mkBlob "PK") "X-Time-FIFO" "n/a" blank
                   eq_refl eq_refl (or_introl eq_refl) eq_refl _ eq_refl)).
  discriminate.
Defined.

(** X19. After [switchTab], for every argument and every screen, exactly
    one of the three tabs is selected: its button and its page are the
    only ones with the class [active], and its settings panel is the only
    one without the class [hidden]. Any argument other than [encrypt] and
    [decrypt] selects the compare tab, and a click on a tab button selects
    the tab of that button. *)
Theorem X19_one_tab (tabId : string) (s : Screen) :
  map (fun id => contains (show (switchTab tabId) s) id "active") tabs = selected tabId
  /\ map (fun id => contains (show (switchTab tabId) s) id "active") pages = selected tabId
  /\ map (fun id => contains (show (switchTab tabId) s) id "hidden") settingsPanels
     = map negb (selected tabId)
  /\ List.length (filter (fun b => b) (selected tabId)) = 1
  /\ (tabId <> "encrypt" -> tabId <> "decrypt" -> selected tabId = [false; false; true])
  /\ map (fun h => map (fun id => contains (show h s) id "active") tabs) tab_onclicks
     = [[true; false; false]; [false; true; false]; [false; false; true]].
Proof.
  unfold tab_onclicks, btnTabEncrypt_onclick, btnTabDecrypt_onclick, btnTabCompare_onclick.
  unfold tabs, pages, settingsPanels. cbn [map]. rewrite !switchTab_switched.
  unfold switched, selected.
  destruct (String.eqb_spec tabId "encrypt") as [E1 | E1];
    [|destruct (String.eqb_spec tabId "decrypt") as [E2 | E2]];
    repeat split; try reflexivity; intros; congruence.
Qed.

(** X20. [switchTab] decides the classes [active] and [hidden] of the tab
    buttons, the pages and the settings panels from its argument alone,
    and changes nothing else: the last call wins (a call repeated is a
    call made once), other class names, the page and the markup stay as
    they were, and the call returns. *)
Theorem X20_last_tab (a b : string) (s : Screen) (id c : string) :
  contains (show (switchTab a) s) id c = switched a id c (contains s id c)
  /\ contains (show (switchTab b) (show (switchTab a) s)) id c =
     contains (show (switchTab b) s) id c
  /\ (c <> "active" -> c <> "hidden" ->
      contains (show (switchTab a) s) id c = contains s id c)
  /\ page (show (switchTab a) s) = page s
  /\ innerHTML (show (switchTab a) s) = innerHTML s
  /\ snd (switchTab a s) = Ok tt.
Proof.
  split; [apply switchTab_switched|].
  split; [apply switchTab_last|]. split; [apply switchTab_other_class|].
  destruct (switchTab_rest a s) as [H1 [H2 _]].
  split; [assumption|]. split; [assumption | apply switchTab_returns].
Qed.

(** X21. [renderFileList], with an enable function that returns: the list
    element holds the markup of the files, one item per file in order,
    with every file name in it as it is (nothing is escaped); the summary
    is hidden exactly when there is no file; with files, it shows their
    number and the formatted sum of their sizes; without, the page is the
    one the enable function left (the summary keeps its text). *)
Theorem X21_renderFileList (fs : list File) (listElId summaryElId : string)
    (enableFn : M unit) (s : Screen) :
  snd (enableFn (page s)) = Ok tt ->
  let s' := show (renderFileList fs listElId summaryElId enableFn) s in
  snd (renderFileList fs listElId summaryElId enableFn s) = Ok tt
  /\ innerHTML s' listElId = join "" (map file_item fs)
  /\ contains s' summaryElId "hidden" = negb (nonzero (List.length fs))
  /\ disabled (page s') = disabled (run enableFn (page s))
  /\ (fs <> [] ->
      shown (page s') summaryElId =
      decimal (Z.of_nat (List.length fs)) ++ " file(s) — Total size: "
      ++ fmtBytes (total_size fs))
  /\ (fs = [] -> page s' = run enableFn (page s))
  /\ (forall f, In f fs ->
        includes (innerHTML s' listElId) ("<h4>" ++ file_name f ++ "</h4>") = true).
Proof. apply renderFileList_spec. Qed.

Lemma X21_renderFileList_witness :
  snd (enableEncrypt (page bare)) = Ok tt
  /\ innerHTML (show (renderFileList two_files "fileList-enc" "summary-enc" enableEncrypt) bare)
       "fileList-enc" = join "" (map file_item two_files)
  /\ shown (page (show (renderFileList two_files "fileList-enc" "summary-enc" enableEncrypt)
                    bare)) "summary-enc" = "2 file(s) — Total size: 2.0 KB".
Proof.
  split; [reflexivity|].
  destruct (X21_renderFileList two_files "fileList-enc" "summary-enc" enableEncrypt bare eq_refl)
    as [_ [H1 [_ [_ [H2 _]]]]].
  split; [exact H1|]. apply H2. discriminate.
Defined.

(** X22. A drop on the zone of the encrypt or of the compare tab replaces
    the files chosen for that workflow by the files dropped (none, when
    the event carries none) and leaves the other workflow's alone; the
    trigger is enabled exactly when a file was dropped and the trimmed
    password is not empty, the list shows the files dropped, the
    highlight of the zone is gone, and a request sent from that page
    uploads exactly the files dropped. *)
Theorem X22_drop (w : Workflow) (e : DragEvent) (s : Screen) :
  packaging w ->
  let fs := Array_from (dataTransfer_files e) in
  let s' := show (ondrop_of w e) s in
  snd (ondrop_of w e s) = Ok tt
  /\ selection_of w (page s') = fs
  /\ (forall w', w' <> w -> selection_of w' (page s') = selection_of w' (page s))
  /\ disabled (page s') (button_of w) =
     negb (nonzero (List.length fs) && nonempty (trim (value (page s) (password_of w))))
  /\ innerHTML s' (list_of w) = join "" (map file_item fs)
  /\ contains s' (summary_of w) "hidden" = negb (nonzero (List.length fs))
  /\ contains s' (zone_of w) "drag-over" = false
  /\ uploads (request_of w (page s')) = fs
  /\ notes s' = (notes s ++ [DefaultPrevented "drop"])%list.
Proof.
  intros Hw fs s'. unfold s', show. rewrite (ondrop_steps w e s Hw). fold fs.
  set (s0 := show (classList_remove (zone_of w) "drag-over") (note (DefaultPrevented "drop") s)).
  destruct (chosen_rendered w fs s0 Hw) as [H1 [H2 [H3 [H4 [H5 [H6 [H7 [H8 H9]]]]]]]].
  match goal with
  | |- context [fst (renderFileList ?a ?b ?c ?d ?x)] =>
      change (fst (renderFileList a b c d x)) with (show (renderFileList a b c d) x)
  end.
  repeat split; try assumption.
  - rewrite H9.
    + unfold s0. rewrite contains_remove, !String.eqb_refl. apply andb_false_r.
    + destruct Hw as [-> | ->]; discriminate.
Qed.

Lemma X22_drop_witness :
  packaging Encrypt
  /\ selection_of Encrypt (page (show (ondrop_of Encrypt (mkDragEvent (Some two_files))) bare))
     = two_files
  /\ disabled (page (show (ondrop_of Encrypt (mkDragEvent (Some two_files))) bare))
       "btnEncrypt" = true.
Proof.
  split; [now left|].
  destruct (X22_drop Encrypt (mkDragEvent (Some two_files)) bare (or_introl eq_refl))
    as [_ [H1 [_ [H2 _]]]].
  split; [exact H1 | exact H2].
Defined.

(** X23. A change of the file input of the encrypt or of the compare tab
    replaces the files chosen for that workflow by the files of the input,
    as a drop does with the files dropped. *)
Theorem X23_change (w : Workflow) (s : Screen) :
  packaging w ->
  let fs := files (page s) (input_of w) in
  let s' := show (onchange_of w) s in
  snd (onchange_of w s) = Ok tt
  /\ selection_of w (page s') = fs
  /\ (forall w', w' <> w -> selection_of w' (page s') = selection_of w' (page s))
  /\ disabled (page s') (button_of w) =
     negb (nonzero (List.length fs) && nonempty (trim (value (page s) (password_of w))))
  /\ innerHTML s' (list_of w) = join "" (map file_item fs)
  /\ uploads (request_of w (page s')) = fs.
Proof.
  intros Hw fs s'. unfold s', show. rewrite (onchange_steps w s Hw). fold fs.
  destruct (chosen_rendered w fs s Hw) as [H1 [H2 [H3 [H4 [H5 [H6 [H7 _]]]]]]].
  match goal with
  | |- context [fst (renderFileList ?a ?b ?c ?d ?x)] =>
      change (fst (renderFileList a b c d x)) with (show (renderFileList a b c d) x)
  end.
  repeat split; assumption.
Qed.

Lemma X23_change_witness :
  packaging Compare
  /\ selection_of Compare
       (page (show (onchange_of Compare)
                (with_page (set_files "files-cmp" two_files blank) bare))) = two_files.
Proof.
  split; [now right|].
  exact (proj1 (proj2 (X23_change Compare (with_page (set_files "files-cmp" two_files blank) bare)
                         (or_intror eq_refl)))).
Defined.

(** X24. [fetchAutoSettings] never throws, and sends one GET request.
    When the response is a success whose body parses and whose two
    settings can be shown, the labels of both tabs show them (a setting
    that is missing shows as no text); in every other case, wherever the
    failure occurs, all four labels show the defaults and the console is
    told once. The labels of the two tabs therefore always agree. *)
Theorem X24_settings (settled : result Response) (s : Screen) :
  snd (fetchAutoSettings settled s) = Ok tt
  /\ trace (page (show (fetchAutoSettings settled) s)) =
     (trace (page s) ++ [Fetched (mkRequest "/api/settings" "GET" [])])%list
  /\ match settings_texts settled with
     | Ok (wt, ct) =>
         labels (page (show (fetchAutoSettings settled) s)) = [wt; ct; wt; ct]
         /\ notes (show (fetchAutoSettings settled) s) = notes s
     | Throw e =>
         labels (page (show (fetchAutoSettings settled) s)) =
           ["4 (Default)"; "8 (Default)"; "4 (Default)"; "8 (Default)"]
         /\ notes (show (fetchAutoSettings settled) s) =
            (notes s ++ [ConsoleError "Failed to load auto-settings" e])%list
     end
  /\ settings_texts (Ok tuned) = Ok ("8", "16")
  /\ (forall r, ok r = true -> json_body r = Ok (JObj []) ->
        settings_texts (Ok r) = Ok ("", "")).
Proof.
  destruct (fetchAutoSettings_spec settled s) as [H1 [H2 [_ [_ [_ [_ [_ H3]]]]]]].
  split; [exact H1|]. split; [exact H2|]. split; [exact H3|].
  split; [vm_compute; reflexivity|].
  intros r Hok Hj. unfold settings_texts. cbn [rbind]. now rewrite Hok, Hj.
Qed.

(** X25. The load of the window, whatever the request for the settings
    comes to: the encrypt tab is selected, the footer reads [Status:
    Ready], the chart has both bars at zero, no trigger has changed, and
    the page has logged the status and sent the request for the settings. *)
Theorem X25_onload (settled : result Response) (s : Screen) :
  let s' := show (window_onload settled) s in
  snd (window_onload settled s) = Ok tt
  /\ map (fun id => contains s' id "active") tabs = [true; false; false]
  /\ map (fun id => contains s' id "active") pages = [true; false; false]
  /\ map (fun id => contains s' id "hidden") settingsPanels = [false; true; true]
  /\ shown (page s') "footer" = "Status: Ready"
  /\ comparisonChart (page s') = Some (zero, zero)
  /\ disabled (page s') = disabled (page s)
  /\ trace (page s') =
     (trace (page s) ++ [Status "Ready"; Fetched (mkRequest "/api/settings" "GET" [])])%list.
Proof.
  intros s'. unfold s', show. rewrite window_onload_steps.
  set (s1 := with_page (run initChart (page s)) s).
  destruct (switchTab_rest "encrypt" s1) as [K1 _].
  destruct (onload_tail settled (page s1) (show (switchTab "encrypt") s1) K1)
    as [H1 [H2 [H3 [H4 [H5 H6]]]]].
  unfold tabs, pages, settingsPanels. cbn [map].
  rewrite !H2, !switchTab_switched, H3, H4, H5, H6.
  split; [exact H1|]. repeat split.
Qed.

(** X26. The highlight of a drop zone. A drag over the zone of the encrypt
    or of the compare tab prevents the default of the event and puts the
    class [drag-over] on the zone, once however often the event fires; a
    drag that leaves the zone takes the class off and prevents nothing,
    so that no highlight is left after it. Neither handler touches another
    class, another element, the page or the markup. *)
Theorem X26_drag_highlight (w : Workflow) (s : Screen) (id c : string) :
  packaging w ->
  let over := show (ondragover_of w) s in
  let left := show (ondragleave_of w) s in
  contains over id c =
    (contains s id c || (String.eqb id (zone_of w) && String.eqb c "drag-over"))
  /\ contains left id c =
     (contains s id c && negb (String.eqb id (zone_of w) && String.eqb c "drag-over"))
  /\ contains (show (ondragleave_of w) over) (zone_of w) "drag-over" = false
  /\ show (ondragover_of w) over = note (DefaultPrevented "dragover") over
  /\ notes over = (notes s ++ [DefaultPrevented "dragover"])%list
  /\ notes left = notes s
  /\ page over = page s /\ page left = page s
  /\ innerHTML over = innerHTML s /\ innerHTML left = innerHTML s
  /\ snd (ondragover_of w s) = Ok tt /\ snd (ondragleave_of w s) = Ok tt.
Proof.
  intros Hw over left. unfold over, left, show.
  rewrite !(ondragover_steps w _ Hw), !(ondragleave_steps w _ Hw).
  set (s0 := note (DefaultPrevented "dragover") s).
  change (fst (classList_add (zone_of w) "drag-over" s0))
    with (show (classList_add (zone_of w) "drag-over") s0).
  set (s1 := show (classList_add (zone_of w) "drag-over") s0).
  change (fst (classList_remove (zone_of w) "drag-over" s1))
    with (show (classList_remove (zone_of w) "drag-over") s1).
  change (fst (classList_remove (zone_of w) "drag-over" s))
    with (show (classList_remove (zone_of w) "drag-over") s).
  destruct (add_rest (zone_of w) "drag-over" s0) as [A1 [A2 A3]].
  destruct (remove_rest (zone_of w) "drag-over" s) as [R1 [R2 R3]].
  fold s1 in A1, A2, A3.
  split; [unfold s1; now rewrite contains_add|].
  split; [apply contains_remove|].
  split; [rewrite contains_remove, !String.eqb_refl; apply andb_false_r|].
  split.
  { assert (Hc : contains s1 (zone_of w) "drag-over" = true).
    { unfold s1. rewrite contains_add, !String.eqb_refl. apply orb_true_r. }
    unfold classList_add.
    assert (Hn : contains (note (DefaultPrevented "dragover") s1) (zone_of w) "drag-over"
                 = true) by exact Hc.
    now rewrite Hn. }
  repeat split; assumption || reflexivity.
Qed.

Lemma X26_drag_highlight_witness :
  packaging Compare
  /\ contains (show (ondragover_of Compare) bare) "drop-cmp" "drag-over" = true
  /\ contains (show (ondragleave_of Compare) (show (ondragover_of Compare) bare))
       "drop-cmp" "drag-over" = false.
Proof.
  split; [now right|].
  destruct (X26_drag_highlight Compare bare "drop-cmp" "drag-over" (or_intror eq_refl))
    as [H1 [_ [H2 _]]].
  split; [exact H1 | exact H2].
Defined.
